(** * The interpreter session of [libs/interpreter_lib.py]

    A shallow embedding of the [Interpreter] class: its mode flags, the
    prompt builders, the generation call, the execution boundary, the
    stale-file cleanup and the read-eval loop [interpreter_main].

    Python values are modelled as follows.
    - [str] is [string]; [s.lower()] is [lower] (ASCII letters), [a in b]
      on strings is [str_in a b], [a + b] is [a +:+ b].
    - [None]-or-string values are [option string]; Python truthiness of
      such a value is [truthy].
    - a [dict] with string keys is a [gmap string _].
    - the object [self] is the record [Interpreter]; what changes
      around it (the working directory, how far the terminal has been
      read) is kept with it in the record [State].  Methods run in the
      monad [M], which threads the state, lists the calls made to the
      outside as [event]s and carries a raised exception as [Raise].
    - a raised exception is its class name and its text ([exn]);
      [is_Exception] tells the classes under [Exception] from
      [KeyboardInterrupt], [SystemExit] and the like, which an
      [except Exception] clause lets through.
    - [input] yields the line the user types, or raises what [input()]
      raises ([EOFError] at the end of the input, [KeyboardInterrupt]).
    - collaborators whose code lives in other modules ([CodeInterpreter],
      [PackageInstaller], [UtilityManager], [completion]) are parameters
      bundled in the record [Env].
    - calls to [self.logger] are kept in the methods that catch an
      exception ([_clean_responses], [_open_resource_file],
      [_extract_content], [execute_code], the loop); the informational
      lines of [generate_text] and of the loop body are dropped.
    - [__init__], [initialize] and [initialize_client] read the files
      and the environment through the record [Startup]. *)

From Stdlib Require Import String Ascii List Bool Arith Lia ZArith PrimFloat.
From stdpp Require Import base option gmap strings.

(* Python's literal 0.1 is the same nearest double. *)
Set Warnings "-inexact-float".

Local Open Scope string_scope.
Local Open Scope list_scope.
#[local] Arguments String.append : simpl nomatch.

(** ** Strings *)

Module Str.

Definition lower_ascii (c : ascii) : ascii :=
  let n := nat_of_ascii c in
  if (65 <=? n)%nat && (n <=? 90)%nat then ascii_of_nat (n + 32) else c.

(** [s.lower()] *)
Fixpoint lower (s : string) : string :=
  match s with
  | EmptyString => EmptyString
  | String c s' => String (lower_ascii c) (lower s')
  end.

(** [s.startswith(p)] *)
Fixpoint startswith (p s : string) : bool :=
  match p, s with
  | EmptyString, _ => true
  | String _ _, EmptyString => false
  | String a p', String b s' => Ascii.eqb a b && startswith p' s'
  end.

(** [sub in s] *)
Fixpoint str_in (sub s : string) : bool :=
  startswith sub s
  || match s with
     | EmptyString => false
     | String _ s' => str_in sub s'
     end.

(** [any(x in s for x in xs)] *)
Definition any_in (xs : list string) (s : string) : bool :=
  existsb (fun x => str_in x s) xs.

(** [x in xs] for a list of strings *)
Definition mem (x : string) (xs : list string) : bool :=
  existsb (String.eqb x) xs.

(** Truthiness of a [str]. *)
Definition nonempty (s : string) : bool :=
  match s with EmptyString => false | String _ _ => true end.

(** The character [c] occurs in [s]. *)
Fixpoint has_char (c : ascii) (s : string) : bool :=
  match s with
  | EmptyString => false
  | String a s' => Ascii.eqb c a || has_char c s'
  end.

End Str.

(** Truthiness of a value that is [None] or a [str]. *)
Definition truthy (v : option string) : bool :=
  match v with
  | None => false
  | Some s => Str.nonempty s
  end.

Definition nl : string := String (ascii_of_nat 10) EmptyString.

(** ** Data model *)

(** The parsed command line ([self.args]). *)
Record Args := {
  args_lang : option string;
  args_save_code : bool;
  args_exec : bool;
  args_display_code : bool;
  args_model : option string;
  args_mode : option string
}.

(** The fields of [self]. *)
Record Interpreter := {
  args : Args;
  history : list (string * string);
  INTERPRETER_LANGUAGE : string;
  SAVE_CODE : bool;
  EXECUTE_CODE : bool;
  DISPLAY_CODE : bool;
  INTERPRRETER_MODEL : string;
  CODE_MODE : bool;
  SCRIPT_MODE : bool;
  COMMAND_MODE : bool;
  config_values : gmap string string;
  system_message : string
}.

Definition with_history (h : list (string * string)) (i : Interpreter) :=
  {| args := args i; history := h;
     INTERPRETER_LANGUAGE := INTERPRETER_LANGUAGE i; SAVE_CODE := SAVE_CODE i;
     EXECUTE_CODE := EXECUTE_CODE i; DISPLAY_CODE := DISPLAY_CODE i;
     INTERPRRETER_MODEL := INTERPRRETER_MODEL i; CODE_MODE := CODE_MODE i;
     SCRIPT_MODE := SCRIPT_MODE i; COMMAND_MODE := COMMAND_MODE i;
     config_values := config_values i; system_message := system_message i |}.

Definition with_language (l : string) (i : Interpreter) :=
  {| args := args i; history := history i;
     INTERPRETER_LANGUAGE := l; SAVE_CODE := SAVE_CODE i;
     EXECUTE_CODE := EXECUTE_CODE i; DISPLAY_CODE := DISPLAY_CODE i;
     INTERPRRETER_MODEL := INTERPRRETER_MODEL i; CODE_MODE := CODE_MODE i;
     SCRIPT_MODE := SCRIPT_MODE i; COMMAND_MODE := COMMAND_MODE i;
     config_values := config_values i; system_message := system_message i |}.

Definition with_model (m : string) (i : Interpreter) :=
  {| args := args i; history := history i;
     INTERPRETER_LANGUAGE := INTERPRETER_LANGUAGE i; SAVE_CODE := SAVE_CODE i;
     EXECUTE_CODE := EXECUTE_CODE i; DISPLAY_CODE := DISPLAY_CODE i;
     INTERPRRETER_MODEL := m; CODE_MODE := CODE_MODE i;
     SCRIPT_MODE := SCRIPT_MODE i; COMMAND_MODE := COMMAND_MODE i;
     config_values := config_values i; system_message := system_message i |}.

Definition with_modes (c s k : bool) (i : Interpreter) :=
  {| args := args i; history := history i;
     INTERPRETER_LANGUAGE := INTERPRETER_LANGUAGE i; SAVE_CODE := SAVE_CODE i;
     EXECUTE_CODE := EXECUTE_CODE i; DISPLAY_CODE := DISPLAY_CODE i;
     INTERPRRETER_MODEL := INTERPRRETER_MODEL i; CODE_MODE := c;
     SCRIPT_MODE := s; COMMAND_MODE := k;
     config_values := config_values i; system_message := system_message i |}.

(** One entry of the message sequence handed to the completion call. *)
Record chat_message := { role : string; content : option string }.

(** The values a completion response is made of. *)
#[warnings="-register-all"]
Inductive pyval :=
| PNone
| PStr (s : string)
| PInt (z : Z)
| PList (l : list pyval)
| PDict (d : list (string * pyval)).

(** A raised exception: its class and [str(exception)]. *)
Record exn := { exn_type : string; exn_text : string }.

Inductive Res (A : Type) :=
| Ok (a : A)
| Raise (e : exn).
Arguments Ok {A} a.
Arguments Raise {A} e.

(** What a path names in the working directory. *)
Inductive node := File | Dir.

(** What the session does to the outside, in the order it does it. *)
Inductive event :=
| EvInput (prompt answer : string)
| EvInputRaised (prompt : string)
| EvPrint (s : string)
| EvLogInfo (s : string)
| EvLogError (s : string)
| EvTraceback
| EvDisplayCode (s : string)
| EvDisplayMarkdown (s : string)
| EvCompletion (model : string) (messages : list chat_message)
               (temperature : PrimFloat.float) (max_tokens : Z)
               (api : option (string * string))
| EvExtractCode (start_sep end_sep : string) (skip_first_line : bool)
| EvSaveCode (path code : string)
| EvExecuteScript (code os_type : string)
| EvExecuteCommand (code : string)
| EvExecuteCode (code language : string)
| EvExtractPackageName (error language : string)
| EvInstallPackage (package language : string)
| EvSubprocessCall (argv : list string)
| EvSaveHistory (task mode os_name language prompt code model : string).

(** The mutable part of a run: the object, the working directory and the
    number of lines read from the terminal so far. *)
Record State := {
  st_self : Interpreter;
  st_fs : gmap string node;
  st_cursor : nat
}.

(** The collaborators of the class.  Those that touch the working
    directory take it and give it back. *)
Record Env := {
  (** the line the user types at the [n]-th call of [input] *)
  stdin : nat -> string;
  (** what [input()] raises instead of reading the [n]-th line, if
      anything: [EOFError] when the input has ended, [KeyboardInterrupt] *)
  input_error : nat -> option exn;
  (** [float(s)] and [int(s)] on a [str]; [None] is [ValueError] *)
  py_float : string -> option PrimFloat.float;
  py_int : string -> option Z;
  (** [repr(s)] of a [str], as the messages of these errors quote it *)
  py_repr : string -> string;
  (** [litellm.completion] *)
  completion : string -> list chat_message -> PrimFloat.float -> Z ->
               option (string * string) -> Res pyval;
  (** [CodeInterpreter] *)
  extract_code : pyval -> string -> string -> bool -> Res string;
  save_code : string -> string -> gmap string node ->
              Res unit * gmap string node;
  run_script : string -> string -> gmap string node ->
               Res (option string * option string) * gmap string node;
  run_command : string -> gmap string node ->
                Res (option string * option string) * gmap string node;
  run_code : string -> string -> gmap string node ->
             Res (option string * option string) * gmap string node;
  (** [PackageInstaller] *)
  extract_package_name : string -> string -> Res (option string);
  install_package : string -> string -> gmap string node ->
                    Res unit * gmap string node;
  (** [UtilityManager] *)
  get_os_platform_0 : string;
  save_history_json : string -> string -> string -> string -> string ->
                      string -> string -> gmap string node ->
                      Res unit * gmap string node;
  (** [os.remove] on an existing file: the text of the [OSError] when the
      system refuses *)
  os_remove_error : string -> option string;
  (** [platform.system()] and [subprocess.call] *)
  platform_system : string;
  subprocess_call : list string -> option exn;
  (** [time.strftime("%H:%M:%S", time.localtime())] *)
  strftime_now : string
}.

(** ** The monad of methods *)

Record Out (A : Type) := {
  out_res : Res A;
  out_state : State;
  out_events : list event
}.
Arguments out_res {A} _.
Arguments out_state {A} _.
Arguments out_events {A} _.

Definition M (A : Type) : Type := State -> Out A.

Definition ret {A} (a : A) : M A :=
  fun s => {| out_res := Ok a; out_state := s; out_events := [] |}.

Definition raise {A} (e : exn) : M A :=
  fun s => {| out_res := Raise e; out_state := s; out_events := [] |}.

Definition bind {A B} (m : M A) (f : A -> M B) : M B :=
  fun s =>
    let o := m s in
    match out_res o with
    | Ok a =>
        let o' := f a (out_state o) in
        {| out_res := out_res o'; out_state := out_state o';
           out_events := out_events o ++ out_events o' |}
    | Raise e =>
        {| out_res := Raise e; out_state := out_state o;
           out_events := out_events o |}
    end.

(** [try: m  except: h e], the clause that catches everything *)
Definition try_except {A} (m : M A) (h : exn -> M A) : M A :=
  fun s =>
    let o := m s in
    match out_res o with
    | Ok a => o
    | Raise e =>
        let o' := h e (out_state o) in
        {| out_res := out_res o'; out_state := out_state o';
           out_events := out_events o ++ out_events o' |}
    end.

(** The classes that are not under [Exception]: the built-in ones and
    [asyncio.CancelledError]. *)
Definition outside_Exception : list string :=
  ["BaseException"; "BaseExceptionGroup"; "GeneratorExit"; "KeyboardInterrupt";
   "SystemExit"; "CancelledError"].

(** [isinstance(e, Exception)] *)
Definition is_Exception (e : exn) : bool :=
  negb (Str.mem (exn_type e) outside_Exception).

(** [try: m  except Exception as e: h e]: what is not an [Exception]
    goes on to the caller. *)
Definition try_except_Exception {A} (m : M A) (h : exn -> M A) : M A :=
  try_except m (fun e => if is_Exception e then h e else raise e).

Declare Scope py_scope.
Delimit Scope py_scope with py.
Notation "x <- y ; z" := (bind y (fun x => z))
  (at level 20, y at level 100, z at level 200, only parsing) : py_scope.
Notation "x ;; z" := (bind x (fun _ => z))
  (at level 100, z at level 200, only parsing, right associativity) : py_scope.
Local Open Scope py_scope.

Definition emit (e : event) : M unit :=
  fun s => {| out_res := Ok tt; out_state := s; out_events := [e] |}.

Definition get_self : M Interpreter :=
  fun s => {| out_res := Ok (st_self s); out_state := s; out_events := [] |}.

Definition modify_self (f : Interpreter -> Interpreter) : M unit :=
  fun s => {| out_res := Ok tt;
              out_state := {| st_self := f (st_self s); st_fs := st_fs s;
                              st_cursor := st_cursor s |};
              out_events := [] |}.

(** A collaborator that works on the directory. *)
Definition on_fs {A} (e : event)
    (call : gmap string node -> Res A * gmap string node) : M A :=
  fun s =>
    let r := call (st_fs s) in
    {| out_res := fst r;
       out_state := {| st_self := st_self s; st_fs := snd r;
                       st_cursor := st_cursor s |};
       out_events := [e] |}.

(** A collaborator that only answers. *)
Definition ask {A} (e : event) (r : Res A) : M A :=
  fun s => {| out_res := r; out_state := s; out_events := [e] |}.

(** [for x in xs: body x] *)
Fixpoint for_each {A} (xs : list A) (body : A -> M unit) : M unit :=
  match xs with
  | [] => ret tt
  | x :: xs' => body x ;; for_each xs' body
  end.

(** ** Subscripting a response *)

Definition KeyError (t : string) : exn := {| exn_type := "KeyError"; exn_text := t |}.
Definition TypeError (t : string) : exn := {| exn_type := "TypeError"; exn_text := t |}.
Definition IndexError (t : string) : exn := {| exn_type := "IndexError"; exn_text := t |}.
Definition ValueError (t : string) : exn := {| exn_type := "ValueError"; exn_text := t |}.
Definition AttributeError (t : string) : exn :=
  {| exn_type := "AttributeError"; exn_text := t |}.
Definition OSError (t : string) : exn := {| exn_type := "OSError"; exn_text := t |}.

Fixpoint assoc (k : string) (d : list (string * pyval)) : option pyval :=
  match d with
  | [] => None
  | (k', v) :: d' => if String.eqb k k' then Some v else assoc k d'
  end.

(** [v[k]] for a string key *)
Definition getitem_key (v : pyval) (k : string) : Res pyval :=
  match v with
  | PDict d =>
      match assoc k d with
      | Some x => Ok x
      | None => Raise (KeyError ("'" +:+ k +:+ "'"))
      end
  | PList _ => Raise (TypeError "list indices must be integers or slices, not str")
  | PStr _ => Raise (TypeError "string indices must be integers, not 'str'")
  | PNone => Raise (TypeError "'NoneType' object is not subscriptable")
  | PInt _ => Raise (TypeError "'int' object is not subscriptable")
  end.

(** [v[0]] *)
Definition getitem_0 (v : pyval) : Res pyval :=
  match v with
  | PList [] => Raise (IndexError "list index out of range")
  | PList (x :: _) => Ok x
  | PDict _ => Raise (KeyError "0")
  | PStr EmptyString => Raise (IndexError "string index out of range")
  | PStr (String c _) => Ok (PStr (String c EmptyString))
  | PNone => Raise (TypeError "'NoneType' object is not subscriptable")
  | PInt _ => Raise (TypeError "'int' object is not subscriptable")
  end.

Definition lift {A} (r : Res A) : M A :=
  fun s => {| out_res := r; out_state := s; out_events := [] |}.

(** ** The methods of [Interpreter] *)

Section Methods.

Variable env : Env.

(** [input(prompt)]: the prompt is shown, then the next line of the
    terminal is read, unless the read raises. *)
Definition input (prompt : string) : M string :=
  fun s =>
    match input_error env (st_cursor s) with
    | Some e =>
        {| out_res := Raise e; out_state := s;
           out_events := [EvInputRaised prompt] |}
    | None =>
        let a := stdin env (st_cursor s) in
        {| out_res := Ok a;
           out_state := {| st_self := st_self s; st_fs := st_fs s;
                           st_cursor := S (st_cursor s) |};
           out_events := [EvInput prompt a] |}
    end.

(** [os.path.isfile(f)] *)
Definition isfile (f : string) : M bool :=
  fun s =>
    {| out_res := Ok match st_fs s !! f with
                     | Some File => true
                     | _ => false
                     end;
       out_state := s; out_events := [] |}.

(** [os.remove(f)] *)
Definition os_remove (f : string) : M unit :=
  fun s =>
    match st_fs s !! f with
    | Some File =>
        match os_remove_error env f with
        | Some t =>
            {| out_res := Raise (OSError t); out_state := s; out_events := [] |}
        | None =>
            {| out_res := Ok tt;
               out_state := {| st_self := st_self s;
                               st_fs := delete f (st_fs s);
                               st_cursor := st_cursor s |};
               out_events := [] |}
        end
    | Some Dir =>
        {| out_res := Raise (OSError ("Is a directory: '" +:+ f +:+ "'"));
           out_state := s; out_events := [] |}
    | None =>
        {| out_res := Raise (OSError ("No such file or directory: '" +:+ f +:+ "'"));
           out_state := s; out_events := [] |}
    end.

Definition subprocess (argv : list string) : M unit :=
  ask (EvSubprocessCall argv)
      match subprocess_call env argv with
      | Some e => Raise e
      | None => Ok tt
      end.

Definition display_code (s : string) : M unit := emit (EvDisplayCode s).
Definition display_markdown_message (s : string) : M unit :=
  emit (EvDisplayMarkdown s).

Definition _open_resource_file (filename : string) : M unit :=
  try_except_Exception
    (b <- isfile filename;
     if b then
       (if String.eqb (platform_system env) "Windows" then
          subprocess ["start"; filename]
        else if String.eqb (platform_system env) "Darwin" then
          subprocess ["open"; filename]
        else if String.eqb (platform_system env) "Linux" then
          subprocess ["xdg-open"; filename]
        else ret tt) ;;
       emit (EvLogInfo (filename +:+ " exists and opened successfully"))
     else ret tt)
    (fun exception =>
       display_markdown_message
         ("Error in opening files: " +:+ exn_text exception)).

Definition files_to_remove : list string := ["graph.png"; "chart.png"; "table.md"].

Definition _clean_responses : M unit :=
  for_each files_to_remove (fun file =>
    try_except_Exception
      (b <- isfile file;
       if b then
         os_remove file ;;
         emit (EvLogInfo (file +:+ " removed successfully"))
       else ret tt)
      (fun e =>
         emit (EvPrint ("Error in removing " +:+ file +:+ ": " +:+ exn_text e)))).

Definition _extract_content (output : pyval) : M pyval :=
  try_except
    (choices <- lift (getitem_key output "choices");
     first <- lift (getitem_0 choices);
     msg <- lift (getitem_key first "message");
     lift (getitem_key msg "content"))
    (fun e =>
       if String.eqb (exn_type e) "KeyError" || String.eqb (exn_type e) "TypeError"
       then emit (EvLogError ("Error extracting content: " +:+ exn_text e)) ;;
            raise e
       else raise e).

Definition mode_is (v : string) (m : option string) : bool :=
  match m with
  | Some s => String.eqb s v
  | None => false
  end.

Definition initialize_mode : M unit :=
  self <- get_self;
  modify_self (fun i => with_modes (mode_is "code" (args_mode (args self)))
                                   (SCRIPT_MODE i) (COMMAND_MODE i) i) ;;
  modify_self (fun i => with_modes (CODE_MODE i)
                                   (mode_is "script" (args_mode (args self)))
                                   (COMMAND_MODE i) i) ;;
  modify_self (fun i => with_modes (CODE_MODE i) (SCRIPT_MODE i)
                                   (mode_is "command" (args_mode (args self))) i) ;;
  self <- get_self;
  if negb (SCRIPT_MODE self) && negb (COMMAND_MODE self) then
    modify_self (fun i => with_modes true (SCRIPT_MODE i) (COMMAND_MODE i) i)
  else ret tt.

Definition script_system_message : string :=
  "Please generate a well-written script that is precise, easy to understand, and compatible with the current operating system.".
Definition command_system_message : string :=
  "Please generate a single line command that is precise, easy to understand, and compatible with the current operating system.".

Definition get_prompt (self : Interpreter) (message : string)
    (chat_history : list (string * string)) : list chat_message :=
  let system_message :=
    if CODE_MODE self then Some (system_message self)
    else if SCRIPT_MODE self then Some script_system_message
    else if COMMAND_MODE self then Some command_system_message
    else None in
  [ {| role := "system"; content := system_message |};
    {| role := "assistant";
       content := Some "Please generate code wrapped inside triple backticks known as codeblock." |};
    {| role := "user"; content := Some message |} ].

Definition default_temperature : PrimFloat.float := 0.1%float.
Definition default_max_tokens : Z := 1024%Z.

(** [float(config_values.get('temperature', temperature))] *)
Definition config_float (cfg : gmap string string) (key : string)
    (default : PrimFloat.float) : M PrimFloat.float :=
  match cfg !! key with
  | Some v =>
      match py_float env v with
      | Some x => ret x
      | None => raise (ValueError ("could not convert string to float: " +:+ py_repr env v))
      end
  | None => ret default
  end.

(** [int(config_values.get('max_tokens', max_tokens))] *)
Definition config_int (cfg : gmap string string) (key : string)
    (default : Z) : M Z :=
  match cfg !! key with
  | Some v =>
      match py_int env v with
      | Some x => ret x
      | None => raise (ValueError ("invalid literal for int() with base 10: " +:+ py_repr env v))
      end
  | None => ret default
  end.

Definition call_completion (model : string) (messages : list chat_message)
    (temperature : PrimFloat.float) (max_tokens : Z)
    (api : option (string * string)) : M pyval :=
  ask (EvCompletion model messages temperature max_tokens api)
      (completion env model messages temperature max_tokens api).

Definition heaven_api_base : string := "https://heaven-gpt.haseebmir.repl.co".

(** The assignment to [os.environ] in the gpt branch is not modelled:
    nothing in the class reads it back. *)
Definition generate_text (message : string)
    (chat_history : list (string * string))
    (temperature : PrimFloat.float) (max_tokens : Z)
    (config_values : option (gmap string string)) : M pyval :=
  params <-
    match config_values with
    | Some cfg =>
        if bool_decide (cfg = ∅) then ret (temperature, max_tokens)
        else
          t <- config_float cfg "temperature" temperature;
          n <- config_int cfg "max_tokens" max_tokens;
          ret (t, n)
    | None => ret (temperature, max_tokens)
    end;
  self <- get_self;
  let messages := get_prompt self message chat_history in
  (if negb (Str.str_in "huggingface/" (INTERPRRETER_MODEL self))
      && negb (Str.str_in "gpt" (INTERPRRETER_MODEL self))
   then modify_self (fun i => with_model ("huggingface/" +:+ INTERPRRETER_MODEL i) i)
   else ret tt) ;;
  self <- get_self;
  output <-
    (if Str.str_in "gpt-3.5-turbo" (INTERPRRETER_MODEL self) then
       call_completion (INTERPRRETER_MODEL self) messages 0.1%float 2048%Z
                       (Some (heaven_api_base, "openai"))
     else
       call_completion (INTERPRRETER_MODEL self) messages
                       (fst params) (snd params) None);
  _extract_content output.

Definition handle_code_mode (task os_name : string) : M string :=
  self <- get_self;
  let prompt :=
    "Generate the code in " +:+ INTERPRETER_LANGUAGE self
    +:+ " language for this task '" +:+ task
    +:+ " for Operating System: " +:+ os_name +:+ "'." in
  modify_self (fun i => with_history (history i ++ [(task, prompt)]) i) ;;
  ret prompt.

(** [language_map.get(os_name.lower(), 'python')] *)
Definition language_map_get (os_lower : string) : string :=
  if String.eqb os_lower "macos" then "applescript"
  else if String.eqb os_lower "linux" then "bash"
  else if String.eqb os_lower "windows" then "powershell"
  else "python".

Definition handle_script_mode (task os_name : string) : M string :=
  modify_self (with_language (language_map_get (Str.lower os_name))) ;;
  let script_type :=
    if String.eqb (Str.lower os_name) "macos" then "Apple script"
    else if String.eqb (Str.lower os_name) "linux" then "Bash Shell script"
    else if String.eqb (Str.lower os_name) "windows" then "Powershell script"
    else "script" in
  let prompt :=
    nl +:+ "Generate " +:+ script_type
    +:+ " for this prompt and make this script easy to read and understand for this task '"
    +:+ task +:+ " for Operating System is " +:+ os_name +:+ "'." in
  ret prompt.

Definition handle_command_mode (task os_name : string) : M string :=
  let prompt :=
    "Generate the single terminal command for this task '" +:+ task
    +:+ " for Operating System is " +:+ os_name +:+ "'." in
  ret prompt.

(** Falling off the end of the [if] chain returns [None]. *)
Definition handle_mode (task os_name : string) : M (option string) :=
  self <- get_self;
  if CODE_MODE self then
    p <- handle_code_mode task os_name; ret (Some p)
  else if SCRIPT_MODE self then
    p <- handle_script_mode task os_name; ret (Some p)
  else if COMMAND_MODE self then
    p <- handle_command_mode task os_name; ret (Some p)
  else ret None.

Definition execute_code (extracted_code os_name : string)
    : M (option string * option string) :=
  self <- get_self;
  execute <- (if EXECUTE_CODE self then ret "y"
              else input "Execute the code? (Y/N): ");
  if String.eqb (Str.lower execute) "y" then
    try_except_Exception
      (self <- get_self;
       if SCRIPT_MODE self then
         on_fs (EvExecuteScript extracted_code os_name)
               (run_script env extracted_code os_name)
       else if COMMAND_MODE self then
         on_fs (EvExecuteCommand extracted_code)
               (run_command env extracted_code)
       else if CODE_MODE self then
         on_fs (EvExecuteCode extracted_code (INTERPRETER_LANGUAGE self))
               (run_code env extracted_code (INTERPRETER_LANGUAGE self))
       else ret (Some "", Some ""))
      (fun exception =>
         emit (EvLogError ("Error occurred while executing code: "
                           +:+ exn_text exception)) ;;
         ret (None, Some (exn_text exception)))
  else ret (None, None).

(** *** The body of the loop of [interpreter_main], by blocks *)

Definition graph_python : string :=
  "using Python use Matplotlib save the graph in file called 'graph.png'".
Definition graph_javascript : string :=
  "using JavaScript use Chart.js save the graph in file called 'graph.png'".
Definition chart_python : string :=
  "using Python use Plotly save the chart in file called 'chart.png'".
Definition chart_javascript : string :=
  "using JavaScript use Chart.js save the chart in file called 'chart.png'".
Definition table_python : string :=
  "using Python use Pandas save the table in file called 'table.md'".
Definition table_javascript : string :=
  "using JavaScript use DataTables save the table in file called 'table.html'".

(** One [if keyword in prompt.lower(): if language == ...: prompt += ...]. *)
Definition add_directive (hit : bool) (language py js prompt : string) : string :=
  if hit then
    if String.eqb language "python" then prompt +:+ nl +:+ py
    else if String.eqb language "javascript" then prompt +:+ nl +:+ js
    else prompt
  else prompt.

(** "If graph were requested." *)
Definition add_graph (language prompt : string) : string :=
  add_directive (Str.str_in "graph" (Str.lower prompt))
                language graph_python graph_javascript prompt.

(** "if Chart were requested" *)
Definition add_chart (language prompt : string) : string :=
  add_directive (Str.str_in "chart" (Str.lower prompt)
                 || Str.str_in "plot" (Str.lower prompt))
                language chart_python chart_javascript prompt.

(** "if Table were requested" *)
Definition add_table (language prompt : string) : string :=
  add_directive (Str.str_in "table" (Str.lower prompt))
                language table_python table_javascript prompt.

(** The three keyword blocks, in the order of the source. *)
Definition augment (language prompt : string) : string :=
  add_table language (add_chart language (add_graph language prompt)).

(** The save block under [if extracted_code:]. *)
Definition save_generated (current_time extracted_code : string) : M unit :=
  self <- get_self;
  if String.eqb (INTERPRETER_LANGUAGE self) "javascript" && SAVE_CODE self then
    let path := "output/code_generated_" +:+ current_time +:+ ".js" in
    on_fs (EvSaveCode path extracted_code) (save_code env path extracted_code)
  else if String.eqb (INTERPRETER_LANGUAGE self) "python" && SAVE_CODE self then
    let path := "output/code_generated_" +:+ current_time +:+ ".py" in
    on_fs (EvSaveCode path extracted_code) (save_code env path extracted_code)
  else ret tt.

(** [if code_output: ... elif code_error: ...] *)
Definition show_result (code_output code_error : option string) : M unit :=
  if truthy code_output then
    display_code (default "" code_output)
  else if truthy code_error then
    display_markdown_message ("Error: " +:+ default "" code_error)
  else ret tt.

Definition error_messages : list string :=
  ["ModuleNotFound"; "ImportError"; "No module named"; "Cannot find module"].

(** [code_error is not None and any(m in code_error for m in error_messages)] *)
Definition is_missing_dependency (code_error : option string) : bool :=
  match code_error with
  | None => false
  | Some e => Str.any_in error_messages e
  end.

(** "install Package on error." *)
Definition install_on_error (code_error : option string) : M unit :=
  if is_missing_dependency code_error then
    self <- get_self;
    package_name <-
      ask (EvExtractPackageName (default "" code_error) (INTERPRETER_LANGUAGE self))
          (extract_package_name env (default "" code_error)
                                (INTERPRETER_LANGUAGE self));
    if truthy package_name then
      self <- get_self;
      on_fs (EvInstallPackage (default "" package_name) (INTERPRETER_LANGUAGE self))
            (install_package env (default "" package_name)
                             (INTERPRETER_LANGUAGE self))
    else ret tt
  else ret tt.

(** The [try] around the three calls of [_open_resource_file]. *)
Definition open_resources : M unit :=
  try_except_Exception
    (_open_resource_file "graph.png" ;;
     _open_resource_file "chart.png" ;;
     _open_resource_file "table.md")
    (fun exception =>
       display_markdown_message
         ("Error in opening resource files: " +:+ exn_text exception)).

(** The body of [if extracted_code:]. *)
Definition run_extracted (current_time extracted_code os_name : string) : M unit :=
  save_generated current_time extracted_code ;;
  result <- execute_code extracted_code os_name;
  show_result (fst result) (snd result) ;;
  install_on_error (snd result) ;;
  open_resources.

(** What follows [task = input("> ")] and the exit test, up to
    [save_history_json]. *)
Definition turn (task os_name command_mode start_sep end_sep : string)
    (skip_first_line : bool) (current_time : string) : M unit :=
  handled <- handle_mode task os_name;
  _clean_responses ;;
  prompt <- match handled with
            | Some p => ret p
            | None => raise (AttributeError "'NoneType' object has no attribute 'lower'")
            end;
  self <- get_self;
  let prompt := augment (INTERPRETER_LANGUAGE self) prompt in
  generated_output <-
    generate_text prompt (history self) default_temperature default_max_tokens
                  (Some (config_values self));
  extracted_code <-
    ask (EvExtractCode start_sep end_sep skip_first_line)
        (extract_code env generated_output start_sep end_sep skip_first_line);
  self <- get_self;
  (if DISPLAY_CODE self then display_code extracted_code else ret tt) ;;
  (if Str.nonempty extracted_code then
     run_extracted current_time extracted_code os_name
   else ret tt) ;;
  self <- get_self;
  on_fs (EvSaveHistory task command_mode os_name (INTERPRETER_LANGUAGE self)
                       prompt extracted_code (INTERPRRETER_MODEL self))
        (save_history_json env task command_mode os_name
                           (INTERPRETER_LANGUAGE self) prompt extracted_code
                           (INTERPRRETER_MODEL self)).

Inductive ended := Finished | OutOfFuel.

(** [while True: try: ... except Exception as exception: ... raise].
    [fuel] bounds the number of tasks read. *)
Fixpoint main_loop (fuel : nat)
    (os_name command_mode start_sep end_sep : string)
    (skip_first_line : bool) (current_time : string) : M ended :=
  match fuel with
  | O => ret OutOfFuel
  | S fuel' =>
      continue <-
        try_except_Exception
          (task <- input "> ";
           if Str.mem (Str.lower task) ["exit"; "quit"] then ret false
           else
             turn task os_name command_mode start_sep end_sep
                  skip_first_line current_time ;;
             ret true)
          (fun exception =>
             emit EvTraceback ;;
             emit (EvLogError ("Error occurred: " +:+ exn_text exception)) ;;
             raise exception);
      if continue then
        main_loop fuel' os_name command_mode start_sep end_sep
                  skip_first_line current_time
      else ret Finished
  end.

Definition interpreter_version : string := "1.3".

Definition interpreter_main (fuel : nat) : M ended :=
  emit (EvPrint ("Code Interpreter - v" +:+ interpreter_version)) ;;
  let os_name := get_os_platform_0 env in
  self <- get_self;
  let mode := if SCRIPT_MODE self then "Script"
              else if COMMAND_MODE self then "Command" else "Code" in
  display_code ("OS: '" +:+ os_name +:+ "', Language: '"
                +:+ INTERPRETER_LANGUAGE self +:+ "', Mode: '" +:+ mode
                +:+ "' Model: '" +:+ INTERPRRETER_MODEL self +:+ "'") ;;
  let command_mode := mode in
  let start_sep := default "```" (config_values self !! "start_sep") in
  let end_sep := default "```" (config_values self !! "end_sep") in
  let skip_first_line :=
    String.eqb (default "False" (config_values self !! "skip_first_line")) "True" in
  let current_time := strftime_now env in
  main_loop fuel os_name command_mode start_sep end_sep skip_first_line
            current_time.

End Methods.

(** ** Starting a session: [__init__], [initialize], [initialize_client] *)

(** What the start of a session reads from outside.  The files read and
    the browser call are answers only: they are not listed as events.
    [load_dotenv] is folded into [getenv_HUGGINGFACE_API_KEY]. *)
Record Startup := {
  (** [open('system/system_message.txt', 'r')] and [file.read()] *)
  read_system_message : Res string;
  (** [UtilityManager.read_config_file] *)
  read_config_file : string -> Res (gmap string string);
  (** [os.getenv('HUGGINGFACE_API_KEY')] *)
  getenv_HUGGINGFACE_API_KEY : option string;
  (** [webbrowser.open(url)]: [Some e] when it raises *)
  webbrowser_open : string -> option exn;
  (** [UtilityManager.initialize_readline_history]: [Some e] when it raises *)
  initialize_readline_history : option exn
}.

Definition with_system_message (t : string) (i : Interpreter) :=
  {| args := args i; history := history i;
     INTERPRETER_LANGUAGE := INTERPRETER_LANGUAGE i; SAVE_CODE := SAVE_CODE i;
     EXECUTE_CODE := EXECUTE_CODE i; DISPLAY_CODE := DISPLAY_CODE i;
     INTERPRRETER_MODEL := INTERPRRETER_MODEL i; CODE_MODE := CODE_MODE i;
     SCRIPT_MODE := SCRIPT_MODE i; COMMAND_MODE := COMMAND_MODE i;
     config_values := config_values i; system_message := t |}.

Definition with_config (c : gmap string string) (i : Interpreter) :=
  {| args := args i; history := history i;
     INTERPRETER_LANGUAGE := INTERPRETER_LANGUAGE i; SAVE_CODE := SAVE_CODE i;
     EXECUTE_CODE := EXECUTE_CODE i; DISPLAY_CODE := DISPLAY_CODE i;
     INTERPRRETER_MODEL := INTERPRRETER_MODEL i; CODE_MODE := CODE_MODE i;
     SCRIPT_MODE := SCRIPT_MODE i; COMMAND_MODE := COMMAND_MODE i;
     config_values := c; system_message := system_message i |}.

Definition with_switches (save exec display : bool) (i : Interpreter) :=
  {| args := args i; history := history i;
     INTERPRETER_LANGUAGE := INTERPRETER_LANGUAGE i; SAVE_CODE := save;
     EXECUTE_CODE := exec; DISPLAY_CODE := display;
     INTERPRRETER_MODEL := INTERPRRETER_MODEL i; CODE_MODE := CODE_MODE i;
     SCRIPT_MODE := SCRIPT_MODE i; COMMAND_MODE := COMMAND_MODE i;
     config_values := config_values i; system_message := system_message i |}.

(** [exit(1)] *)
Definition SystemExit (code : string) : exn :=
  {| exn_type := "SystemExit"; exn_text := code |}.

(** [raise Exception(text)] *)
Definition Exception (text : string) : exn :=
  {| exn_type := "Exception"; exn_text := text |}.

Definition heaven_terms_url : string := "https://heaven-gpt.haseebmir.repl.co/privacy".

Section Start.

Variable env : Env.
Variable st : Startup.

(** [initialize_client].  The attribute [INTERPRRETER_MODEL] is [None] or a
    string until the configuration is read; it is the argument [model]
    here, and the field of the record is written when the source assigns
    the final string.  [hf_model_name] only feeds dropped log lines; what
    is kept of it is that [None.strip()] raises.  The informational log
    lines are dropped. *)
Definition initialize_client (model : option string) : M unit :=
  config_file_name <-
    match model with
    | None =>
        raise (AttributeError "'NoneType' object has no attribute 'strip'")
    | Some m =>
        if String.eqb m ""
        then ret "configs/gpt-3.5-turbo.config"
        else ret ("configs/" +:+ m +:+ ".config")
    end;
  cfg <- lift (read_config_file st config_file_name);
  modify_self (with_config cfg) ;;
  modify_self (with_model (default (default "" model) (cfg !! "HF_MODEL"))) ;;
  self <- get_self;
  if Str.str_in "gpt" (INTERPRRETER_MODEL self) then
    display_markdown_message
      "**GPT 3.5** is provided by **Heaven-GPT**, A Private **GPT** made exclusive for this code-interpreter." ;;
    confirmation <-
      input env "Do you want to read the terms and agreements before using Heaven-GPT? (Y/N): ";
    (if String.eqb (Str.lower confirmation) "y" then
       display_markdown_message
         ("You can read the terms and agreements here: " +:+ heaven_terms_url) ;;
       lift match webbrowser_open st heaven_terms_url with
            | Some e => Raise e
            | None => Ok tt
            end
     else ret tt) ;;
    confirmation <- input env "Do you agree to the terms and conditions? (Y/N): ";
    if negb (String.eqb (Str.lower confirmation) "y") then
      raise (SystemExit "1")
    else ret tt
  else
    match getenv_HUGGINGFACE_API_KEY st with
    | None => raise (Exception "HuggingFace token not found in .env file.")
    | Some hf_token =>
        if negb (Str.nonempty hf_token) then
          raise (Exception "HuggingFace token not found in .env file.")
        else if negb (Str.startswith "hf_" hf_token) then
          raise (Exception "HuggingFace token should start with 'hf_'. Please check your .env file.")
        else ret tt
    end.

(** [initialize].  The informational log lines are dropped.  Until the
    Config is read the field [INTERPRRETER_MODEL] of the record holds the
    name given, and the empty string for [None]; [initialize_client] is
    handed the value itself. *)
Definition initialize : M unit :=
  self <- get_self;
  modify_self (with_language (if truthy (args_lang (args self))
                              then default "" (args_lang (args self))
                              else "python")) ;;
  modify_self (with_switches (args_save_code (args self)) (args_exec (args self))
                             (args_display_code (args self))) ;;
  let model := if truthy (args_model (args self))
               then args_model (args self) else None in
  modify_self (with_model (default "" model)) ;;
  modify_self (with_system_message "") ;;
  try_except_Exception
    (text <- lift (read_system_message st);
     modify_self (with_system_message text))
    (fun exception =>
       emit (EvLogError ("Error occurred while reading system_message.txt: "
                         +:+ exn_text exception)) ;;
       raise exception) ;;
  initialize_client model ;;
  initialize_mode ;;
  try_except
    (lift match initialize_readline_history st with
          | Some e => Raise e
          | None => Ok tt
          end)
    (fun _ => emit (EvLogError "Exception on initializing readline history")).

(** The object as the assignments of [__init__] leave it, before
    [self.initialize()]: attributes not yet assigned hold an empty
    value. *)
Definition blank (a : Args) : Interpreter :=
  {| args := a; history := [];
     INTERPRETER_LANGUAGE := ""; SAVE_CODE := false; EXECUTE_CODE := false;
     DISPLAY_CODE := false; INTERPRRETER_MODEL := "";
     CODE_MODE := false; SCRIPT_MODE := false; COMMAND_MODE := false;
     config_values := ∅; system_message := "" |}.

(** [Interpreter(args)] in a directory [fs], with the terminal read up to
    [cursor]. *)
Definition __init__ (a : Args) (fs : gmap string node) (cursor : nat) : Out unit :=
  initialize {| st_self := blank a; st_fs := fs; st_cursor := cursor |}.

End Start.

(** A start that finds every file and a well-formed token. *)
Definition sample_startup (text : string) (cfg : gmap string string) : Startup :=
  {| read_system_message := Ok text;
     read_config_file := fun _ => Ok cfg;
     getenv_HUGGINGFACE_API_KEY := Some "hf_abc";
     webbrowser_open := fun _ => None;
     initialize_readline_history := None |}.

(** ** Observing a run *)

(** The calls the claims count. *)
Inductive kind := Run | Resolve | Install | Save.

Definition is_kind (k : kind) (e : event) : bool :=
  match k, e with
  | Run, EvExecuteScript _ _ => true
  | Run, EvExecuteCommand _ => true
  | Run, EvExecuteCode _ _ => true
  | Resolve, EvExtractPackageName _ _ => true
  | Install, EvInstallPackage _ _ => true
  | Save, EvSaveCode _ _ => true
  | _, _ => false
  end.

Fixpoint count (P : event -> bool) (evs : list event) : nat :=
  match evs with
  | [] => 0
  | e :: evs' => (if P e then 1 else 0) + count P evs'
  end.

(** The question asked before running, when auto-execute is off. *)
Definition is_confirm (e : event) : bool :=
  match e with
  | EvInput p _ => String.eqb p "Execute the code? (Y/N): "
  | _ => false
  end.

(** The three flags of the object, together. *)
Definition mode_flags (i : Interpreter) : bool * bool * bool :=
  (CODE_MODE i, SCRIPT_MODE i, COMMAND_MODE i).

Definition exactly_one (c s k : bool) : bool :=
  (c && negb s && negb k) || (negb c && s && negb k) || (negb c && negb s && k).

(** [nl +:+ d] when [b], nothing otherwise. *)
Definition opt (b : bool) (d : string) : string := if b then nl +:+ d else "".

(** [sub] occurs in [s]: the meaning of Python's [sub in s]. *)
Definition occurs (sub s : string) : Prop :=
  exists pre post, s = pre +:+ sub +:+ post.


(** No run, no resolution, no installation. *)
Definition quiet (evs : list event) : Prop :=
  count (is_kind Run) evs = 0 /\ count (is_kind Resolve) evs = 0
  /\ count (is_kind Install) evs = 0.

(** At most one run and no recovery. *)
Definition before_recovery (evs : list event) : Prop :=
  count (is_kind Run) evs <= 1 /\ count (is_kind Resolve) evs = 0
  /\ count (is_kind Install) evs = 0.

(** No run; at most one resolution and one installation. *)
Definition recovery (evs : list event) : Prop :=
  count (is_kind Run) evs = 0 /\ count (is_kind Resolve) evs <= 1
  /\ count (is_kind Install) evs <= 1.

(** A part that runs at most once, then a part that only recovers. *)
Definition run_then_recover (evs : list event) : Prop :=
  exists X Y, evs = X ++ Y /\ before_recovery X /\ recovery Y.


(** The turn was persisted. *)
Definition is_persist (e : event) : bool :=
  match e with
  | EvSaveHistory _ _ _ _ _ _ _ => true
  | _ => false
  end.

Definition is_completion (e : event) : bool :=
  match e with
  | EvCompletion _ _ _ _ _ => true
  | _ => false
  end.

(** The temperature and the token limit of the Config, with the defaults
    of [generate_text] where a key is absent; [None] where the text of the
    key is not a number. *)
Definition config_temperature (env : Env) (cfg : gmap string string)
    : option PrimFloat.float :=
  match cfg !! "temperature" with
  | Some v => py_float env v
  | None => Some default_temperature
  end.

Definition config_max_tokens (env : Env) (cfg : gmap string string) : option Z :=
  match cfg !! "max_tokens" with
  | Some v => py_int env v
  | None => Some default_max_tokens
  end.

(** The model name after the prefixing step of [generate_text]. *)
Definition prefixed (model : string) : string :=
  if negb (Str.str_in "huggingface/" model) && negb (Str.str_in "gpt" model)
  then "huggingface/" +:+ model
  else model.

(** The completion is called with the temperature and the token limit of
    the Config. *)
Definition called_with_config (env : Env) (message : string) (s : State) : Prop :=
  forall t n,
    config_temperature env (config_values (st_self s)) = Some t ->
    config_max_tokens env (config_values (st_self s)) = Some n ->
    exists model messages api rest,
      out_events (generate_text env message (history (st_self s))
                                default_temperature default_max_tokens
                                (Some (config_values (st_self s))) s)
      = EvCompletion model messages t n api :: rest.

(** What the runner chosen by the mode answers in the directory of [s];
    with no mode flag set nothing is called and both texts stay empty. *)
Definition selected_runner (env : Env) (extracted_code os_name : string)
    (s : State) : Res (option string * option string) :=
  if SCRIPT_MODE (st_self s) then
    (run_script env extracted_code os_name (st_fs s)).1
  else if COMMAND_MODE (st_self s) then
    (run_command env extracted_code (st_fs s)).1
  else if CODE_MODE (st_self s) then
    (run_code env extracted_code (INTERPRETER_LANGUAGE (st_self s)) (st_fs s)).1
  else Ok (Some "", Some "").

(** The run goes ahead: auto-execute is set, or the question is answered
    'y' or 'Y'. *)
Definition confirmed (env : Env) (s : State) : bool :=
  EXECUTE_CODE (st_self s)
  || match input_error env (st_cursor s) with
     | Some _ => false
     | None => String.eqb (Str.lower (stdin env (st_cursor s))) "y"
     end.

(** The run is declined: the question is asked and answered otherwise. *)
Definition declined (env : Env) (s : State) : bool :=
  negb (EXECUTE_CODE (st_self s))
  && match input_error env (st_cursor s) with
     | Some _ => false
     | None => negb (String.eqb (Str.lower (stdin env (st_cursor s))) "y")
     end.

(** Whatever the runner raises comes back as the error text of the
    pair. *)
Definition contains_failures (env : Env) (extracted_code os_name : string)
    (s : State) : Prop :=
  forall x,
    confirmed env s = true ->
    selected_runner env extracted_code os_name s = Raise x ->
    out_res (execute_code env extracted_code os_name s)
    = Ok (None, Some (exn_text x)).

(** The pair has at most one non-empty component. *)
Definition one_sided (p : option string * option string) : bool :=
  negb (truthy p.1 && truthy p.2).

(** The first thing the body of [if extracted_code:] does is to save the
    code. *)
Definition saved_first (env : Env) (current_time extracted_code os_name : string)
    (s : State) : Prop :=
  exists path rest,
    out_events (run_extracted env current_time extracted_code os_name s)
    = EvSaveCode path extracted_code :: rest.


(** A task typed at the prompt of the loop (not "exit" or "quit"). *)
Definition is_task (e : event) : bool :=
  match e with
  | EvInput p a =>
      String.eqb p "> " && negb (Str.mem (Str.lower a) ["exit"; "quit"])
  | _ => false
  end.

Definition is_subprocess (e : event) : bool :=
  match e with
  | EvSubprocessCall _ => true
  | _ => false
  end.

(** The command that opens [filename] on the platform, if there is one. *)
Definition opener_argv (env : Env) (filename : string) : option (list string) :=
  if String.eqb (platform_system env) "Windows" then Some ["start"; filename]
  else if String.eqb (platform_system env) "Darwin" then Some ["open"; filename]
  else if String.eqb (platform_system env) "Linux" then Some ["xdg-open"; filename]
  else None.

(** What opening [filename] raises in the directory of [s]: nothing when
    it is not a regular file or the platform has no opener. *)
Definition opener_error (env : Env) (s : State) (filename : string) : option exn :=
  match st_fs s !! filename with
  | Some File =>
      match opener_argv env filename with
      | Some argv => subprocess_call env argv
      | None => None
      end
  | _ => None
  end.

(** A response of the shape [_extract_content] reads: [content] under
    ['message'] under the first of ['choices']. *)
Definition well_formed (v c : pyval) : Prop :=
  exists d rest d1 d2,
    v = PDict d
    /\ assoc "choices" d = Some (PList (PDict d1 :: rest))
    /\ assoc "message" d1 = Some (PDict d2)
    /\ assoc "content" d2 = Some c.


(** The directory after [_clean_responses] has dealt with [f]: a regular
    file is removed unless the system refuses. *)
Definition clean_fs (env : Env) (f : string) (fs : gmap string node)
    : gmap string node :=
  match fs !! f with
  | Some File =>
      match os_remove_error env f with
      | None => delete f fs
      | Some _ => fs
      end
  | _ => fs
  end.


(** What becomes of the entry of [f] when [_clean_responses] deals with
    it. *)
Definition cleaned (env : Env) (f : string) (x : option node) : option node :=
  match x with
  | Some File =>
      match os_remove_error env f with
      | None => None
      | Some _ => Some File
      end
  | _ => x
  end.

(** *** Properties of methods *)

(** [P] holds of the events of every run of [m]. *)
Definition EvP (P : list event -> Prop) {A} (m : M A) : Prop :=
  forall s, P (out_events (m s)).

(** No event of kind [k]. *)
Definition Free (k : kind) {A} (m : M A) : Prop :=
  EvP (fun evs => count (is_kind k) evs = 0) m.

(** [I] survives every run of [m]. *)
Definition stable (I : Interpreter -> Prop) {A} (m : M A) : Prop :=
  forall s, I (st_self s) -> I (st_self (out_state (m s))).

(** No event satisfying [P]. *)
Definition Never (P : event -> bool) {A} (m : M A) : Prop :=
  EvP (fun evs => count P evs = 0) m.

(** *** A sample session *)

(** The object as [__init__] leaves it before [initialize_mode], given the
    text of the system message and what [initialize_client] resolved. *)
Definition new_interpreter (a : Args) (model system_message : string)
    (cfg : gmap string string) : Interpreter :=
  {| args := a; history := [];
     INTERPRETER_LANGUAGE :=
       if truthy (args_lang a) then default "" (args_lang a) else "python";
     SAVE_CODE := args_save_code a;
     EXECUTE_CODE := args_exec a;
     DISPLAY_CODE := args_display_code a;
     INTERPRRETER_MODEL := model;
     CODE_MODE := false; SCRIPT_MODE := false; COMMAND_MODE := false;
     config_values := cfg;
     system_message := system_message |}.

(** The session once the mode is initialised, in an empty directory. *)
Definition started (a : Args) (model system_message : string)
    (cfg : gmap string string) : State :=
  out_state (initialize_mode
               {| st_self := new_interpreter a model system_message cfg;
                  st_fs := ∅; st_cursor := 0 |}).

Definition sample_response (text : string) : pyval :=
  PDict [("choices", PList [PDict [("message", PDict [("content", PStr text)])]])].

(** A terminal that types [lines] and then "exit"; a model that answers
    with a fenced [code]; runners that all give [ran]. *)
Definition sample_env (lines : list string) (code : string)
    (ran : Res (option string * option string)) : Env :=
  {| stdin := fun n => nth n lines "exit";
     input_error := fun _ => None;
     py_float := fun v => if String.eqb v "0.5" then Some 0.5%float else None;
     py_int := fun v => if String.eqb v "512" then Some 512%Z else None;
     py_repr := fun v => "'" +:+ v +:+ "'";
     completion := fun _ _ _ _ _ => Ok (sample_response ("```" +:+ code +:+ "```"));
     extract_code := fun _ _ _ _ => Ok code;
     save_code := fun _ _ fs => (Ok tt, fs);
     run_script := fun _ _ fs => (ran, fs);
     run_command := fun _ fs => (ran, fs);
     run_code := fun _ _ fs => (ran, fs);
     extract_package_name := fun _ _ => Ok (Some "numpy");
     install_package := fun _ _ fs => (Ok tt, fs);
     get_os_platform_0 := "Linux";
     save_history_json := fun _ _ _ _ _ _ _ fs => (Ok tt, fs);
     os_remove_error := fun _ => None;
     platform_system := "Linux";
     subprocess_call := fun _ => None;
     strftime_now := "12:00:00" |}.

Definition sample_args (mode : string) (save : bool) : Args :=
  {| args_lang := None; args_save_code := save; args_exec := true;
     args_display_code := false; args_model := Some "code-llama";
     args_mode := Some mode |}.

(** A model that cannot be reached. *)
Definition offline_env (lines : list string) : Env :=
  {| stdin := fun n => nth n lines "exit";
     input_error := fun _ => None;
     py_float := fun _ => None;
     py_int := fun _ => None;
     py_repr := fun v => "'" +:+ v +:+ "'";
     completion := fun _ _ _ _ _ =>
       Raise {| exn_type := "APIConnectionError"; exn_text := "Connection error." |};
     extract_code := fun _ _ _ _ => Ok "";
     save_code := fun _ _ fs => (Ok tt, fs);
     run_script := fun _ _ fs => (Ok (None, None), fs);
     run_command := fun _ fs => (Ok (None, None), fs);
     run_code := fun _ _ fs => (Ok (None, None), fs);
     extract_package_name := fun _ _ => Ok None;
     install_package := fun _ _ fs => (Ok tt, fs);
     get_os_platform_0 := "Linux";
     save_history_json := fun _ _ _ _ _ _ _ fs => (Ok tt, fs);
     os_remove_error := fun _ => None;
     platform_system := "Linux";
     subprocess_call := fun _ => None;
     strftime_now := "12:00:00" |}.

(** [env] with a terminal whose input has ended: every read raises
    [EOFError]. *)
Definition at_end_of_input (env : Env) : Env :=
  {| stdin := stdin env;
     input_error := fun _ =>
       Some {| exn_type := "EOFError"; exn_text := "EOF when reading a line" |};
     py_float := py_float env;
     py_int := py_int env;
     py_repr := py_repr env;
     completion := completion env;
     extract_code := extract_code env;
     save_code := save_code env;
     run_script := run_script env;
     run_command := run_command env;
     run_code := run_code env;
     extract_package_name := extract_package_name env;
     install_package := install_package env;
     get_os_platform_0 := get_os_platform_0 env;
     save_history_json := save_history_json env;
     os_remove_error := os_remove_error env;
     platform_system := platform_system env;
     subprocess_call := subprocess_call env;
     strftime_now := strftime_now env |}.

(** The state once [input] has read a line. *)
Definition after_input (s : State) : State :=
  {| st_self := st_self s; st_fs := st_fs s; st_cursor := S (st_cursor s) |}.

(** The run persists at most once, does so when it returns normally, and
    persisting is then the last thing it does. *)
Definition persists_last {A} (o : Out A) : Prop :=
  count is_persist (out_events o) <= 1
  /\ ((exists a, out_res o = Ok a) -> count is_persist (out_events o) = 1)
  /\ (count is_persist (out_events o) = 1 ->
      exists before e, out_events o = before ++ [e] /\ is_persist e = true).

(** Started from an object that satisfies [I], [m] saves no code. *)
Definition saves_nothing_from (I : Interpreter -> Prop) {A} (m : M A) : Prop :=
  forall s, I (st_self s) -> count (is_kind Save) (out_events (m s)) = 0.

(** If [e] is a call of the completion, its messages are the system
    message, the fixed instruction of the assistant and a user message in
    which both [task] and [os_name] occur. *)
Definition request_embeds (task os_name : string) (e : event) : Prop :=
  match e with
  | EvCompletion _ messages _ _ _ =>
      exists sys c,
        messages
        = [ {| role := "system"; content := sys |};
            {| role := "assistant";
               content := Some "Please generate code wrapped inside triple backticks known as codeblock." |};
            {| role := "user"; content := Some c |} ]
        /\ occurs task c /\ occurs os_name c
  | _ => True
  end.

(** If [e] is a call of the completion, its user message is [sent]; if
    [e] persists the turn, the prompt it records is [sent]. *)
Definition carries (sent : string) (e : event) : Prop :=
  match e with
  | EvCompletion _ messages _ _ _ =>
      exists sys,
        messages
        = [ {| role := "system"; content := sys |};
            {| role := "assistant";
               content := Some "Please generate code wrapped inside triple backticks known as codeblock." |};
            {| role := "user"; content := Some sent |} ]
  | EvSaveHistory _ _ _ _ prompt _ _ => prompt = sent
  | _ => True
  end.

(** [o] with the events [evs] put in front. *)
Definition prepend {A} (evs : list event) (o : Out A) : Out A :=
  {| out_res := out_res o; out_state := out_state o;
     out_events := evs ++ out_events o |}.

(** The state with the object changed by [f]. *)
Definition update_self (f : Interpreter -> Interpreter) (s : State) : State :=
  {| st_self := f (st_self s); st_fs := st_fs s; st_cursor := st_cursor s |}.

(** The flags [initialize_mode] leaves for the [mode] argument of the
    object. *)
Definition with_mode_of_args (i : Interpreter) : Interpreter :=
  with_modes (negb (mode_is "script" (args_mode (args i))
                    || mode_is "command" (args_mode (args i))))
             (mode_is "script" (args_mode (args i)))
             (mode_is "command" (args_mode (args i))) i.

(** The session as [initialize] has it when it calls
    [initialize_client]: the switches and the language are set, the model
    is the name given, the system message holds [text], and no Config is
    read yet. *)
Definition before_client (a : Args) (text : string) (fs : gmap string node)
    (cursor : nat) : State :=
  {| st_self := new_interpreter a (default "" (if truthy (args_model a)
                                               then args_model a else None))
                                text ∅;
     st_fs := fs; st_cursor := cursor |}.

(** What the last step of [initialize] logs. *)
Definition readline_log (st : Startup) : list event :=
  match initialize_readline_history st with
  | Some _ => [EvLogError "Exception on initializing readline history"]
  | None => []
  end.

(** A start whose readline history behaves as [r]. *)
Definition with_readline_history (r : option exn) (st : Startup) : Startup :=
  {| read_system_message := read_system_message st;
     read_config_file := read_config_file st;
     getenv_HUGGINGFACE_API_KEY := getenv_HUGGINGFACE_API_KEY st;
     webbrowser_open := webbrowser_open st;
     initialize_readline_history := r |}.

(** A start that cannot read [system/system_message.txt]. *)
Definition no_system_message : Startup :=
  {| read_system_message :=
       Raise {| exn_type := "FileNotFoundError";
                exn_text := "[Errno 2] No such file or directory: 'system/system_message.txt'" |};
     read_config_file := fun _ => Ok ∅;
     getenv_HUGGINGFACE_API_KEY := Some "hf_abc";
     webbrowser_open := fun _ => None;
     initialize_readline_history := None |}.

(** Arguments that name no model. *)
Definition no_model_args : Args :=
  {| args_lang := None; args_save_code := false; args_exec := true;
     args_display_code := false; args_model := None; args_mode := Some "code" |}.

(** * Properties *)

(** ** Substrings *)

Module StrFacts.
Import Str.

Lemma startswith_spec p s :
  startswith p s = true <-> exists post, s = p +:+ post.
Proof.
  revert s. induction p as [|a p IH]; intros s; simpl.
  - split; [intros _; now exists s | reflexivity].
  - destruct s as [|b s]; simpl.
    + split; [discriminate | intros [post H]; discriminate].
    + rewrite andb_true_iff, Ascii.eqb_eq, IH. split.
      * intros [-> [post ->]]. now exists post.
      * intros [post H]. injection H as -> ->. split; [reflexivity | now exists post].
Qed.

Lemma str_in_spec sub s : str_in sub s = true <-> occurs sub s.
Proof.
  unfold occurs. induction s as [|c s IH].
  - simpl. rewrite orb_false_r, startswith_spec. split.
    + intros [post H]. now exists EmptyString, post.
    + intros [[|a pre] [post H]]; [now exists post | discriminate].
  - cbn [str_in]. rewrite orb_true_iff, startswith_spec, IH. split.
    + intros [[post H] | [pre [post H]]].
      * now exists EmptyString, post.
      * exists (String c pre), post. simpl. now rewrite H.
    + intros [[|a pre] [post H]].
      * left. now exists post.
      * right. simpl in H. injection H as -> ->. now exists pre, post.
Qed.

Lemma append_assoc (a b c : string) : (a +:+ b) +:+ c = a +:+ (b +:+ c).
Proof. induction a as [|x a IH]; simpl; [reflexivity | now rewrite IH]. Qed.

Lemma append_nil_r (a : string) : a +:+ "" = a.
Proof. induction a as [|x a IH]; simpl; [reflexivity | now rewrite IH]. Qed.

Lemma lower_app (a b : string) : lower (a +:+ b) = lower a +:+ lower b.
Proof. induction a as [|x a IH]; simpl; [reflexivity | now rewrite IH]. Qed.

(** What matched keeps matching when text is appended. *)
Lemma str_in_app_l sub a b : str_in sub a = true -> str_in sub (a +:+ b) = true.
Proof.
  rewrite !str_in_spec. intros [pre [post ->]].
  exists pre, (post +:+ b). now rewrite !append_assoc.
Qed.

Lemma startswith_sep c sub a b :
  has_char c sub = false ->
  startswith sub (a +:+ String c b) = startswith sub a.
Proof.
  revert a. induction sub as [|x sub IH]; intros a H; [reflexivity|].
  simpl in H. apply orb_false_elim in H as [Hx Hs].
  destruct a as [|y a]; simpl.
  - rewrite Ascii.eqb_sym, Hx. reflexivity.
  - now rewrite IH.
Qed.

(** A needle without the character [c] never straddles a [c]. *)
Lemma str_in_sep c sub a b :
  has_char c sub = false ->
  str_in sub (a +:+ String c b) = str_in sub a || str_in sub (String c b).
Proof.
  intros H. induction a as [|y a IH].
  - simpl ("" +:+ _). destruct sub; [reflexivity|]. reflexivity.
  - cbn [append str_in]. rewrite IH.
    change (String y (a +:+ String c b)) with (String y a +:+ String c b).
    rewrite (startswith_sep c sub (String y a) b H).
    now rewrite orb_assoc.
Qed.

End StrFacts.

(** ** The keyword blocks *)

Section Augment.
Import Str StrFacts.

Lemma keyword_after_directive k p d :
  has_char (ascii_of_nat 10) k = false ->
  str_in k (lower (p +:+ nl +:+ d))
  = str_in k (lower p) || str_in k (lower (nl +:+ d)).
Proof.
  intros H. rewrite lower_app. exact (str_in_sep _ k (lower p) (lower d) H).
Qed.

Ltac keywords :=
  repeat (rewrite keyword_after_directive by reflexivity);
  repeat match goal with
    | |- context [str_in ?k (lower (nl +:+ ?d))] =>
        let b := eval vm_compute in (str_in k (lower (nl +:+ d))) in
        change (str_in k (lower (nl +:+ d))) with b
    end.

Ltac closed_form :=
  unfold augment, add_table, add_chart, add_graph, add_directive;
  repeat match goal with
    | |- context [String.eqb ?a ?b] =>
        let v := eval vm_compute in (String.eqb a b) in
        change (String.eqb a b) with v
    end;
  cbv iota;
  repeat match goal with
    | |- context [str_in ?k (lower ?p)] =>
        is_var p; destruct (str_in k (lower p)); cbn [orb andb]; keywords;
        cbn [orb andb]
    end;
  unfold opt; rewrite ?append_assoc, ?append_nil_r; reflexivity.

Lemma augment_python p :
  augment "python" p
  = p +:+ opt (str_in "graph" (lower p)) graph_python
      +:+ opt (str_in "graph" (lower p) || str_in "chart" (lower p)
               || str_in "plot" (lower p)) chart_python
      +:+ opt (str_in "table" (lower p)) table_python.
Proof. closed_form. Qed.

Lemma augment_javascript p :
  augment "javascript" p
  = p +:+ opt (str_in "graph" (lower p)) graph_javascript
      +:+ opt (str_in "graph" (lower p) || str_in "chart" (lower p)
               || str_in "plot" (lower p)) chart_javascript
      +:+ opt (str_in "table" (lower p)) table_javascript.
Proof. closed_form. Qed.

Lemma augment_other language p :
  String.eqb language "python" = false ->
  String.eqb language "javascript" = false ->
  augment language p = p.
Proof.
  intros H1 H2. unfold augment, add_table, add_chart, add_graph, add_directive.
  rewrite H1, H2. now repeat match goal with |- context [if ?b then _ else _] => destruct b end.
Qed.
End Augment.

(** ** Events of composed methods *)

Lemma get_self_bind_events {A} (k : Interpreter -> M A) s :
  out_events (bind get_self k s) = out_events (k (st_self s) s).
Proof. reflexivity. Qed.

Lemma get_self_bind_res {A} (k : Interpreter -> M A) s :
  out_res (bind get_self k s) = out_res (k (st_self s) s).
Proof. reflexivity. Qed.

Lemma get_self_bind_state {A} (k : Interpreter -> M A) s :
  out_state (bind get_self k s) = out_state (k (st_self s) s).
Proof. reflexivity. Qed.

Lemma count_app P a b : count P (a ++ b) = count P a + count P b.
Proof. induction a as [|e a IH]; simpl; [reflexivity | rewrite IH; lia]. Qed.

Lemma count_cons P e l : count P (e :: l) = (if P e then 1 else 0) + count P l.
Proof. reflexivity. Qed.

Lemma events_bind {A B} (m : M A) (k : A -> M B) s :
  out_events (bind m k s)
  = out_events (m s)
    ++ match out_res (m s) with
       | Ok a => out_events (k a (out_state (m s)))
       | Raise _ => []
       end.
Proof. unfold bind. destruct (out_res (m s)); simpl; now rewrite ?app_nil_r. Qed.

Lemma events_try {A} (m : M A) (h : exn -> M A) s :
  out_events (try_except m h s)
  = out_events (m s)
    ++ match out_res (m s) with
       | Ok _ => []
       | Raise e => out_events (h e (out_state (m s)))
       end.
Proof. unfold try_except. destruct (out_res (m s)); simpl; now rewrite ?app_nil_r. Qed.

Lemma EvP_bind {A B} (P1 P2 P : list event -> Prop) (m : M A) (k : A -> M B) :
  (forall x y, P1 x -> P2 y -> P (x ++ y)) -> P2 [] ->
  EvP P1 m -> (forall a, EvP P2 (k a)) -> EvP P (bind m k).
Proof.
  intros Happ Hnil Hm Hk s. rewrite events_bind.
  apply Happ; [apply Hm|]. destruct (out_res (m s)); [apply Hk | exact Hnil].
Qed.

Lemma EvP_try {A} (P1 P2 P : list event -> Prop) (m : M A) (h : exn -> M A) :
  (forall x y, P1 x -> P2 y -> P (x ++ y)) -> P2 [] ->
  EvP P1 m -> (forall e, EvP P2 (h e)) -> EvP P (try_except m h).
Proof.
  intros Happ Hnil Hm Hh s. rewrite events_try.
  apply Happ; [apply Hm|]. destruct (out_res (m s)); [exact Hnil | apply Hh].
Qed.

Lemma EvP_try_Exception {A} (P1 P2 P : list event -> Prop) (m : M A)
    (h : exn -> M A) :
  (forall x y, P1 x -> P2 y -> P (x ++ y)) -> P2 [] ->
  EvP P1 m -> (forall e, EvP P2 (h e)) -> EvP P (try_except_Exception m h).
Proof.
  intros Happ Hnil Hm Hh. unfold try_except_Exception.
  apply (EvP_try P1 P2); auto.
  intros e. destruct (is_Exception e); [apply Hh | intros s; exact Hnil].
Qed.

Section FreeRules.
Context (k : kind).

Lemma Free_ret {A} (a : A) : Free k (ret a).
Proof. intros s. reflexivity. Qed.

Lemma Free_raise {A} (e : exn) : Free k (@raise A e).
Proof. intros s. reflexivity. Qed.

Lemma Free_lift {A} (r : Res A) : Free k (lift r).
Proof. intros s. reflexivity. Qed.

Lemma Free_get_self : Free k get_self.
Proof. intros s. reflexivity. Qed.

Lemma Free_modify f : Free k (modify_self f).
Proof. intros s. reflexivity. Qed.

Lemma Free_emit e : is_kind k e = false -> Free k (emit e).
Proof. intros H s. simpl. now rewrite H. Qed.

Lemma Free_ask {A} e (r : Res A) : is_kind k e = false -> Free k (ask e r).
Proof. intros H s. simpl. now rewrite H. Qed.

Lemma Free_on_fs {A} e (call : gmap string node -> Res A * gmap string node) :
  is_kind k e = false -> Free k (on_fs e call).
Proof. intros H s. simpl. now rewrite H. Qed.

Lemma Free_input env p : Free k (input env p).
Proof.
  intros s. unfold input. destruct (input_error env (st_cursor s));
    simpl; now destruct k.
Qed.

Lemma Free_isfile f : Free k (isfile f).
Proof. intros s. reflexivity. Qed.

Lemma Free_os_remove env f : Free k (os_remove env f).
Proof.
  intros s. unfold os_remove.
  destruct (st_fs s !! f) as [[|]|]; [destruct (os_remove_error env f)|..];
    reflexivity.
Qed.

Lemma Free_bind {A B} (m : M A) (f : A -> M B) :
  Free k m -> (forall a, Free k (f a)) -> Free k (bind m f).
Proof.
  apply EvP_bind; [|reflexivity]. intros x y Hx Hy. rewrite count_app. lia.
Qed.

Lemma Free_try {A} (m : M A) (h : exn -> M A) :
  Free k m -> (forall e, Free k (h e)) -> Free k (try_except m h).
Proof.
  apply EvP_try; [|reflexivity]. intros x y Hx Hy. rewrite count_app. lia.
Qed.

Lemma Free_try_Exception {A} (m : M A) (h : exn -> M A) :
  Free k m -> (forall e, Free k (h e)) -> Free k (try_except_Exception m h).
Proof.
  apply EvP_try_Exception; [|reflexivity]. intros x y Hx Hy. rewrite count_app. lia.
Qed.

Lemma Free_for_each {A} (xs : list A) (body : A -> M unit) :
  (forall x, Free k (body x)) -> Free k (for_each xs body).
Proof.
  intros H. induction xs as [|x xs IH]; simpl.
  - apply Free_ret.
  - apply Free_bind; [apply H | intros _; exact IH].
Qed.
End FreeRules.

Ltac untracked :=
  solve [ reflexivity
        | match goal with |- is_kind ?k _ = false => destruct k; reflexivity end ].

Ltac free_step :=
  first
    [ apply Free_ret | apply Free_raise | apply Free_lift | apply Free_get_self
    | apply Free_modify | apply Free_input | apply Free_isfile
    | apply Free_os_remove
    | apply Free_emit; untracked
    | apply Free_ask; untracked
    | apply Free_on_fs; untracked
    | apply Free_for_each; intros ?
    | apply Free_bind; [|intros ?]
    | apply Free_try; [|intros ?]
    | apply Free_try_Exception; [|intros ?]
    | match goal with
      | |- Free _ (if ?b then _ else _) => destruct b
      | |- Free _ (match ?x with _ => _ end) => destruct x
      end ].

Ltac free := repeat free_step.

Section FreeMethods.
Context (env : Env) (k : kind).

Lemma Free_clean_responses : Free k (_clean_responses env).
Proof. unfold _clean_responses. free. Qed.

Lemma Free_open_resource_file f : Free k (_open_resource_file env f).
Proof. unfold _open_resource_file, subprocess, display_markdown_message. free. Qed.

Lemma Free_open_resources : Free k (open_resources env).
Proof.
  unfold open_resources, display_markdown_message.
  free; apply Free_open_resource_file.
Qed.

Lemma Free_extract_content v : Free k (_extract_content v).
Proof. unfold _extract_content. free. Qed.

Lemma Free_generate_text msg hist t n cfg :
  Free k (generate_text env msg hist t n cfg).
Proof.
  unfold generate_text, config_float, config_int, call_completion.
  free; apply Free_extract_content.
Qed.

Lemma Free_handle_mode task os : Free k (handle_mode task os).
Proof.
  unfold handle_mode, handle_code_mode, handle_script_mode, handle_command_mode.
  free.
Qed.

Lemma Free_show_result o e : Free k (show_result o e).
Proof. unfold show_result, display_code, display_markdown_message. free. Qed.

Lemma Free_save_generated time code :
  k <> Save -> Free k (save_generated env time code).
Proof. intros H. unfold save_generated. destruct k; [..|congruence]; free. Qed.

Lemma Free_execute_code code os :
  k <> Run -> Free k (execute_code env code os).
Proof. intros H. unfold execute_code. destruct k; [congruence|..]; free. Qed.

Lemma Free_install_on_error err :
  k = Run \/ k = Save -> Free k (install_on_error env err).
Proof. intros [-> | ->]; unfold install_on_error; free. Qed.
End FreeMethods.

(** ** One turn runs at most once, then recovers at most once *)

Ltac paths :=
  repeat (simpl;
          match goal with
          | |- context [match ?x with _ => _ end] => destruct x eqn:?
          | |- context [if ?x then _ else _] => destruct x eqn:?
          end); simpl.

Lemma quiet_nil : quiet [].
Proof. repeat split. Qed.

Lemma quiet_app x y : quiet x -> quiet y -> quiet (x ++ y).
Proof. unfold quiet. rewrite !count_app. lia. Qed.

Lemma recovery_nil : recovery [].
Proof. unfold recovery. simpl. lia. Qed.

Lemma quiet_recovery x y : quiet x -> recovery y -> recovery (x ++ y).
Proof. unfold quiet, recovery. rewrite !count_app. lia. Qed.

Lemma recovery_quiet x y : recovery x -> quiet y -> recovery (x ++ y).
Proof. unfold quiet, recovery. rewrite !count_app. lia. Qed.

Lemma shape_nil : run_then_recover [].
Proof. exists [], []. unfold before_recovery, recovery. simpl. repeat split; lia. Qed.

Lemma shape_of_quiet x : quiet x -> run_then_recover x.
Proof.
  intros H. exists x, []. rewrite app_nil_r. split; [reflexivity|].
  unfold quiet, before_recovery, recovery in *. simpl. lia.
Qed.

Lemma quiet_shape x y : quiet x -> run_then_recover y -> run_then_recover (x ++ y).
Proof.
  intros Hx (X & Y & -> & HX & HY). exists (x ++ X), Y.
  rewrite app_assoc. split; [reflexivity|]. split; [|exact HY].
  unfold quiet, before_recovery in *. rewrite !count_app. lia.
Qed.

Lemma shape_quiet x y : run_then_recover x -> quiet y -> run_then_recover (x ++ y).
Proof.
  intros (X & Y & -> & HX & HY) Hy. exists X, (Y ++ y).
  rewrite app_assoc. split; [reflexivity|]. split; [exact HX|].
  unfold quiet, recovery in *. rewrite !count_app. lia.
Qed.

Lemma before_then_recovery x y :
  before_recovery x -> recovery y -> run_then_recover (x ++ y).
Proof. intros Hx Hy. now exists x, y. Qed.

(** What the shape gives: the three bounds, and nothing runs once the
    recovery has begun. *)
Lemma shape_sound evs :
  run_then_recover evs ->
  count (is_kind Run) evs <= 1
  /\ count (is_kind Resolve) evs <= 1
  /\ count (is_kind Install) evs <= 1
  /\ forall pre e post,
       evs = pre ++ e :: post ->
       is_kind Resolve e || is_kind Install e = true ->
       count (is_kind Run) post = 0.
Proof.
  intros (X & Y & -> & (HX1 & HX2 & HX3) & (HY1 & HY2 & HY3)).
  rewrite !count_app. repeat split; try lia.
  intros pre e post Heq He.
  apply app_eq_app in Heq as [l [[-> Hl] | [-> Hl]]].
  - destruct l as [|e' l]; simpl in Hl.
    + subst Y. simpl in HY1. lia.
    + injection Hl as <- ->. rewrite count_app, count_cons in HX2, HX3.
      apply orb_true_iff in He as [He | He]; rewrite He in *; lia.
  - subst Y. rewrite count_app in HY1. simpl in HY1. lia.
Qed.

Section Shape.
Context (env : Env).

Lemma Quiet_of_Free {A} (m : M A) :
  (forall k, k <> Save -> Free k m) -> EvP quiet m.
Proof. intros H s. repeat split; apply H; discriminate. Qed.

Lemma execute_code_before_recovery code os :
  EvP before_recovery (execute_code env code os).
Proof.
  intros s.
  unfold before_recovery, execute_code, bind, try_except_Exception, try_except,
    get_self, ret, raise, input, on_fs, emit.
  paths; lia.
Qed.

Lemma install_on_error_recovery err : EvP recovery (install_on_error env err).
Proof.
  intros s.
  unfold recovery, install_on_error, bind, get_self, ret, ask, on_fs.
  paths; lia.
Qed.

Lemma run_extracted_shape time code os :
  EvP run_then_recover (run_extracted env time code os).
Proof.
  unfold run_extracted.
  apply (EvP_bind quiet run_then_recover); [apply quiet_shape | apply shape_nil | |intros _].
  { apply Quiet_of_Free. intros k Hk. now apply Free_save_generated. }
  apply (EvP_bind before_recovery recovery);
    [apply before_then_recovery | apply recovery_nil | apply execute_code_before_recovery |].
  intros result.
  apply (EvP_bind quiet recovery); [apply quiet_recovery | apply recovery_nil | |intros _].
  { apply Quiet_of_Free. intros k _. apply Free_show_result. }
  apply (EvP_bind recovery quiet); [apply recovery_quiet | apply quiet_nil | |intros _].
  { apply install_on_error_recovery. }
  apply Quiet_of_Free. intros k _. apply Free_open_resources.
Qed.

Lemma turn_shape task os cm ss es skip time :
  EvP run_then_recover (turn env task os cm ss es skip time).
Proof.
  unfold turn.
  repeat match goal with
    | |- EvP run_then_recover (bind (if Str.nonempty ?c then _ else _) _) =>
        apply (EvP_bind run_then_recover quiet);
        [apply shape_quiet | apply quiet_nil | | intros ?]
    | |- EvP run_then_recover (bind _ _) =>
        apply (EvP_bind quiet run_then_recover);
        [apply quiet_shape | apply shape_nil | | intros ?]
    end.
  all: try (apply Quiet_of_Free; intros k _).
  all: try solve [free | apply Free_handle_mode | apply Free_clean_responses
                 | apply Free_generate_text].
  destruct (Str.nonempty _); [apply run_extracted_shape | intros s; apply shape_nil].
Qed.
End Shape.

(** C4: in one iteration of the loop the extracted code is run at most
    once, the package resolver and the installer are each called at most
    once, and nothing is run after the resolver or the installer has been
    called. *)
Theorem C4_one_run_then_one_recovery
    (env : Env) (task os_name command_mode start_sep end_sep : string)
    (skip_first_line : bool) (current_time : string) (s : State) :
  let evs := out_events (turn env task os_name command_mode start_sep end_sep
                              skip_first_line current_time s) in
  count (is_kind Run) evs <= 1
  /\ count (is_kind Resolve) evs <= 1
  /\ count (is_kind Install) evs <= 1
  /\ forall pre e post,
       evs = pre ++ e :: post ->
       is_kind Resolve e || is_kind Install e = true ->
       count (is_kind Run) post = 0.
Proof. apply shape_sound, turn_shape. Qed.

(** ** What a run leaves unchanged in the object *)

Section StableRules.
Context (I : Interpreter -> Prop).

Lemma stable_ret {A} (a : A) : stable I (ret a).
Proof. intros s H. exact H. Qed.

Lemma stable_raise {A} (e : exn) : stable I (@raise A e).
Proof. intros s H. exact H. Qed.

Lemma stable_lift {A} (r : Res A) : stable I (lift r).
Proof. intros s H. exact H. Qed.

Lemma stable_get_self : stable I get_self.
Proof. intros s H. exact H. Qed.

Lemma stable_emit e : stable I (emit e).
Proof. intros s H. exact H. Qed.

Lemma stable_ask {A} e (r : Res A) : stable I (ask e r).
Proof. intros s H. exact H. Qed.

Lemma stable_on_fs {A} e (call : gmap string node -> Res A * gmap string node) :
  stable I (on_fs e call).
Proof. intros s H. exact H. Qed.

Lemma stable_input env p : stable I (input env p).
Proof.
  intros s H. unfold input. destruct (input_error env (st_cursor s)); exact H.
Qed.

Lemma stable_isfile f : stable I (isfile f).
Proof. intros s H. exact H. Qed.

Lemma stable_os_remove env f : stable I (os_remove env f).
Proof.
  intros s H. unfold os_remove.
  destruct (st_fs s !! f) as [[|]|]; [destruct (os_remove_error env f)|..];
    exact H.
Qed.

Lemma stable_modify f : (forall i, I i -> I (f i)) -> stable I (modify_self f).
Proof. intros Hf s H. apply Hf, H. Qed.

Lemma stable_bind {A B} (m : M A) (k : A -> M B) :
  stable I m -> (forall a, stable I (k a)) -> stable I (bind m k).
Proof.
  intros Hm Hk s H. unfold bind. specialize (Hm s H).
  destruct (out_res (m s)); simpl; [now apply Hk | exact Hm].
Qed.

Lemma stable_bind_after {A B} (m : M A) (k : A -> M B) s :
  (forall a, stable I (k a)) ->
  I (st_self (out_state (m s))) -> I (st_self (out_state (bind m k s))).
Proof.
  intros Hk Hm. unfold bind.
  destruct (out_res (m s)); simpl; [now apply Hk | exact Hm].
Qed.

Lemma stable_try {A} (m : M A) (h : exn -> M A) :
  stable I m -> (forall e, stable I (h e)) -> stable I (try_except m h).
Proof.
  intros Hm Hh s H. unfold try_except. specialize (Hm s H).
  destruct (out_res (m s)); simpl; [exact Hm | now apply Hh].
Qed.

Lemma stable_try_Exception {A} (m : M A) (h : exn -> M A) :
  stable I m -> (forall e, stable I (h e)) -> stable I (try_except_Exception m h).
Proof.
  intros Hm Hh. unfold try_except_Exception. apply stable_try; [exact Hm|].
  intros e. destruct (is_Exception e); [apply Hh | apply stable_raise].
Qed.

Lemma stable_for_each {A} (xs : list A) (body : A -> M unit) :
  (forall x, stable I (body x)) -> stable I (for_each xs body).
Proof.
  intros H. induction xs as [|x xs IH]; simpl.
  - apply stable_ret.
  - apply stable_bind; [apply H | intros _; exact IH].
Qed.
End StableRules.

Ltac stable_step :=
  first
    [ apply stable_ret | apply stable_raise | apply stable_lift
    | apply stable_get_self | apply stable_emit | apply stable_ask
    | apply stable_on_fs | apply stable_input | apply stable_isfile
    | apply stable_os_remove
    | apply stable_modify; intros ? ?; solve [auto]
    | apply stable_for_each; intros ?
    | apply stable_bind; [|intros ?]
    | apply stable_try; [|intros ?]
    | apply stable_try_Exception; [|intros ?]
    | match goal with
      | |- stable _ (if ?b then _ else _) => destruct b
      | |- stable _ (match ?x with _ => _ end) => destruct x
      end ].

Ltac stable_tac := repeat stable_step.

(** Every method but [handle_mode] keeps any property of the object that
    does not depend on the language and on the model name. *)
Section StableMethods.
Context (env : Env) (I : Interpreter -> Prop).
Hypothesis I_language : forall l i, I i -> I (with_language l i).
Hypothesis I_model : forall m i, I i -> I (with_model m i).

Lemma stable_clean_responses : stable I (_clean_responses env).
Proof. unfold _clean_responses. stable_tac. Qed.

Lemma stable_open_resources : stable I (open_resources env).
Proof.
  unfold open_resources, _open_resource_file, subprocess, display_markdown_message.
  stable_tac.
Qed.

Lemma stable_generate_text msg hist t n cfg :
  stable I (generate_text env msg hist t n cfg).
Proof.
  unfold generate_text, config_float, config_int, call_completion, _extract_content.
  stable_tac.
Qed.

Lemma stable_handle_script_mode task os : stable I (handle_script_mode task os).
Proof. unfold handle_script_mode. stable_tac. Qed.

Lemma stable_run_extracted time code os :
  stable I (run_extracted env time code os).
Proof.
  unfold run_extracted, save_generated, execute_code, show_result,
    install_on_error, display_code, display_markdown_message.
  repeat first [apply stable_open_resources | stable_step].
Qed.

Lemma stable_turn_after task os cm ss es skip time s :
  I (st_self (out_state (handle_mode task os s))) ->
  I (st_self (out_state (turn env task os cm ss es skip time s))).
Proof.
  intros Hh. unfold turn, display_code.
  apply stable_bind_after; [intros ?|exact Hh].
  repeat first [ apply stable_clean_responses | apply stable_generate_text
               | apply stable_run_extracted | stable_step ].
Qed.

Lemma stable_turn task os cm ss es skip time :
  stable I (handle_mode task os) ->
  stable I (turn env task os cm ss es skip time).
Proof. intros Hh s H. apply stable_turn_after, Hh, H. Qed.

Lemma stable_main_loop fuel os cm ss es skip time :
  (forall task, stable I (handle_mode task os)) ->
  stable I (main_loop env fuel os cm ss es skip time).
Proof.
  intros Hh. induction fuel as [|fuel IH]; simpl.
  - apply stable_ret.
  - apply stable_bind; [|intros [|]; [exact IH | apply stable_ret]].
    apply stable_try_Exception; [|intros ?; stable_tac].
    apply stable_bind; [apply stable_input | intros task].
    match goal with |- stable _ (if ?b then _ else _) => destruct b end;
      [apply stable_ret|].
    apply stable_bind; [now apply stable_turn | intros _; apply stable_ret].
Qed.

Lemma stable_interpreter_main fuel :
  (forall task, stable I (handle_mode task (get_os_platform_0 env))) ->
  stable I (interpreter_main env fuel).
Proof.
  intros Hh. unfold interpreter_main, display_code.
  apply stable_bind; [apply stable_emit | intros _].
  apply stable_bind; [apply stable_get_self | intros self].
  apply stable_bind; [apply stable_emit | intros _].
  now apply stable_main_loop.
Qed.
End StableMethods.

(** The mode flags do not change in [handle_mode]. *)
Lemma handle_mode_keeps_flags v task os :
  stable (fun i => mode_flags i = v) (handle_mode task os).
Proof.
  unfold handle_mode, handle_code_mode, handle_script_mode, handle_command_mode.
  stable_tac.
Qed.

(** Outside Code mode [handle_mode] leaves the history alone. *)
Lemma handle_mode_keeps_history h task os :
  stable (fun i => CODE_MODE i = false /\ history i = h) (handle_mode task os).
Proof.
  intros s [Hc Hh]. unfold handle_mode, bind, get_self. simpl. rewrite Hc.
  unfold handle_script_mode, handle_command_mode, bind, modify_self, ret.
  destruct (SCRIPT_MODE (st_self s)); [|destruct (COMMAND_MODE (st_self s))];
    simpl; auto.
Qed.

(** ** The mode of a session *)

Lemma mode_is_script_command m :
  mode_is "script" m && mode_is "command" m = false.
Proof.
  destruct m as [x|]; [|reflexivity]. simpl.
  destruct (String.eqb_spec x "script") as [->|]; reflexivity.
Qed.

Lemma initialize_mode_flags (s : State) :
  let m := args_mode (args (st_self s)) in
  mode_flags (st_self (out_state (initialize_mode s)))
  = (negb (mode_is "script" m || mode_is "command" m),
     mode_is "script" m, mode_is "command" m).
Proof.
  unfold initialize_mode, bind, get_self, modify_self, ret, mode_flags. simpl.
  pose proof (mode_is_script_command (args_mode (args (st_self s)))) as H.
  destruct (args_mode (args (st_self s))) as [x|]; simpl in *; [|reflexivity].
  destruct (String.eqb x "script") eqn:Hs, (String.eqb x "command") eqn:Hk;
    simpl in *; try discriminate; try reflexivity.
  all: try (apply String.eqb_eq in Hs as ->; reflexivity).
  all: try (apply String.eqb_eq in Hk as ->; reflexivity).
  all: destruct (String.eqb x "code"); reflexivity.
Qed.

Lemma interpreter_main_keeps_flags env fuel s :
  mode_flags (st_self (out_state (interpreter_main env fuel s)))
  = mode_flags (st_self s).
Proof.
  apply (stable_interpreter_main env (fun i => mode_flags i = mode_flags (st_self s)));
    auto using handle_mode_keeps_flags.
Qed.

(** C9: whatever the [mode] argument is, [initialize_mode] leaves exactly
    one of the three flags set: Script for ['script'], Command for
    ['command'] and Code for every other value (absent included); and a
    run of [interpreter_main], however long, ends with the flags it
    started with. *)
Theorem C9_one_mode_for_the_session (env : Env) (fuel : nat) (s : State) :
  let m := args_mode (args (st_self s)) in
  let i := st_self (out_state (initialize_mode s)) in
  SCRIPT_MODE i = mode_is "script" m
  /\ COMMAND_MODE i = mode_is "command" m
  /\ CODE_MODE i = negb (mode_is "script" m || mode_is "command" m)
  /\ exactly_one (CODE_MODE i) (SCRIPT_MODE i) (COMMAND_MODE i) = true
  /\ mode_flags (st_self (out_state (interpreter_main env fuel s)))
     = mode_flags (st_self s).
Proof.
  intros m i. pose proof (initialize_mode_flags s) as H.
  fold m in H. fold i in H. unfold mode_flags in H.
  injection H as Hc Hs Hk. clearbody i. rewrite Hc, Hs, Hk.
  repeat split; [|apply interpreter_main_keeps_flags].
  pose proof (mode_is_script_command m) as Hx.
  destruct (mode_is "script" m), (mode_is "command" m);
    [discriminate Hx | reflexivity..].
Qed.

(** ** The execution boundary *)

Lemma lower_is_y (a : string) :
  Str.lower a = "y" <-> a = "y" \/ a = "Y".
Proof.
  split.
  - destruct a as [|c [|c' a]]; simpl; try discriminate.
    intros H. injection H as H. revert H.
    destruct c as [[] [] [] [] [] [] [] []]; vm_compute; intros H;
      try discriminate H; auto.
  - intros [-> | ->]; reflexivity.
Qed.

(** What [execute_code] gives back, in closed form. *)
Lemma execute_code_result env code os s :
  out_res (execute_code env code os s)
  = let ran := match selected_runner env code os s with
               | Ok p => Ok p
               | Raise x =>
                   if is_Exception x then Ok (None, Some (exn_text x)) else Raise x
               end in
    if EXECUTE_CODE (st_self s) then ran
    else match input_error env (st_cursor s) with
         | Some e => Raise e
         | None =>
             if String.eqb (Str.lower (stdin env (st_cursor s))) "y" then ran
             else Ok (None, None)
         end.
Proof.
  unfold execute_code, selected_runner, bind, try_except_Exception, try_except,
    get_self, ret, raise, input, on_fs, emit.
  simpl.
  destruct (EXECUTE_CODE (st_self s)); simpl;
    [|destruct (input_error env (st_cursor s)); simpl; [reflexivity|];
      destruct (String.eqb (Str.lower (stdin env (st_cursor s))) "y"); simpl;
      [|reflexivity]];
    (destruct (SCRIPT_MODE (st_self s)); simpl;
     [|destruct (COMMAND_MODE (st_self s)); simpl;
       [|destruct (CODE_MODE (st_self s)); simpl; [|reflexivity]]]);
    match goal with
    | |- context [match ?r with Ok _ => _ | Raise _ => _ end] =>
        destruct r as [p|x]; simpl; [reflexivity|]
    end;
    destruct (is_Exception x); reflexivity.
Qed.

(** Nothing is run unless the run is confirmed. *)
Lemma execute_code_declined_runs_nothing env code os s :
  confirmed env s = false ->
  count (is_kind Run) (out_events (execute_code env code os s)) = 0.
Proof.
  unfold confirmed, execute_code, bind, get_self, ret, input.
  simpl.
  destruct (EXECUTE_CODE (st_self s)); [discriminate|].
  destruct (input_error env (st_cursor s)); simpl; [reflexivity|].
  intros ->. reflexivity.
Qed.

(** C2 as stated fails: a runner interrupted from the keyboard raises
    [KeyboardInterrupt], which [except Exception] lets through, so
    [execute_code] hands it to its caller. *)
Lemma C2_interrupt_propagates_counterexample :
  let env := sample_env [] "ls"
               (Raise {| exn_type := "KeyboardInterrupt"; exn_text := "" |}) in
  let s := started (sample_args "code" false) "code-llama" "" ∅ in
  ~ contains_failures env "ls" "Linux" s.
Proof.
  intros env s H.
  specialize (H {| exn_type := "KeyboardInterrupt"; exn_text := "" |}
                eq_refl eq_refl).
  vm_compute in H. discriminate H.
Qed.

(** C2, amended: an exception of class [Exception] raised by the runner
    chosen by the mode is caught and comes back as (absent, its text).
    [execute_code] raises in two cases only: [input] raised at the
    question, which is asked outside the [try], or the run was confirmed
    and the runner raised something that is not an [Exception].  When
    auto-execute is off and the answer is neither 'y' nor 'Y', the pair is
    (absent, absent) and nothing is run. *)
Theorem C2_execute_code_contains_Exceptions
    (env : Env) (extracted_code os_name : string) (s : State) :
  let o := execute_code env extracted_code os_name s in
  let self := st_self s in
  let answer := stdin env (st_cursor s) in
  (forall x,
     confirmed env s = true ->
     selected_runner env extracted_code os_name s = Raise x ->
     is_Exception x = true ->
     out_res o = Ok (None, Some (exn_text x)))
  /\ (forall e,
        out_res o = Raise e
        <-> (EXECUTE_CODE self = false /\ input_error env (st_cursor s) = Some e)
            \/ (confirmed env s = true
                /\ selected_runner env extracted_code os_name s = Raise e
                /\ is_Exception e = false))
  /\ (EXECUTE_CODE self = false -> input_error env (st_cursor s) = None ->
      answer <> "y" -> answer <> "Y" ->
      out_res o = Ok (None, None)
      /\ count (is_kind Run) (out_events o) = 0).
Proof.
  cbv zeta. rewrite execute_code_result. cbv zeta. unfold confirmed.
  split; [|split].
  - intros x Hc Hr Hx. rewrite Hr, Hx.
    destruct (EXECUTE_CODE (st_self s)); [reflexivity|].
    destruct (input_error env (st_cursor s)); [discriminate Hc|].
    cbn [orb] in Hc. now rewrite Hc.
  - intros e.
    destruct (EXECUTE_CODE (st_self s)); cbn [orb].
    + destruct (selected_runner env extracted_code os_name s) as [p|x].
      * split; [discriminate|].
        intros [[H _] | (_ & H & _)]; discriminate H.
      * destruct (is_Exception x) eqn:Hx.
        -- split; [discriminate|].
           intros [[H _] | (_ & H & He)]; [discriminate H|].
           injection H as ->. congruence.
        -- split.
           ++ intros H. injection H as ->. right. auto.
           ++ intros [[H _] | (_ & H & _)]; [discriminate H | exact H].
    + destruct (input_error env (st_cursor s)) as [e0|].
      * split.
        -- intros H. injection H as ->. left. auto.
        -- intros [[_ H] | (H & _)]; [injection H as ->; reflexivity | discriminate H].
      * destruct (String.eqb (Str.lower (stdin env (st_cursor s))) "y").
        -- destruct (selected_runner env extracted_code os_name s) as [p|x].
           ++ split; [discriminate|].
              intros [[_ H] | (_ & H & _)]; discriminate H.
           ++ destruct (is_Exception x) eqn:Hx.
              ** split; [discriminate|].
                 intros [[_ H] | (_ & H & He)]; [discriminate H|].
                 injection H as ->. congruence.
              ** split.
                 --- intros H. injection H as ->. right. auto.
                 --- intros [[_ H] | (_ & H & _)]; [discriminate H | exact H].
        -- split; [discriminate|].
           intros [[_ H] | (H & _)]; discriminate H.
  - intros HE Hin Hy HY. rewrite HE, Hin.
    destruct (String.eqb_spec (Str.lower (stdin env (st_cursor s))) "y") as [E|E].
    + apply lower_is_y in E. tauto.
    + split; [reflexivity|].
      apply execute_code_declined_runs_nothing. unfold confirmed.
      rewrite HE, Hin. cbn [orb]. now apply String.eqb_neq.
Qed.

(** ** The history of a session *)

(** In Code mode a turn adds its task and prompt at the end. *)
Lemma turn_appends_in_code_mode env task os cm ss es skip time s :
  CODE_MODE (st_self s) = true ->
  history (st_self (out_state (turn env task os cm ss es skip time s)))
  = history (st_self s)
    ++ [(task, "Generate the code in " +:+ INTERPRETER_LANGUAGE (st_self s)
               +:+ " language for this task '" +:+ task
               +:+ " for Operating System: " +:+ os +:+ "'.")].
Proof.
  intros Hc.
  apply (stable_turn_after env (fun i => history i = _)); auto.
  unfold handle_mode, handle_code_mode, bind, get_self, modify_self, ret.
  simpl. rewrite Hc. reflexivity.
Qed.

(** In Script and Command mode nothing is ever added. *)
Lemma history_untouched_outside_code_mode env fuel s :
  CODE_MODE (st_self s) = false ->
  history (st_self (out_state (interpreter_main env fuel s)))
  = history (st_self s).
Proof.
  intros Hc.
  apply (stable_interpreter_main env
           (fun i => CODE_MODE i = false /\ history i = history (st_self s)));
    auto using handle_mode_keeps_history.
Qed.

(** C1 (the code departs from the claim): a Script-mode session in which
    one task is submitted and completed, then "exit" is typed, ends with an
    empty History, not one of length 1. *)
Theorem C1_script_session_history_empty :
  let env := sample_env ["list files"] "ls" (Ok (Some "a.txt", None)) in
  let o := interpreter_main env 3
             (started (sample_args "script" false) "code-llama" "" ∅) in
  out_res o = Ok Finished
  /\ count is_persist (out_events o) = 1
  /\ history (st_self (out_state o)) = [].
Proof. vm_compute. repeat split. Qed.

(** ** Stale-file cleanup *)

(** C10: when none of graph.png, chart.png and table.md exists, the
    cleanup, run once or twice in a row, returns normally, logs and prints
    nothing and leaves the whole state as it was. *)
Theorem C10_cleanup_idempotent (env : Env) (s : State) :
  st_fs s !! "graph.png" = None ->
  st_fs s !! "chart.png" = None ->
  st_fs s !! "table.md" = None ->
  _clean_responses env s
  = {| out_res := Ok tt; out_state := s; out_events := [] |}
  /\ bind (_clean_responses env) (fun _ => _clean_responses env) s
     = {| out_res := Ok tt; out_state := s; out_events := [] |}.
Proof.
  intros Hg Hc Ht.
  assert (forall file (k : M unit),
            st_fs s !! file = None ->
            k s = {| out_res := Ok tt; out_state := s; out_events := [] |} ->
            bind (try_except_Exception
                    (bind (isfile file) (fun b =>
                       if b then
                         bind (os_remove env file) (fun _ =>
                           emit (EvLogInfo (file +:+ " removed successfully")))
                       else ret tt))
                    (fun e =>
                       emit (EvPrint ("Error in removing " +:+ file +:+ ": "
                                      +:+ exn_text e))))
                 (fun _ => k) s
            = {| out_res := Ok tt; out_state := s; out_events := [] |}) as Hstep.
  { intros file k Hf Hk. unfold bind, try_except_Exception, try_except, isfile, ret.
    cbn [out_res out_state out_events]. rewrite Hf.
    cbn [out_res out_state out_events app]. rewrite Hk. reflexivity. }
  assert (_clean_responses env s
          = {| out_res := Ok tt; out_state := s; out_events := [] |}) as H.
  { unfold _clean_responses, files_to_remove. cbn [for_each].
    apply Hstep; [exact Hg|]. apply Hstep; [exact Hc|].
    apply Hstep; [exact Ht|]. reflexivity. }
  split; [exact H|]. unfold bind. rewrite H.
  cbn [out_res out_state out_events app]. rewrite H. reflexivity.
Qed.

Lemma C10_cleanup_idempotent_witness :
  let env := sample_env [] "" (Ok (None, None)) in
  let s := started (sample_args "code" false) "code-llama" "" ∅ in
  _clean_responses env s
  = {| out_res := Ok tt; out_state := s; out_events := [] |}
  /\ bind (_clean_responses env) (fun _ => _clean_responses env) s
     = {| out_res := Ok tt; out_state := s; out_events := [] |}.
Proof.
  apply (C10_cleanup_idempotent
           (sample_env [] "" (Ok (None, None)))
           (started (sample_args "code" false) "code-llama" "" ∅));
    reflexivity.
Defined.

(** ** Recognising a missing dependency *)

Lemma is_missing_dependency_spec (code_error : option string) :
  is_missing_dependency code_error = true
  <-> exists e, code_error = Some e
                /\ exists m, In m error_messages /\ occurs m e.
Proof.
  unfold is_missing_dependency, Str.any_in. split.
  - destruct code_error as [e|]; [|discriminate].
    intros H. apply existsb_exists in H as [m [Hm Hin]].
    exists e. split; [reflexivity|]. exists m. split; [exact Hm|].
    now apply StrFacts.str_in_spec.
  - intros [e [-> [m [Hm Ho]]]]. apply existsb_exists. exists m.
    split; [exact Hm|]. now apply StrFacts.str_in_spec.
Qed.

Lemma resolver_called_iff env code_error s :
  count (is_kind Resolve) (out_events (install_on_error env code_error s)) = 1
  <-> is_missing_dependency code_error = true.
Proof.
  unfold install_on_error.
  destruct (is_missing_dependency code_error); split; try reflexivity;
    try discriminate; intros _.
  unfold bind, get_self, ask, on_fs, ret. paths; reflexivity.
Qed.

(** C3: the resolver is called exactly when the error is present and one
    of "ModuleNotFound", "ImportError", "No module named", "Cannot find
    module" occurs in it, letter case included. *)
Theorem C3_recovery_iff_error_names_a_module
    (env : Env) (code_error : option string) (s : State) :
  (count (is_kind Resolve) (out_events (install_on_error env code_error s)) = 1
   <-> exists e, code_error = Some e
                 /\ exists m,
                      In m ["ModuleNotFound"; "ImportError"; "No module named";
                            "Cannot find module"]
                      /\ occurs m e)
  /\ is_missing_dependency
       (Some "ModuleNotFoundError: No module named 'requests'") = true
  /\ is_missing_dependency (Some "SyntaxError: invalid syntax") = false
  /\ is_missing_dependency (Some "importerror: no module NAMED x") = false
  /\ is_missing_dependency None = false.
Proof.
  split; [|repeat split].
  rewrite resolver_called_iff. apply is_missing_dependency_spec.
Qed.

(** ** What [execute_code] returns *)

(** C7 as stated fails: a runner that returns both an output and an error
    text has both handed on by [execute_code]. *)
Lemma C7_both_streams_counterexample :
  let env := sample_env [] "print(3)" (Ok (Some "3", Some "DeprecationWarning")) in
  let s := started (sample_args "code" false) "code-llama" "" ∅ in
  exists p, out_res (execute_code env "print(3)" "Linux" s) = Ok p
            /\ one_sided p = false.
Proof. eexists. split; vm_compute; reflexivity. Qed.

(** C7, amended: [execute_code] hands on the pair of the runner chosen by
    the mode as it is; an [Exception] raised by the runner gives (absent,
    its text) and a declined run (absent, absent).  So a pair with both
    components non-empty is always the very pair the runner returned. *)
Theorem C7_both_streams_only_from_runner
    (env : Env) (extracted_code os_name : string) (s : State) :
  let o := execute_code env extracted_code os_name s in
  (forall p,
     confirmed env s = true ->
     selected_runner env extracted_code os_name s = Ok p ->
     out_res o = Ok p)
  /\ (forall x,
        confirmed env s = true ->
        selected_runner env extracted_code os_name s = Raise x ->
        is_Exception x = true ->
        out_res o = Ok (None, Some (exn_text x)))
  /\ (declined env s = true -> out_res o = Ok (None, None))
  /\ (forall out err,
        out_res o = Ok (out, err) ->
        one_sided (out, err) = false ->
        confirmed env s = true
        /\ selected_runner env extracted_code os_name s = Ok (out, err)).
Proof.
  cbv zeta. rewrite execute_code_result. cbv zeta. unfold confirmed, declined.
  split; [|split; [|split]].
  - intros p Hc Hr. rewrite Hr.
    destruct (EXECUTE_CODE (st_self s)); [reflexivity|].
    destruct (input_error env (st_cursor s)); [discriminate Hc|].
    cbn [orb] in Hc. now rewrite Hc.
  - intros x Hc Hr Hx. rewrite Hr, Hx.
    destruct (EXECUTE_CODE (st_self s)); [reflexivity|].
    destruct (input_error env (st_cursor s)); [discriminate Hc|].
    cbn [orb] in Hc. now rewrite Hc.
  - destruct (EXECUTE_CODE (st_self s)); [discriminate|].
    destruct (input_error env (st_cursor s)); [discriminate|].
    cbn [negb andb]. intros H. apply negb_true_iff in H. now rewrite H.
  - intros out err H Hboth.
    assert (forall r : Res (option string * option string),
              match r with
              | Ok p => Ok p
              | Raise x =>
                  if is_Exception x then Ok (None, Some (exn_text x)) else Raise x
              end = Ok (out, err) -> r = Ok (out, err)) as Hran.
    { intros [p|x]; [auto|]. destruct (is_Exception x); [|discriminate].
      intros E. injection E as <- <-. discriminate Hboth. }
    destruct (EXECUTE_CODE (st_self s)); [split; [reflexivity | now apply Hran]|].
    destruct (input_error env (st_cursor s)); [discriminate H|].
    cbn [orb].
    destruct (String.eqb (Str.lower (stdin env (st_cursor s))) "y");
      [split; [reflexivity | now apply Hran]|].
    injection H as <- <-. discriminate Hboth.
Qed.

(** ** The parameters of the completion call *)

Lemma prefix_adds_no_gpt35 m :
  Str.str_in "gpt-3.5-turbo" ("huggingface/" +:+ m)
  = Str.str_in "gpt-3.5-turbo" m.
Proof. reflexivity. Qed.

Lemma gpt35_needs_gpt m :
  Str.str_in "gpt" m = false -> Str.str_in "gpt-3.5-turbo" m = false.
Proof.
  intros H. destruct (Str.str_in "gpt-3.5-turbo" m) eqn:E; [|reflexivity].
  apply StrFacts.str_in_spec in E as [pre [post ->]].
  assert (Str.str_in "gpt" (pre +:+ "gpt-3.5-turbo" +:+ post) = true) as C.
  { apply StrFacts.str_in_spec. exists pre, ("-3.5-turbo" +:+ post). reflexivity. }
  congruence.
Qed.

Lemma prefixed_gpt35 m :
  Str.str_in "gpt-3.5-turbo" (prefixed m) = Str.str_in "gpt-3.5-turbo" m.
Proof. unfold prefixed. destruct (_ && _); [apply prefix_adds_no_gpt35 | reflexivity]. Qed.

Lemma extract_content_no_completion v s :
  count is_completion (out_events (_extract_content v s)) = 0.
Proof.
  unfold _extract_content, bind, try_except, lift, emit, raise. paths; reflexivity.
Qed.

(** What [generate_text] does once the two parameters are settled. *)
Lemma generate_text_events env message hist t0 n0 cfg s t n :
  (match cfg with
   | Some c =>
       if bool_decide (c = ∅) then t = t0 /\ n = n0
       else config_float env c "temperature" t0 s
            = {| out_res := Ok t; out_state := s; out_events := [] |}
            /\ config_int env c "max_tokens" n0 s
               = {| out_res := Ok n; out_state := s; out_events := [] |}
   | None => t = t0 /\ n = n0
   end) ->
  exists rest,
    out_events (generate_text env message hist t0 n0 cfg s)
    = (if Str.str_in "gpt-3.5-turbo" (INTERPRRETER_MODEL (st_self s)) then
         EvCompletion (INTERPRRETER_MODEL (st_self s))
                      (get_prompt (st_self s) message hist)
                      0.1%float 2048%Z (Some (heaven_api_base, "openai"))
       else
         EvCompletion (prefixed (INTERPRRETER_MODEL (st_self s)))
                      (get_prompt (st_self s) message hist) t n None) :: rest
    /\ count is_completion rest = 0.
Proof.
  intros Hp. unfold generate_text.
  set (params := match cfg with Some c => _ | None => _ end).
  assert (params s = {| out_res := Ok (t, n); out_state := s; out_events := [] |})
    as Hparams.
  { subst params. destruct cfg as [c|]; [destruct (bool_decide (c = ∅))|].
    - destruct Hp as [-> ->]. reflexivity.
    - destruct Hp as [Ht Hn]. unfold bind. rewrite Ht. simpl. rewrite Hn. reflexivity.
    - destruct Hp as [-> ->]. reflexivity. }
  rewrite events_bind, Hparams. simpl.
  pose proof (prefixed_gpt35 (INTERPRRETER_MODEL (st_self s))) as Hg.
  unfold prefixed in *.
  unfold bind at 1. unfold get_self at 1. simpl.
  destruct (negb (Str.str_in "huggingface/" (INTERPRRETER_MODEL (st_self s)))
            && negb (Str.str_in "gpt" (INTERPRRETER_MODEL (st_self s)))) eqn:Hpre.
  - assert (Str.str_in "gpt-3.5-turbo" (INTERPRRETER_MODEL (st_self s)) = false)
      as Hno.
    { apply andb_true_iff in Hpre as [_ Hgpt]. apply negb_true_iff in Hgpt.
      now apply gpt35_needs_gpt. }
    unfold bind, modify_self, get_self, call_completion, ask. simpl.
    rewrite Hno. simpl.
    destruct (completion env _ _ _ _ _); simpl;
      [eexists; split; [reflexivity | apply extract_content_no_completion]
      | eexists; split; reflexivity].
  - unfold bind, get_self, call_completion, ask, ret. simpl.
    destruct (Str.str_in "gpt-3.5-turbo" (INTERPRRETER_MODEL (st_self s))); simpl;
      (destruct (completion env _ _ _ _ _); simpl;
       [eexists; split; [reflexivity | apply extract_content_no_completion]
       | eexists; split; reflexivity]).
Qed.

Lemma config_params env cfg t n s :
  config_temperature env cfg = Some t ->
  config_max_tokens env cfg = Some n ->
  if bool_decide (cfg = ∅) then t = default_temperature /\ n = default_max_tokens
  else config_float env cfg "temperature" default_temperature s
       = {| out_res := Ok t; out_state := s; out_events := [] |}
       /\ config_int env cfg "max_tokens" default_max_tokens s
          = {| out_res := Ok n; out_state := s; out_events := [] |}.
Proof.
  unfold config_temperature, config_max_tokens, config_float, config_int.
  intros Ht Hn. case_bool_decide as Hc.
  - subst cfg. rewrite !lookup_empty in *. split; congruence.
  - destruct (cfg !! "temperature"), (cfg !! "max_tokens");
      rewrite ?Ht, ?Hn; split; unfold ret; congruence.
Qed.

(** C5 as stated fails: for the model "gpt-3.5-turbo" the call is made
    with 0.1 and 2048 whatever the Config says (here 0.5 and 512). *)
Lemma C5_gpt_ignores_config_counterexample :
  let env := sample_env [] "ls" (Ok (None, None)) in
  let cfg : gmap string string :=
    <["temperature" := "0.5"]> (<["max_tokens" := "512"]> ∅) in
  let s := started (sample_args "code" false) "gpt-3.5-turbo" "" cfg in
  ~ called_with_config env "list files" s.
Proof.
  intros env cfg s H.
  destruct (H 0.5%float 512%Z eq_refl eq_refl) as (m & msgs & api & rest & E).
  vm_compute in E. discriminate E.
Qed.

(** A value of the Config that is not a number stops [generate_text] at
    once. *)
Lemma generate_text_stops_on_bad_config env message hist t0 n0
    (c : gmap string string) s :
  config_temperature env c = None \/ config_max_tokens env c = None ->
  exists e,
    exn_type e = "ValueError"
    /\ generate_text env message hist t0 n0 (Some c) s
       = {| out_res := Raise e; out_state := s; out_events := [] |}.
Proof.
  intros H.
  assert (bool_decide (c = ∅) = false) as Hne.
  { apply bool_decide_eq_false_2. intros ->.
    unfold config_temperature, config_max_tokens in H.
    rewrite !lookup_empty in H. destruct H; discriminate. }
  assert (exists e, exn_type e = "ValueError"
                    /\ bind (config_float env c "temperature" t0) (fun t =>
                         bind (config_int env c "max_tokens" n0) (fun n => ret (t, n))) s
                       = {| out_res := Raise e; out_state := s; out_events := [] |})
    as (e & He & Hp).
  { unfold config_temperature, config_max_tokens in H.
    unfold bind, config_float, config_int, ret, raise.
    destruct (c !! "temperature") as [v|]; [destruct (py_float env v)|];
      cbn [out_res out_state out_events app];
      try (eexists; split; [|reflexivity]; reflexivity);
      (destruct (c !! "max_tokens") as [w|]; [destruct (py_int env w)|];
       cbn [out_res out_state out_events app];
       try (eexists; split; [|reflexivity]; reflexivity);
       destruct H; discriminate). }
  exists e. split; [exact He|].
  unfold generate_text. rewrite Hne. unfold bind at 1. rewrite Hp. reflexivity.
Qed.

(** C5, amended: a call of [generate_text] with the Config of the session
    first reads the temperature and the token limit from it, 0.1 and 1024
    standing in for absent keys.  When both are numbers the completion is
    called, once, as the first thing that happens: under the (possibly
    prefixed) model name with these two values when the name does not
    contain "gpt-3.5-turbo", and with the fixed values 0.1 and 2048 and
    the private endpoint when it does.  When one of them is not a number
    the call raises [ValueError] and the completion is not called. *)
Theorem C5_completion_parameters
    (env : Env) (message : string) (s : State) :
  let self := st_self s in
  let o := generate_text env message (history self)
                         default_temperature default_max_tokens
                         (Some (config_values self)) s in
  match config_temperature env (config_values self),
        config_max_tokens env (config_values self) with
  | Some t, Some n =>
      exists rest,
        out_events o
        = (if Str.str_in "gpt-3.5-turbo" (INTERPRRETER_MODEL self) then
             EvCompletion (INTERPRRETER_MODEL self)
                          (get_prompt self message (history self))
                          0.1%float 2048%Z
                          (Some ("https://heaven-gpt.haseebmir.repl.co", "openai"))
           else
             EvCompletion (prefixed (INTERPRRETER_MODEL self))
                          (get_prompt self message (history self))
                          t n None) :: rest
        /\ count is_completion rest = 0
  | _, _ =>
      out_events o = []
      /\ exists e, out_res o = Raise e /\ exn_type e = "ValueError"
  end.
Proof.
  cbv zeta.
  destruct (config_temperature env (config_values (st_self s))) as [t|] eqn:Ht;
    [destruct (config_max_tokens env (config_values (st_self s))) as [n|] eqn:Hn|].
  - apply (generate_text_events env message (history (st_self s))
             default_temperature default_max_tokens
             (Some (config_values (st_self s))) s t n).
    apply config_params; assumption.
  - destruct (generate_text_stops_on_bad_config env message (history (st_self s))
                default_temperature default_max_tokens (config_values (st_self s)) s)
      as (e & He & ->); [now right|].
    split; [reflexivity|]. exists e. split; [reflexivity | exact He].
  - destruct (generate_text_stops_on_bad_config env message (history (st_self s))
                default_temperature default_max_tokens (config_values (st_self s)) s)
      as (e & He & ->); [now left|].
    split; [reflexivity|]. exists e. split; [reflexivity | exact He].
Qed.

(** ** Saving the code before running it *)

Lemma after_save_no_save env code os :
  forall a : unit,
    Free Save (result <- execute_code env code os;
               show_result result.1 result.2 ;;
               install_on_error env result.2 ;;
               open_resources env).
Proof.
  intros _.
  apply Free_bind; [apply Free_execute_code; discriminate | intros result].
  apply Free_bind; [apply Free_show_result | intros _].
  apply Free_bind; [apply Free_install_on_error; auto | intros _].
  apply Free_open_resources.
Qed.

Lemma run_extracted_events env time code os s :
  out_events (run_extracted env time code os s)
  = out_events (save_generated env time code s)
    ++ match out_res (save_generated env time code s) with
       | Ok _ =>
           out_events
             ((result <- execute_code env code os;
               show_result result.1 result.2 ;;
               install_on_error env result.2 ;;
               open_resources env)
                (out_state (save_generated env time code s)))
       | Raise _ => []
       end.
Proof. unfold run_extracted. apply events_bind. Qed.

(** C8 as stated fails: in a Script-mode session on Linux the language is
    bash, and with the save flag set the code is run without being
    saved. *)
Lemma C8_bash_not_saved_counterexample :
  let env := sample_env ["list files"] "ls" (Ok (Some "a.txt", None)) in
  let s := out_state (handle_mode "list files" "Linux"
                        (started (sample_args "script" true) "code-llama" "" ∅)) in
  SAVE_CODE (st_self s) = true
  /\ INTERPRETER_LANGUAGE (st_self s) = "bash"
  /\ count (is_kind Run) (out_events (run_extracted env "12:00:00" "ls" "Linux" s)) = 1
  /\ ~ saved_first env "12:00:00" "ls" "Linux" s.
Proof.
  repeat split. intros [path [rest H]]. vm_compute in H. discriminate H.
Qed.

(** C8, amended: with the save flag set, when the language is python or
    javascript the first thing done with the extracted code is to save it
    to output/code_generated_<time>.py or .js, before the question and the
    run, and it is saved once; for any other language it is not saved. *)
Theorem C8_saved_first_for_python_and_javascript
    (env : Env) (current_time extracted_code os_name : string) (s : State) :
  SAVE_CODE (st_self s) = true ->
  let evs := out_events (run_extracted env current_time extracted_code os_name s) in
  (INTERPRETER_LANGUAGE (st_self s) = "python" ->
   exists rest,
     evs = EvSaveCode ("output/code_generated_" +:+ current_time +:+ ".py")
                      extracted_code :: rest
     /\ count (is_kind Save) rest = 0)
  /\ (INTERPRETER_LANGUAGE (st_self s) = "javascript" ->
      exists rest,
        evs = EvSaveCode ("output/code_generated_" +:+ current_time +:+ ".js")
                         extracted_code :: rest
        /\ count (is_kind Save) rest = 0)
  /\ (INTERPRETER_LANGUAGE (st_self s) <> "python" ->
      INTERPRETER_LANGUAGE (st_self s) <> "javascript" ->
      count (is_kind Save) evs = 0).
Proof.
  intros Hsave evs. subst evs. rewrite run_extracted_events.
  pose proof (after_save_no_save env extracted_code os_name tt) as Hfree.
  unfold save_generated.
  rewrite get_self_bind_events, get_self_bind_res, get_self_bind_state.
  rewrite Hsave, !andb_true_r.
  split; [|split].
  - intros ->. change ("python" =? "javascript") with false.
    change ("python" =? "python") with true. cbv iota.
    unfold on_fs at 1 2 3. cbn [out_res out_state out_events app].
    eexists. split; [reflexivity|].
    destruct (save_code env _ _ _).1; [apply Hfree | reflexivity].
  - intros ->. change ("javascript" =? "javascript") with true. cbv iota.
    unfold on_fs at 1 2 3. cbn [out_res out_state out_events app].
    eexists. split; [reflexivity|].
    destruct (save_code env _ _ _).1; [apply Hfree | reflexivity].
  - intros Hp Hj.
    destruct (String.eqb_spec (INTERPRETER_LANGUAGE (st_self s)) "javascript");
      [contradiction|].
    destruct (String.eqb_spec (INTERPRETER_LANGUAGE (st_self s)) "python");
      [contradiction|].
    unfold ret at 1 2 3. cbn [out_res out_state out_events app]. apply Hfree.
Qed.

Lemma C8_saved_first_for_python_and_javascript_witness :
  let env := sample_env ["plot sine"] "import numpy" (Ok (Some "ok", None)) in
  let s := out_state (handle_mode "plot sine" "Linux"
                        (started (sample_args "code" true) "code-llama" "" ∅)) in
  let evs := out_events (run_extracted env "12:00:00" "import numpy" "Linux" s) in
  INTERPRETER_LANGUAGE (st_self s) = "python"
  /\ exists rest,
       evs = EvSaveCode ("output/code_generated_" +:+ "12:00:00" +:+ ".py")
                        "import numpy" :: rest
       /\ count (is_kind Save) rest = 0.
Proof.
  split; [reflexivity|].
  apply (C8_saved_first_for_python_and_javascript
           (sample_env ["plot sine"] "import numpy" (Ok (Some "ok", None)))
           "12:00:00" "import numpy" "Linux"
           (out_state (handle_mode "plot sine" "Linux"
                         (started (sample_args "code" true) "code-llama" "" ∅))));
    reflexivity.
Defined.


(** * Further properties of the code *)

(** ** Reading a completion response *)

Lemma getitem_key_ok v k x :
  getitem_key v k = Ok x <-> exists d, v = PDict d /\ assoc k d = Some x.
Proof.
  split.
  - destruct v as [| | | |d]; simpl; try discriminate.
    destruct (assoc k d) eqn:E; [|discriminate].
    intros H. injection H as <-. eauto.
  - intros [d [-> H]]. simpl. now rewrite H.
Qed.

Lemma getitem_0_ok v x :
  getitem_0 v = Ok x
  <-> (exists rest, v = PList (x :: rest))
      \/ (exists c r, v = PStr (String c r) /\ x = PStr (String c EmptyString)).
Proof.
  split.
  - destruct v as [|[|c r]| |[|y l]|d]; simpl; try discriminate;
      intros H; injection H as <-; eauto.
  - intros [[rest ->] | [c [r [-> ->]]]]; reflexivity.
Qed.

Lemma getitem_key_raises v k e :
  getitem_key v k = Raise e ->
  exn_type e = "KeyError" \/ exn_type e = "TypeError".
Proof.
  destruct v as [| | | |d]; simpl; try (intros H; injection H as <-; auto).
  destruct (assoc k d); [discriminate|]. intros H. injection H as <-. auto.
Qed.

Lemma getitem_0_raises v e :
  getitem_0 v = Raise e ->
  exn_type e = "KeyError" \/ exn_type e = "TypeError" \/ exn_type e = "IndexError".
Proof.
  destruct v as [|[|c r]| |[|y l]|d]; simpl; try discriminate;
    intros H; injection H as <-; auto.
Qed.

(** [_extract_content] hands back a content exactly for a response of the
    expected shape; it then logs nothing and leaves the state alone. *)
Theorem extract_content_ok_iff (v c : pyval) (s : State) :
  (out_res (_extract_content v s) = Ok c <-> well_formed v c)
  /\ (out_res (_extract_content v s) = Ok c ->
      out_events (_extract_content v s) = []
      /\ out_state (_extract_content v s) = s).
Proof.
  unfold _extract_content, try_except, bind, lift, emit, raise, well_formed.
  cbn [out_res out_state out_events].
  destruct (getitem_key v "choices") as [choices|e0] eqn:E0;
    cbn [out_res out_state out_events].
  2: { split.
       - split.
         + destruct (_ || _); cbn [out_res]; discriminate.
         + intros (d & rest & d1 & d2 & -> & H & _). simpl in E0.
           rewrite H in E0. discriminate.
       - destruct (_ || _); cbn [out_res]; discriminate. }
  destruct (getitem_0 choices) as [first|e1] eqn:E1;
    cbn [out_res out_state out_events].
  2: { split.
       - split.
         + destruct (_ || _); cbn [out_res]; discriminate.
         + intros (d & rest & d1 & d2 & -> & H & _). simpl in E0.
           rewrite H in E0. injection E0 as <-. discriminate.
       - destruct (_ || _); cbn [out_res]; discriminate. }
  destruct (getitem_key first "message") as [msg|e2] eqn:E2;
    cbn [out_res out_state out_events].
  2: { split.
       - split.
         + destruct (_ || _); cbn [out_res]; discriminate.
         + intros (d & rest & d1 & d2 & -> & H & H1 & _). simpl in E0.
           rewrite H in E0. injection E0 as <-. injection E1 as <-.
           simpl in E2. rewrite H1 in E2. discriminate.
       - destruct (_ || _); cbn [out_res]; discriminate. }
  destruct (getitem_key msg "content") as [x|e3] eqn:E3;
    cbn [out_res out_state out_events].
  2: { split.
       - split.
         + destruct (_ || _); cbn [out_res]; discriminate.
         + intros (d & rest & d1 & d2 & -> & H & H1 & H2). simpl in E0.
           rewrite H in E0. injection E0 as <-. injection E1 as <-.
           simpl in E2. rewrite H1 in E2. injection E2 as <-.
           simpl in E3. rewrite H2 in E3. discriminate.
       - destruct (_ || _); cbn [out_res]; discriminate. }
  split; [|auto]. split.
  - intros H. injection H as ->.
    apply getitem_key_ok in E0 as [d [-> Hd]].
    apply getitem_key_ok in E3 as [d2 [-> Hd2]].
    apply getitem_key_ok in E2 as [d1 [-> Hd1]].
    apply getitem_0_ok in E1 as [[rest ->] | [ch [r [-> Hx]]]]; [|discriminate].
    now exists d, rest, d1, d2.
  - intros (d & rest & d1 & d2 & -> & H & H1 & H2). simpl in E0.
    rewrite H in E0. injection E0 as <-. injection E1 as <-.
    simpl in E2. rewrite H1 in E2. injection E2 as <-.
    simpl in E3. rewrite H2 in E3. injection E3 as <-. reflexivity.
Qed.

Lemma extract_content_handler (e : exn) (s : State) :
  let h := (if String.eqb (exn_type e) "KeyError" || String.eqb (exn_type e) "TypeError"
            then bind (emit (EvLogError ("Error extracting content: " +:+ exn_text e)))
                      (fun _ => raise e)
            else raise e) s in
  exn_type e = "KeyError" \/ exn_type e = "TypeError" \/ exn_type e = "IndexError" ->
  out_res h = @Raise pyval e
  /\ out_state h = s
  /\ ((exn_type e = "KeyError" \/ exn_type e = "TypeError")
      /\ out_events h = [EvLogError ("Error extracting content: " +:+ exn_text e)]
      \/ exn_type e = "IndexError" /\ out_events h = []).
Proof.
  intros h [H | [H | H]]; subst h; rewrite H; cbn; auto 6.
Qed.

(** When [_extract_content] fails it raises the error of the subscript
    that failed and leaves the state alone.  A missing key or a value of
    the wrong type is logged, once; an empty ['choices'] list, an
    [IndexError], is raised without a log line. *)
Theorem extract_content_failure (v : pyval) (s : State) (e : exn) :
  out_res (_extract_content v s) = Raise e ->
  out_state (_extract_content v s) = s
  /\ ((exn_type e = "KeyError" \/ exn_type e = "TypeError")
      /\ out_events (_extract_content v s)
         = [EvLogError ("Error extracting content: " +:+ exn_text e)]
      \/ exn_type e = "IndexError" /\ out_events (_extract_content v s) = []).
Proof.
  unfold _extract_content, try_except.
  set (body := bind (lift (getitem_key v "choices")) _).
  assert (out_state (body s) = s /\ out_events (body s) = []
          /\ forall x, out_res (body s) = Raise x ->
                       exn_type x = "KeyError" \/ exn_type x = "TypeError"
                       \/ exn_type x = "IndexError") as (Hs & He & Hx).
  { subst body. unfold bind, lift. cbn [out_res out_state out_events].
    destruct (getitem_key v "choices") as [choices|e0] eqn:E0;
      cbn [out_res out_state out_events app].
    2: { repeat split. intros x H. injection H as <-.
         apply getitem_key_raises in E0. tauto. }
    destruct (getitem_0 choices) as [first|e1] eqn:E1;
      cbn [out_res out_state out_events app].
    2: { repeat split. intros x H. injection H as <-.
         now apply getitem_0_raises in E1. }
    destruct (getitem_key first "message") as [msg|e2] eqn:E2;
      cbn [out_res out_state out_events app].
    2: { repeat split. intros x H. injection H as <-.
         apply getitem_key_raises in E2. tauto. }
    repeat split. intros x H. apply getitem_key_raises in H. tauto. }
  cbv zeta. destruct (out_res (body s)) as [c|x] eqn:E;
    [rewrite E; discriminate|].
  cbn [out_res out_state out_events]. rewrite Hs, He. cbn [app].
  destruct (extract_content_handler x s (Hx x eq_refl)) as (Hr & Hs' & He').
  cbv zeta in Hr, Hs', He'. intros H. rewrite Hr in H. injection H as <-.
  split; assumption.
Qed.

Lemma extract_content_failure_witness :
  let v := PDict [("choices", PList [])] in
  let s := started (sample_args "code" false) "code-llama" "" ∅ in
  let e := IndexError "list index out of range" in
  out_state (_extract_content v s) = s
  /\ ((exn_type e = "KeyError" \/ exn_type e = "TypeError")
      /\ out_events (_extract_content v s)
         = [EvLogError ("Error extracting content: " +:+ exn_text e)]
      \/ exn_type e = "IndexError" /\ out_events (_extract_content v s) = []).
Proof.
  apply (extract_content_failure
           (PDict [("choices", PList [])])
           (started (sample_args "code" false) "code-llama" "" ∅)
           (IndexError "list index out of range")).
  reflexivity.
Defined.


(** ** Opening and removing the resource files *)

(** [_open_resource_file] never changes the state and raises only what
    the opener raised outside [Exception] (a [KeyboardInterrupt], say); an
    [Exception] of the opener is shown as a message instead.  It calls the
    opener at most once, does nothing at all when the name is not a
    regular file, and on a platform other than Windows, Darwin and Linux it
    opens nothing but still logs the file as opened. *)
Theorem open_resource_file_contained (env : Env) (filename : string) (s : State) :
  let o := _open_resource_file env filename s in
  out_res o = match opener_error env s filename with
              | Some e => if is_Exception e then Ok tt else Raise e
              | None => Ok tt
              end
  /\ out_state o = s
  /\ count is_subprocess (out_events o) <= 1
  /\ (forall e, opener_error env s filename = Some e -> is_Exception e = true ->
      In (EvDisplayMarkdown ("Error in opening files: " +:+ exn_text e))
         (out_events o))
  /\ (st_fs s !! filename <> Some File -> out_events o = [])
  /\ (st_fs s !! filename = Some File ->
      platform_system env <> "Windows" -> platform_system env <> "Darwin" ->
      platform_system env <> "Linux" ->
      out_events o = [EvLogInfo (filename +:+ " exists and opened successfully")]).
Proof.
  unfold _open_resource_file, opener_error, opener_argv, try_except_Exception,
    try_except, bind, isfile, subprocess, ask, display_markdown_message, emit,
    ret, raise.
  cbn [out_res out_state out_events app].
  destruct (st_fs s !! filename) as [[|]|] eqn:E;
    cbn [out_res out_state out_events app count is_subprocess].
  2,3: repeat split; auto; discriminate.
  destruct (String.eqb_spec (platform_system env) "Windows") as [Hw|Hw];
    [|destruct (String.eqb_spec (platform_system env) "Darwin") as [Hd|Hd];
      [|destruct (String.eqb_spec (platform_system env) "Linux") as [Hl|Hl]]];
    cbn [out_res out_state out_events app];
    try (destruct (subprocess_call env _) as [x|]);
    cbn [out_res out_state out_events app count is_subprocess];
    try match goal with
        | |- context [is_Exception ?x] => destruct (is_Exception x) eqn:Hx
        end;
    cbn [out_res out_state out_events app count is_subprocess];
    (split; [reflexivity|]); (split; [reflexivity|]); (split; [lia|]);
    (split; [intros e He Hex; try discriminate He; injection He as <-;
             cbn [In]; auto; congruence|]);
    (split; [congruence|]); intros; try reflexivity; congruence.
Qed.

Lemma clean_step env file (k : M unit) s :
  let s' := {| st_self := st_self s; st_fs := clean_fs env file (st_fs s);
               st_cursor := st_cursor s |} in
  let o := bind (try_except_Exception
                   (bind (isfile file) (fun b =>
                      if b then
                        bind (os_remove env file) (fun _ =>
                          emit (EvLogInfo (file +:+ " removed successfully")))
                      else ret tt))
                   (fun e =>
                      emit (EvPrint ("Error in removing " +:+ file +:+ ": "
                                     +:+ exn_text e))))
                (fun _ => k) s in
  out_res o = out_res (k s') /\ out_state o = out_state (k s').
Proof.
  unfold bind, try_except_Exception, try_except, isfile, os_remove, emit, ret,
    clean_fs.
  cbn [out_res out_state out_events app].
  destruct (st_fs s !! file) as [[|]|] eqn:E;
    cbn [out_res out_state out_events app]; rewrite ?E;
    try (destruct (os_remove_error env file));
    cbn [out_res out_state out_events app];
    try change (is_Exception (OSError _)) with true; cbv iota;
    cbn [out_res out_state out_events app]; destruct s; auto.
Qed.

Lemma clean_responses_fs env s :
  let o := _clean_responses env s in
  out_res o = Ok tt
  /\ out_state o
     = {| st_self := st_self s;
          st_fs := clean_fs env "table.md"
                     (clean_fs env "chart.png" (clean_fs env "graph.png" (st_fs s)));
          st_cursor := st_cursor s |}.
Proof.
  unfold _clean_responses, files_to_remove. cbn [for_each].
  destruct (clean_step env "graph.png"
              (bind (try_except_Exception
                   (bind (isfile "chart.png") (fun b =>
                      if b then
                        bind (os_remove env "chart.png") (fun _ =>
                          emit (EvLogInfo ("chart.png" +:+ " removed successfully")))
                      else ret tt))
                   (fun e =>
                      emit (EvPrint ("Error in removing " +:+ "chart.png" +:+ ": "
                                     +:+ exn_text e))))
                (fun _ => bind (try_except_Exception
                   (bind (isfile "table.md") (fun b =>
                      if b then
                        bind (os_remove env "table.md") (fun _ =>
                          emit (EvLogInfo ("table.md" +:+ " removed successfully")))
                      else ret tt))
                   (fun e =>
                      emit (EvPrint ("Error in removing " +:+ "table.md" +:+ ": "
                                     +:+ exn_text e))))
                (fun _ => ret tt))) s) as [R1 S1].
  cbv zeta in R1, S1. cbv zeta. rewrite R1, S1. clear R1 S1.
  match goal with |- context [bind _ _ ?s1] =>
    destruct (clean_step env "chart.png"
                (bind (try_except_Exception
                   (bind (isfile "table.md") (fun b =>
                      if b then
                        bind (os_remove env "table.md") (fun _ =>
                          emit (EvLogInfo ("table.md" +:+ " removed successfully")))
                      else ret tt))
                   (fun e =>
                      emit (EvPrint ("Error in removing " +:+ "table.md" +:+ ": "
                                     +:+ exn_text e))))
                (fun _ => ret tt)) s1) as [R2 S2]
  end.
  cbv zeta in R2, S2. rewrite R2, S2. clear R2 S2.
  match goal with |- context [bind _ _ ?s2] =>
    destruct (clean_step env "table.md" (ret tt) s2) as [R3 S3]
  end.
  cbv zeta in R3, S3. rewrite R3, S3. split; reflexivity.
Qed.

Lemma clean_fs_lookup env f fs g :
  clean_fs env f fs !! g
  = if decide (g = f) then cleaned env f (fs !! f) else fs !! g.
Proof.
  unfold clean_fs, cleaned.
  destruct (fs !! f) as [[|]|] eqn:E; [destruct (os_remove_error env f)|..];
    destruct (decide (g = f)) as [->|Hne]; try reflexivity; try assumption.
  - apply lookup_delete_eq.
  - now apply lookup_delete_ne.
Qed.

Lemma cleaned_twice env f x : cleaned env f (cleaned env f x) = cleaned env f x.
Proof.
  unfold cleaned. destruct x as [[|]|]; try reflexivity.
  destruct (os_remove_error env f) eqn:E; rewrite ?E; reflexivity.
Qed.

Lemma clean_all_lookup env fs g :
  clean_fs env "table.md"
    (clean_fs env "chart.png" (clean_fs env "graph.png" fs)) !! g
  = if bool_decide (g ∈ files_to_remove) then cleaned env g (fs !! g)
    else fs !! g.
Proof.
  rewrite !clean_fs_lookup. unfold files_to_remove.
  case_bool_decide as Hin.
  - apply list_elem_of_In in Hin. simpl in Hin.
    destruct Hin as [<- | [<- | [<- | []]]];
      repeat (case_decide; try discriminate); try congruence; reflexivity.
  - repeat case_decide; subst; try reflexivity;
      exfalso; apply Hin, list_elem_of_In; simpl; auto.
Qed.

(** [_clean_responses] never raises, whatever the system answers, and
    touches neither the object nor the terminal.  In the directory each of
    graph.png, chart.png and table.md that is a regular file is gone
    unless the system refused its removal; a directory of that name and
    every other path are left as they were. *)
Theorem clean_responses_effect (env : Env) (s : State) :
  let o := _clean_responses env s in
  out_res o = Ok tt
  /\ st_self (out_state o) = st_self s
  /\ st_cursor (out_state o) = st_cursor s
  /\ (forall f, In f ["graph.png"; "chart.png"; "table.md"] ->
      st_fs s !! f = Some File -> os_remove_error env f = None ->
      st_fs (out_state o) !! f = None)
  /\ (forall f, ~ In f ["graph.png"; "chart.png"; "table.md"]
                \/ st_fs s !! f <> Some File
                \/ os_remove_error env f <> None ->
      st_fs (out_state o) !! f = st_fs s !! f).
Proof.
  destruct (clean_responses_fs env s) as [Hr Hs]. cbv zeta in Hr, Hs. cbv zeta.
  rewrite Hr, Hs. cbn [st_self st_fs st_cursor]. repeat split.
  - intros f Hin Hf Hrm. rewrite clean_all_lookup.
    rewrite bool_decide_eq_true_2 by (apply list_elem_of_In; exact Hin).
    unfold cleaned. now rewrite Hf, Hrm.
  - intros f H. rewrite clean_all_lookup. case_bool_decide as Hin; [|reflexivity].
    apply list_elem_of_In in Hin. unfold cleaned.
    destruct (st_fs s !! f) as [[|]|] eqn:E; try reflexivity.
    destruct (os_remove_error env f) eqn:E'; [reflexivity|].
    exfalso. destruct H as [H | [H | H]]; auto.
Qed.

(** Cleaning twice in a row leaves the directory as cleaning once does,
    whatever was in it and whatever removals the system refuses. *)
Theorem clean_responses_twice (env : Env) (s : State) :
  let once := _clean_responses env s in
  let twice := bind (_clean_responses env) (fun _ => _clean_responses env) s in
  out_res twice = Ok tt
  /\ st_fs (out_state twice) = st_fs (out_state once)
  /\ st_self (out_state twice) = st_self s.
Proof.
  cbv zeta. unfold bind.
  destruct (clean_responses_fs env s) as [Hr Hs]. cbv zeta in Hr, Hs.
  rewrite Hr. cbn [out_res out_state].
  destruct (clean_responses_fs env (out_state (_clean_responses env s)))
    as [Hr2 Hs2]. cbv zeta in Hr2, Hs2.
  rewrite Hr2, Hs2, Hs. cbn [st_self st_fs st_cursor]. repeat split.
  apply map_eq. intros g. rewrite !clean_all_lookup.
  case_bool_decide; [apply cleaned_twice | reflexivity].
Qed.

(** ** The generation call *)

Lemma prefixed_twice m : prefixed (prefixed m) = prefixed m.
Proof.
  unfold prefixed.
  destruct (negb (Str.str_in "huggingface/" m) && negb (Str.str_in "gpt" m)) eqn:E.
  - change (Str.str_in "huggingface/" ("huggingface/" +:+ m)) with true.
    reflexivity.
  - now rewrite E.
Qed.

(** The settling of the two parameters either gives them or raises a
    [ValueError]; in both cases nothing else has happened. *)
Lemma generate_text_params env t0 n0 (cfg : option (gmap string string)) s :
  let params :=
    match cfg with
    | Some c =>
        if bool_decide (c = ∅) then ret (t0, n0)
        else bind (config_float env c "temperature" t0) (fun t =>
               bind (config_int env c "max_tokens" n0) (fun n => ret (t, n)))
    | None => ret (t0, n0)
    end in
  (exists p, params s = {| out_res := Ok p; out_state := s; out_events := [] |})
  \/ (exists e, params s = {| out_res := Raise e; out_state := s; out_events := [] |}
                /\ exn_type e = "ValueError").
Proof.
  cbv zeta. destruct cfg as [c|]; [|left; eexists; reflexivity].
  destruct (bool_decide (c = ∅)); [left; eexists; reflexivity|].
  unfold bind, config_float, config_int, ret, raise.
  destruct (c !! "temperature") as [v|]; [destruct (py_float env v)|];
    cbn [out_res out_state out_events app];
    try (right; eexists; split; reflexivity);
    (destruct (c !! "max_tokens") as [w|]; [destruct (py_int env w)|];
     cbn [out_res out_state out_events app];
     [left | right | left]; eexists; try split; reflexivity).
Qed.

Lemma extract_content_state v s : out_state (_extract_content v s) = s.
Proof.
  unfold _extract_content, bind, try_except, lift, emit, raise. paths; reflexivity.
Qed.

(** Once the parameters are settled the completion is called, once, and
    the model name is left prefixed. *)
Lemma generate_text_after_params env message hist t0 n0 cfg s p :
  (match cfg with
   | Some c =>
       if bool_decide (c = ∅) then ret (t0, n0)
       else bind (config_float env c "temperature" t0) (fun t =>
              bind (config_int env c "max_tokens" n0) (fun n => ret (t, n)))
   | None => ret (t0, n0)
   end) s = {| out_res := Ok p; out_state := s; out_events := [] |} ->
  count is_completion (out_events (generate_text env message hist t0 n0 cfg s)) = 1
  /\ INTERPRRETER_MODEL
       (st_self (out_state (generate_text env message hist t0 n0 cfg s)))
     = prefixed (INTERPRRETER_MODEL (st_self s)).
Proof.
  intros Hparams.
  split; unfold generate_text;
    set (params := match cfg with Some c => _ | None => _ end) in *;
    unfold bind at 1; rewrite Hparams; cbn [out_res out_state out_events app];
    unfold prefixed;
    unfold bind at 1; unfold get_self at 1;
    cbn [out_res out_state out_events app];
    destruct (negb (Str.str_in "huggingface/" (INTERPRRETER_MODEL (st_self s)))
              && negb (Str.str_in "gpt" (INTERPRRETER_MODEL (st_self s))));
    unfold bind, modify_self, get_self, call_completion, ask, ret;
    cbn [out_res out_state out_events app st_self INTERPRRETER_MODEL with_model];
    (destruct (Str.str_in "gpt-3.5-turbo" _);
     cbn [out_res out_state out_events app];
     (destruct (completion env _ _ _ _ _);
      cbn [out_res out_state out_events app count is_completion];
      rewrite ?extract_content_no_completion, ?extract_content_state;
      reflexivity)).
Qed.

(** [generate_text] puts "huggingface/" in front of the model name at most
    once, however often it is called: a call that reaches the completion
    leaves the name [m] as [prefixed m], a second prefixing changes
    nothing, and a name with "gpt" or "huggingface/" in it is kept.  A
    call that does not reach the completion raises and leaves the state as
    it was. *)
Theorem generate_text_prefixes_once
    (env : Env) (message : string) (hist : list (string * string))
    (t0 : PrimFloat.float) (n0 : Z) (cfg : option (gmap string string))
    (s : State) :
  let o := generate_text env message hist t0 n0 cfg s in
  let m := INTERPRRETER_MODEL (st_self s) in
  (count is_completion (out_events o) = 1
   /\ INTERPRRETER_MODEL (st_self (out_state o)) = prefixed m
   \/ count is_completion (out_events o) = 0
      /\ out_state o = s /\ exists e, out_res o = Raise e)
  /\ prefixed (prefixed m) = prefixed m
  /\ (Str.str_in "gpt" m || Str.str_in "huggingface/" m = true -> prefixed m = m).
Proof.
  cbv zeta. split; [|split; [apply prefixed_twice|]].
  2: { unfold prefixed. intros H. apply orb_true_iff in H as [H | H]; rewrite H;
       [rewrite andb_false_r | rewrite andb_false_l]; reflexivity. }
  destruct (generate_text_params env t0 n0 cfg s) as [[p Hp] | [e [Hp He]]];
    cbv zeta in Hp.
  - left. now apply (generate_text_after_params env message hist t0 n0 cfg s p).
  - right.
    assert (generate_text env message hist t0 n0 cfg s
            = {| out_res := Raise e; out_state := s; out_events := [] |}) as ->.
    { unfold generate_text.
      set (params := match cfg with Some c => _ | None => _ end) in *.
      unfold bind at 1. rewrite Hp. reflexivity. }
    cbn [out_res out_state out_events count].
    split; [reflexivity | split; [reflexivity | eauto]].
Qed.

(** A Config whose temperature or token limit is not a number stops
    [generate_text] with a [ValueError] before anything else happens: the
    completion is not called and the state is as it was. *)
Theorem generate_text_bad_config
    (env : Env) (message : string) (hist : list (string * string))
    (t0 : PrimFloat.float) (n0 : Z) (c : gmap string string) (s : State) :
  config_temperature env c = None \/ config_max_tokens env c = None ->
  exists e,
    exn_type e = "ValueError"
    /\ generate_text env message hist t0 n0 (Some c) s
       = {| out_res := Raise e; out_state := s; out_events := [] |}.
Proof. apply generate_text_stops_on_bad_config. Qed.

Lemma generate_text_bad_config_witness :
  let env := sample_env [] "ls" (Ok (None, None)) in
  let c : gmap string string := <["temperature" := "hot"]> ∅ in
  let s := started (sample_args "code" false) "code-llama" "" c in
  exists e,
    exn_type e = "ValueError"
    /\ generate_text env "list files" [] default_temperature default_max_tokens
                     (Some c) s
       = {| out_res := Raise e; out_state := s; out_events := [] |}.
Proof.
  apply (generate_text_bad_config
           (sample_env [] "ls" (Ok (None, None))) "list files" []
           default_temperature default_max_tokens
           (<["temperature" := "hot"]> ∅)
           (started (sample_args "code" false) "code-llama" ""
                    (<["temperature" := "hot"]> ∅))).
  left. reflexivity.
Defined.

(** ** The confirmation gate *)

(** With auto-execute set [execute_code] asks nothing and reads nothing
    from the terminal; without it the first thing it does is to ask once,
    and a read that raises ends the call there.  Code is run, once, exactly
    when the run is confirmed (auto-execute, or an answer 'y' or 'Y') and a
    mode flag is set.  The object is never changed. *)
Theorem execute_code_gate
    (env : Env) (extracted_code os_name : string) (s : State) :
  let o := execute_code env extracted_code os_name s in
  let self := st_self s in
  let answer := stdin env (st_cursor s) in
  (EXECUTE_CODE self = true ->
     count is_confirm (out_events o) = 0
     /\ st_cursor (out_state o) = st_cursor s)
  /\ (EXECUTE_CODE self = false ->
      match input_error env (st_cursor s) with
      | None =>
          st_cursor (out_state o) = S (st_cursor s)
          /\ exists rest,
               out_events o = EvInput "Execute the code? (Y/N): " answer :: rest
               /\ count is_confirm rest = 0
      | Some e =>
          o = {| out_res := Raise e; out_state := s;
                 out_events := [EvInputRaised "Execute the code? (Y/N): "] |}
      end)
  /\ (count (is_kind Run) (out_events o) = 1
      <-> confirmed env s
          && (SCRIPT_MODE self || COMMAND_MODE self || CODE_MODE self) = true)
  /\ st_self (out_state o) = self.
Proof.
  cbv zeta.
  unfold execute_code, confirmed, bind, try_except_Exception, try_except,
    get_self, ret, raise, input, on_fs, emit.
  simpl.
  destruct (EXECUTE_CODE (st_self s)); simpl;
    [|destruct (input_error env (st_cursor s)) as [e0|]; simpl;
      [|destruct (String.eqb (Str.lower (stdin env (st_cursor s))) "y"); simpl]].
  2,4: repeat split; try discriminate; eauto.
  all: destruct (SCRIPT_MODE (st_self s)); simpl;
    [|destruct (COMMAND_MODE (st_self s)); simpl;
      [|destruct (CODE_MODE (st_self s)); simpl]].
  all: try match goal with
         | |- context [match ?r with Ok _ => _ | Raise _ => _ end] =>
             destruct r as [?|x] eqn:Hr; simpl;
             [|destruct (is_Exception x); simpl]
         end.
  all: repeat split; try discriminate; try reflexivity; eauto.
Qed.

(** ** Events a method never emits *)

Section NeverRules.
Context (P : event -> bool).

Lemma Never_ret {A} (a : A) : Never P (ret a).
Proof. intros s. reflexivity. Qed.

Lemma Never_raise {A} (e : exn) : Never P (@raise A e).
Proof. intros s. reflexivity. Qed.

Lemma Never_lift {A} (r : Res A) : Never P (lift r).
Proof. intros s. reflexivity. Qed.

Lemma Never_get_self : Never P get_self.
Proof. intros s. reflexivity. Qed.

Lemma Never_modify f : Never P (modify_self f).
Proof. intros s. reflexivity. Qed.

Lemma Never_emit e : P e = false -> Never P (emit e).
Proof. intros H s. simpl. now rewrite H. Qed.

Lemma Never_ask {A} e (r : Res A) : P e = false -> Never P (ask e r).
Proof. intros H s. simpl. now rewrite H. Qed.

Lemma Never_on_fs {A} e (call : gmap string node -> Res A * gmap string node) :
  P e = false -> Never P (on_fs e call).
Proof. intros H s. simpl. now rewrite H. Qed.

Lemma Never_input env p :
  (forall a, P (EvInput p a) = false) -> P (EvInputRaised p) = false ->
  Never P (input env p).
Proof.
  intros H H' s. unfold input. destruct (input_error env (st_cursor s)); simpl.
  - now rewrite H'.
  - now rewrite H.
Qed.

Lemma Never_isfile f : Never P (isfile f).
Proof. intros s. reflexivity. Qed.

Lemma Never_os_remove env f : Never P (os_remove env f).
Proof.
  intros s. unfold os_remove.
  destruct (st_fs s !! f) as [[|]|]; [destruct (os_remove_error env f)|..];
    reflexivity.
Qed.

Lemma Never_bind {A B} (m : M A) (f : A -> M B) :
  Never P m -> (forall a, Never P (f a)) -> Never P (bind m f).
Proof.
  apply EvP_bind; [|reflexivity]. intros x y Hx Hy. rewrite count_app. lia.
Qed.

Lemma Never_try {A} (m : M A) (h : exn -> M A) :
  Never P m -> (forall e, Never P (h e)) -> Never P (try_except m h).
Proof.
  apply EvP_try; [|reflexivity]. intros x y Hx Hy. rewrite count_app. lia.
Qed.

Lemma Never_try_Exception {A} (m : M A) (h : exn -> M A) :
  Never P m -> (forall e, Never P (h e)) -> Never P (try_except_Exception m h).
Proof.
  apply EvP_try_Exception; [|reflexivity]. intros x y Hx Hy. rewrite count_app. lia.
Qed.

Lemma Never_for_each {A} (xs : list A) (body : A -> M unit) :
  (forall x, Never P (body x)) -> Never P (for_each xs body).
Proof.
  intros H. induction xs as [|x xs IH]; simpl.
  - apply Never_ret.
  - apply Never_bind; [apply H | intros _; exact IH].
Qed.
End NeverRules.

Ltac never_step :=
  first
    [ apply Never_ret | apply Never_raise | apply Never_lift | apply Never_get_self
    | apply Never_modify | apply Never_isfile | apply Never_os_remove
    | apply Never_input; [intros ?; reflexivity | reflexivity]
    | apply Never_emit; reflexivity
    | apply Never_ask; reflexivity
    | apply Never_on_fs; reflexivity
    | apply Never_for_each; intros ?
    | apply Never_bind; [|intros ?]
    | apply Never_try; [|intros ?]
    | apply Never_try_Exception; [|intros ?]
    | match goal with
      | |- Never _ (if ?b then _ else _) => destruct b
      | |- Never _ (match ?x with _ => _ end) => destruct x
      end ].

Ltac never := repeat never_step.

(** The methods a turn is made of ask for no task and persist nothing. *)
Section NeverInTurn.
Context (env : Env) (P : event -> bool).
Hypothesis P_is : P = is_task \/ P = is_persist.

Lemma Never_clean_responses : Never P (_clean_responses env).
Proof. destruct P_is as [-> | ->]; unfold _clean_responses; never. Qed.

Lemma Never_open_resources : Never P (open_resources env).
Proof.
  destruct P_is as [-> | ->];
    unfold open_resources, _open_resource_file, subprocess,
      display_markdown_message; never.
Qed.

Lemma Never_generate_text msg hist t n cfg :
  Never P (generate_text env msg hist t n cfg).
Proof.
  destruct P_is as [-> | ->];
    unfold generate_text, config_float, config_int, call_completion,
      _extract_content; never.
Qed.

Lemma Never_handle_mode task os : Never P (handle_mode task os).
Proof.
  destruct P_is as [-> | ->];
    unfold handle_mode, handle_code_mode, handle_script_mode,
      handle_command_mode; never.
Qed.

Lemma Never_run_extracted time code os :
  Never P (run_extracted env time code os).
Proof.
  destruct P_is as [-> | ->];
    unfold run_extracted, save_generated, execute_code, show_result,
      install_on_error, display_code, display_markdown_message;
    repeat first [apply Never_open_resources; auto | never_step].
Qed.
End NeverInTurn.


(** ** The loop *)

Lemma Never_turn env task os cm ss es skip time :
  Never is_task (turn env task os cm ss es skip time).
Proof.
  unfold turn, display_code.
  repeat first
    [ apply Never_handle_mode; left; reflexivity
    | apply Never_clean_responses; left; reflexivity
    | apply Never_generate_text; left; reflexivity
    | apply Never_run_extracted; left; reflexivity
    | never_step ].
Qed.

(** One round of the loop on a line that says to stop. *)
Lemma main_loop_exit env fuel os cm ss es skip time s :
  input_error env (st_cursor s) = None ->
  Str.mem (Str.lower (stdin env (st_cursor s))) ["exit"; "quit"] = true ->
  main_loop env (S fuel) os cm ss es skip time s
  = {| out_res := Ok Finished;
       out_state := after_input s;
       out_events := [EvInput "> " (stdin env (st_cursor s))] |}.
Proof.
  intros Hin H. cbn [main_loop].
  unfold bind, try_except_Exception, try_except, input, ret. rewrite Hin.
  cbn [out_res out_state out_events app]. rewrite H.
  cbn [out_res out_state out_events app]. reflexivity.
Qed.

(** What the handler of the loop adds for the exception [e]. *)
Lemma main_loop_input_raises env fuel os cm ss es skip time s e :
  input_error env (st_cursor s) = Some e ->
  main_loop env (S fuel) os cm ss es skip time s
  = {| out_res := Raise e;
       out_state := s;
       out_events := EvInputRaised "> "
                     :: if is_Exception e
                        then [EvTraceback;
                              EvLogError ("Error occurred: " +:+ exn_text e)]
                        else [] |}.
Proof.
  intros Hin. cbn [main_loop].
  unfold bind, try_except_Exception, try_except, input, ret, emit, raise.
  rewrite Hin. cbn [out_res out_state out_events app].
  destruct (is_Exception e); reflexivity.
Qed.

(** When the first line is read and says "exit" or "quit", in any letter
    case, [interpreter_main] finishes at once: after the banner it has only read
    that line; nothing is generated, run, removed or persisted and the
    object is as it was. *)
Theorem exit_ends_the_session (env : Env) (fuel : nat) (s : State) :
  input_error env (st_cursor s) = None ->
  Str.mem (Str.lower (stdin env (st_cursor s))) ["exit"; "quit"] = true ->
  let o := interpreter_main env (S fuel) s in
  out_res o = Ok Finished
  /\ out_state o = after_input s
  /\ exists banner,
       out_events o = [EvPrint "Code Interpreter - v1.3"; EvDisplayCode banner;
                       EvInput "> " (stdin env (st_cursor s))].
Proof.
  intros Hin H. cbv zeta.
  unfold interpreter_main, display_code, bind, emit, get_self.
  cbn [out_res out_state out_events app].
  rewrite main_loop_exit by assumption.
  cbn [out_res out_state out_events app]. repeat split. eexists. reflexivity.
Qed.

Lemma exit_ends_the_session_witness :
  let env := sample_env ["QuIt"] "ls" (Ok (None, None)) in
  let s := started (sample_args "code" false) "code-llama" "" ∅ in
  let o := interpreter_main env 1 s in
  out_res o = Ok Finished
  /\ out_state o = after_input s
  /\ exists banner,
       out_events o = [EvPrint "Code Interpreter - v1.3"; EvDisplayCode banner;
                       EvInput "> " (stdin env (st_cursor s))].
Proof.
  apply (exit_ends_the_session
           (sample_env ["QuIt"] "ls" (Ok (None, None))) 0
           (started (sample_args "code" false) "code-llama" "" ∅));
    reflexivity.
Defined.

(** When the read at the prompt raises, the session ends with that
    exception and nothing else has happened after the banner: an
    [Exception] (the [EOFError] of an input that has ended) gets the
    traceback and the log line of the loop, a [KeyboardInterrupt] gets
    neither. *)
Theorem failing_read_ends_the_session
    (env : Env) (fuel : nat) (s : State) (e : exn) :
  input_error env (st_cursor s) = Some e ->
  let o := interpreter_main env (S fuel) s in
  out_res o = Raise e
  /\ out_state o = s
  /\ exists banner,
       out_events o
       = [EvPrint "Code Interpreter - v1.3"; EvDisplayCode banner;
          EvInputRaised "> "]
         ++ if is_Exception e
            then [EvTraceback; EvLogError ("Error occurred: " +:+ exn_text e)]
            else [].
Proof.
  intros Hin. cbv zeta.
  unfold interpreter_main, display_code, bind, emit, get_self.
  cbn [out_res out_state out_events app].
  rewrite (main_loop_input_raises _ _ _ _ _ _ _ _ _ e) by exact Hin.
  cbn [out_res out_state out_events app]. repeat split. eexists. reflexivity.
Qed.

Lemma failing_read_ends_the_session_witness :
  let env := at_end_of_input (sample_env [] "ls" (Ok (None, None))) in
  let s := started (sample_args "code" false) "code-llama" "" ∅ in
  let e := {| exn_type := "EOFError"; exn_text := "EOF when reading a line" |} in
  let o := interpreter_main env 3 s in
  out_res o = Raise e
  /\ out_state o = s
  /\ exists banner,
       out_events o
       = [EvPrint "Code Interpreter - v1.3"; EvDisplayCode banner;
          EvInputRaised "> "]
         ++ if is_Exception e
            then [EvTraceback; EvLogError ("Error occurred: " +:+ exn_text e)]
            else [].
Proof.
  apply (failing_read_ends_the_session
           (at_end_of_input (sample_env [] "ls" (Ok (None, None)))) 2
           (started (sample_args "code" false) "code-llama" "" ∅)
           {| exn_type := "EOFError"; exn_text := "EOF when reading a line" |}).
  reflexivity.
Defined.

(** One round of the loop on a line that is a task. *)
Lemma main_loop_task env fuel os cm ss es skip time s :
  let task := stdin env (st_cursor s) in
  let t := turn env task os cm ss es skip time (after_input s) in
  input_error env (st_cursor s) = None ->
  Str.mem (Str.lower task) ["exit"; "quit"] = false ->
  main_loop env (S fuel) os cm ss es skip time s
  = match out_res t with
    | Ok _ =>
        let o := main_loop env fuel os cm ss es skip time (out_state t) in
        {| out_res := out_res o; out_state := out_state o;
           out_events := (EvInput "> " task :: out_events t) ++ out_events o |}
    | Raise e =>
        {| out_res := Raise e; out_state := out_state t;
           out_events := EvInput "> " task :: out_events t
                         ++ if is_Exception e
                            then [EvTraceback;
                                  EvLogError ("Error occurred: " +:+ exn_text e)]
                            else [] |}
    end.
Proof.
  cbv zeta. intros Hin Hm. cbn [main_loop].
  unfold bind, try_except_Exception, try_except, input, ret, emit, raise.
  rewrite Hin. cbn [out_res out_state out_events app]. rewrite Hm.
  change {| st_self := st_self s; st_fs := st_fs s; st_cursor := S (st_cursor s) |}
    with (after_input s).
  destruct (out_res (turn env (stdin env (st_cursor s)) os cm ss es skip time
                          (after_input s))) as [[]|e] eqn:Ht;
    cbn [out_res out_state out_events app];
    try destruct (is_Exception e);
    cbn [out_res out_state out_events app];
    rewrite ?app_nil_r, <- ?app_assoc; reflexivity.
Qed.

(** A turn that raises ends the session, whatever fuel is left: the same
    exception leaves the loop and no further line is read.  For an
    [Exception] the loop first prints the traceback and logs the error;
    anything else ([KeyboardInterrupt], [SystemExit]) passes the handler
    by, with no traceback and no log line. *)
Theorem failing_turn_ends_the_loop
    (env : Env) (fuel : nat) (os_name command_mode start_sep end_sep : string)
    (skip_first_line : bool) (current_time : string) (s : State) (e : exn) :
  let task := stdin env (st_cursor s) in
  let t := turn env task os_name command_mode start_sep end_sep
                skip_first_line current_time (after_input s) in
  input_error env (st_cursor s) = None ->
  Str.mem (Str.lower task) ["exit"; "quit"] = false ->
  out_res t = Raise e ->
  main_loop env (S fuel) os_name command_mode start_sep end_sep
            skip_first_line current_time s
  = {| out_res := Raise e;
       out_state := out_state t;
       out_events := EvInput "> " task :: out_events t
                     ++ if is_Exception e
                        then [EvTraceback;
                              EvLogError ("Error occurred: " +:+ exn_text e)]
                        else [] |}.
Proof.
  cbv zeta. intros Hin Hm Ht. rewrite main_loop_task by assumption. cbv zeta.
  rewrite Ht. reflexivity.
Qed.

Lemma failing_turn_ends_the_loop_witness :
  let env := offline_env ["list files"; "again"] in
  let s := started (sample_args "code" false) "code-llama" "" ∅ in
  let e := {| exn_type := "APIConnectionError"; exn_text := "Connection error." |} in
  let t := turn env "list files" "Linux" "Code" "```" "```" false "12:00:00"
                (after_input s) in
  main_loop env 5 "Linux" "Code" "```" "```" false "12:00:00" s
  = {| out_res := Raise e;
       out_state := out_state t;
       out_events := EvInput "> " "list files" :: out_events t
                     ++ [EvTraceback;
                         EvLogError ("Error occurred: " +:+ exn_text e)] |}.
Proof.
  apply (failing_turn_ends_the_loop
           (offline_env ["list files"; "again"]) 4
           "Linux" "Code" "```" "```" false "12:00:00"
           (started (sample_args "code" false) "code-llama" "" ∅)
           {| exn_type := "APIConnectionError"; exn_text := "Connection error." |});
    reflexivity.
Defined.

Lemma turn_keeps_code_mode env task os cm ss es skip time s :
  CODE_MODE (st_self (out_state (turn env task os cm ss es skip time s)))
  = CODE_MODE (st_self s).
Proof.
  assert (mode_flags (st_self (out_state (turn env task os cm ss es skip time s)))
          = mode_flags (st_self s)) as H.
  { apply (stable_turn env (fun i => mode_flags i = mode_flags (st_self s))); auto.
    apply handle_mode_keeps_flags. }
  unfold mode_flags in H. congruence.
Qed.

Lemma is_task_input a :
  is_task (EvInput "> " a) = negb (Str.mem (Str.lower a) ["exit"; "quit"]).
Proof. reflexivity. Qed.

(** In Code mode the History only grows at its end, by one entry for
    each task typed at the prompt, whether the turn completes or raises
    and however the loop ends. *)
Theorem code_mode_history_counts_tasks
    (env : Env) (fuel : nat) (os_name command_mode start_sep end_sep : string)
    (skip_first_line : bool) (current_time : string) (s : State) :
  CODE_MODE (st_self s) = true ->
  let o := main_loop env fuel os_name command_mode start_sep end_sep
                     skip_first_line current_time s in
  exists added,
    history (st_self (out_state o)) = history (st_self s) ++ added
    /\ length added = count is_task (out_events o).
Proof.
  cbv zeta. revert s. induction fuel as [|fuel IH]; intros s Hc.
  - exists []. split; [now rewrite app_nil_r | reflexivity].
  - destruct (input_error env (st_cursor s)) as [e0|] eqn:Hin.
    { rewrite (main_loop_input_raises _ _ _ _ _ _ _ _ _ e0) by exact Hin. exists [].
      cbn [out_state out_events].
      split; [now rewrite app_nil_r|]. destruct (is_Exception e0); reflexivity. }
    destruct (Str.mem (Str.lower (stdin env (st_cursor s))) ["exit"; "quit"]) eqn:Hm.
    + rewrite main_loop_exit by assumption. exists [].
      cbn [out_state out_events after_input st_self count].
      rewrite is_task_input, Hm. split; [now rewrite app_nil_r | reflexivity].
    + rewrite main_loop_task by assumption. cbv zeta.
      pose proof (turn_appends_in_code_mode env (stdin env (st_cursor s))
                    os_name command_mode start_sep end_sep skip_first_line
                    current_time (after_input s) Hc) as Hh.
      pose proof (Never_turn env (stdin env (st_cursor s))
                    os_name command_mode start_sep end_sep skip_first_line
                    current_time (after_input s)) as Hn.
      pose proof (turn_keeps_code_mode env (stdin env (st_cursor s))
                    os_name command_mode start_sep end_sep skip_first_line
                    current_time (after_input s)) as Hk.
      cbn [after_input st_self] in Hh, Hk.
      set (t := turn env (stdin env (st_cursor s)) os_name command_mode start_sep
                     end_sep skip_first_line current_time (after_input s)) in *.
      destruct (out_res t) as [[]|e].
      * destruct (IH (out_state t)) as [added [Ha Hl]]; [congruence|].
        cbn [out_state out_events].
        eexists (_ :: added). rewrite Ha, Hh, <- app_assoc.
        split; [reflexivity|].
        rewrite count_app, count_cons, is_task_input, Hm, Hn. simpl. lia.
      * cbn [out_state out_events]. eexists [_]. rewrite Hh.
        split; [reflexivity|].
        rewrite count_cons, count_app, is_task_input, Hm, Hn.
        destruct (is_Exception e); reflexivity.
Qed.

Lemma code_mode_history_counts_tasks_witness :
  let env := sample_env ["plot sine"; "list files"] "ls" (Ok (Some "a.txt", None)) in
  let s := started (sample_args "code" false) "code-llama" "" ∅ in
  let o := main_loop env 5 "Linux" "Code" "```" "```" false "12:00:00" s in
  exists added,
    history (st_self (out_state o)) = history (st_self s) ++ added
    /\ length added = count is_task (out_events o).
Proof.
  apply (code_mode_history_counts_tasks
           (sample_env ["plot sine"; "list files"] "ls" (Ok (Some "a.txt", None)))
           5 "Linux" "Code" "```" "```" false "12:00:00"
           (started (sample_args "code" false) "code-llama" "" ∅)).
  reflexivity.
Defined.


(** ** Persisting a turn *)

Lemma persists_last_bind {A B} (m : M A) (k : A -> M B) s :
  Never is_persist m ->
  (forall a s', persists_last (k a s')) ->
  persists_last (bind m k s).
Proof.
  intros Hm Hk. unfold persists_last. rewrite events_bind.
  specialize (Hm s). cbv beta in Hm.
  unfold bind. destruct (out_res (m s)) as [a|e] eqn:E;
    cbn [out_res out_state out_events]; rewrite count_app, Hm.
  - destruct (Hk a (out_state (m s))) as (H1 & H2 & H3). repeat split.
    + simpl. exact H1.
    + intros Hok. simpl. apply H2, Hok.
    + simpl. intros Hc. destruct (H3 Hc) as (before & x & -> & Hx).
      exists (out_events (m s) ++ before), x. now rewrite app_assoc.
  - simpl. repeat split; try lia. intros [a Ha]. discriminate.
Qed.

(** A turn persists itself at most once; a turn that completes has done
    so exactly once; and when it persists, that is the last thing it
    does. *)
Theorem turn_persists_last
    (env : Env) (task os_name command_mode start_sep end_sep : string)
    (skip_first_line : bool) (current_time : string) (s : State) :
  let o := turn env task os_name command_mode start_sep end_sep
                skip_first_line current_time s in
  count is_persist (out_events o) <= 1
  /\ (out_res o = Ok tt -> count is_persist (out_events o) = 1)
  /\ (count is_persist (out_events o) = 1 ->
      exists before e, out_events o = before ++ [e] /\ is_persist e = true).
Proof.
  cbv zeta.
  assert (persists_last (turn env task os_name command_mode start_sep end_sep
                              skip_first_line current_time s)) as (H1 & H2 & H3).
  { revert s. unfold turn, display_code.
    intros s. apply persists_last_bind; [apply Never_handle_mode; auto|].
    intros handled s1. apply persists_last_bind; [apply Never_clean_responses; auto|].
    intros _ s2. apply persists_last_bind; [never|].
    intros prompt s3. apply persists_last_bind; [never|].
    intros self s4. apply persists_last_bind; [apply Never_generate_text; auto|].
    intros generated s5. apply persists_last_bind; [never|].
    intros code s6. apply persists_last_bind; [never|].
    intros self' s7. apply persists_last_bind; [never|].
    intros _ s8. apply persists_last_bind.
    { destruct (Str.nonempty code); [apply Never_run_extracted; auto | never]. }
    intros _ s9. apply persists_last_bind; [never|].
    intros self'' s10. unfold persists_last, on_fs.
    cbn [out_res out_state out_events count is_persist]. repeat split; try lia.
    intros _. eexists [], _. split; reflexivity. }
  repeat split; auto. intros Hok. apply H2. eauto.
Qed.


(** ** Script mode and the save flag *)

Lemma saves_nothing_bind I {A B} (m : M A) (k : A -> M B) :
  saves_nothing_from I m -> stable I m ->
  (forall a, saves_nothing_from I (k a)) ->
  saves_nothing_from I (bind m k).
Proof.
  intros Hm Hs Hk s HI. rewrite events_bind, count_app, (Hm s HI).
  destruct (out_res (m s)); [|reflexivity]. apply Hk, Hs, HI.
Qed.

Lemma saves_nothing_of_Free I {A} (m : M A) :
  Free Save m -> saves_nothing_from I m.
Proof. intros H s _. apply H. Qed.

Lemma run_extracted_saves_nothing env time code os L :
  L <> "python" -> L <> "javascript" ->
  saves_nothing_from (fun i => INTERPRETER_LANGUAGE i = L)
                     (run_extracted env time code os).
Proof.
  intros Hp Hj s HL. rewrite run_extracted_events.
  pose proof (after_save_no_save env code os tt) as Hfree.
  unfold save_generated.
  rewrite get_self_bind_events, get_self_bind_res, get_self_bind_state.
  rewrite HL.
  destruct (String.eqb_spec L "javascript"); [contradiction|].
  destruct (String.eqb_spec L "python"); [contradiction|].
  unfold ret at 1 2 3. cbn [andb out_res out_state out_events app]. apply Hfree.
Qed.

Lemma language_map_get_known os :
  Str.mem os ["macos"; "linux"; "windows"] = true ->
  language_map_get os <> "python" /\ language_map_get os <> "javascript"
  /\ In (language_map_get os) ["applescript"; "bash"; "powershell"].
Proof.
  unfold Str.mem, language_map_get. cbn [existsb].
  destruct (String.eqb_spec os "macos") as [->|];
    [|destruct (String.eqb_spec os "linux") as [->|];
      [|destruct (String.eqb_spec os "windows") as [->|]]];
    cbn; try discriminate; intros _; repeat split; try discriminate; auto.
Qed.

(** In Script mode the language is taken from the operating system,
    whatever language was asked for, and stays so to the end of the turn.
    On macOS, Linux and Windows (in any letter case) it is applescript,
    bash or powershell, and the turn then never saves the generated
    script, save flag or not. *)
Theorem script_mode_never_saves
    (env : Env) (task os_name command_mode start_sep end_sep : string)
    (skip_first_line : bool) (current_time : string) (s : State) :
  CODE_MODE (st_self s) = false ->
  SCRIPT_MODE (st_self s) = true ->
  let o := turn env task os_name command_mode start_sep end_sep
                skip_first_line current_time s in
  INTERPRETER_LANGUAGE (st_self (out_state o))
  = language_map_get (Str.lower os_name)
  /\ (Str.mem (Str.lower os_name) ["macos"; "linux"; "windows"] = true ->
      In (language_map_get (Str.lower os_name)) ["applescript"; "bash"; "powershell"]
      /\ count (is_kind Save) (out_events o) = 0).
Proof.
  intros Hc Hs. cbv zeta.
  set (L := language_map_get (Str.lower os_name)).
  assert (out_res (handle_mode task os_name s) <> Raise (AttributeError "")
          /\ INTERPRETER_LANGUAGE (st_self (out_state (handle_mode task os_name s))) = L)
    as [_ HL].
  { unfold handle_mode, handle_script_mode, bind, get_self, modify_self, ret.
    cbn [out_res out_state out_events app st_self]. rewrite Hc, Hs.
    cbn [out_res out_state out_events app st_self INTERPRETER_LANGUAGE with_language].
    split; [discriminate | reflexivity]. }
  split.
  - apply (stable_turn_after env (fun i => INTERPRETER_LANGUAGE i = L)); auto.
  - intros Hknown. destruct (language_map_get_known _ Hknown) as (Hp & Hj & Hin).
    split; [exact Hin|]. fold L in Hp, Hj.
    unfold turn, display_code. rewrite events_bind, count_app.
    rewrite (Free_handle_mode Save task os_name s). cbn [Nat.add].
    destruct (out_res (handle_mode task os_name s)) as [handled|]; [|reflexivity].
    cbv beta.
    match goal with
    | |- count _ (out_events (?k ?st)) = 0 =>
        cut (saves_nothing_from (fun i => INTERPRETER_LANGUAGE i = L) k);
        [intros Hk; apply Hk; exact HL|]
    end.
    repeat first
      [ apply run_extracted_saves_nothing; assumption
      | apply saves_nothing_of_Free;
        first [ apply Free_clean_responses | apply Free_generate_text | solve [free] ]
      | apply saves_nothing_bind; [| | intros ?]
      | apply stable_clean_responses
      | apply stable_generate_text; auto
      | match goal with
        | |- saves_nothing_from _ (if ?b then _ else _) => destruct b
        | |- stable _ (if ?b then _ else _) => destruct b
        | |- stable _ (match ?x with _ => _ end) => destruct x
        end
      | apply stable_run_extracted
      | stable_step ].
Qed.

Lemma script_mode_never_saves_witness :
  let env := sample_env ["list files"] "ls" (Ok (Some "a.txt", None)) in
  let s := started (sample_args "script" true) "code-llama" "" ∅ in
  let o := turn env "list files" "LINUX" "Script" "```" "```" false "12:00:00" s in
  INTERPRETER_LANGUAGE (st_self (out_state o))
  = language_map_get (Str.lower "LINUX")
  /\ (Str.mem (Str.lower "LINUX") ["macos"; "linux"; "windows"] = true ->
      In (language_map_get (Str.lower "LINUX")) ["applescript"; "bash"; "powershell"]
      /\ count (is_kind Save) (out_events o) = 0).
Proof.
  apply (script_mode_never_saves
           (sample_env ["list files"] "ls" (Ok (Some "a.txt", None)))
           "list files" "LINUX" "Script" "```" "```" false "12:00:00"
           (started (sample_args "script" true) "code-llama" "" ∅));
    reflexivity.
Defined.

(** ** What is sent to the model *)

Lemma occurs_app_r sub a b : occurs sub a -> occurs sub (a +:+ b).
Proof.
  intros [pre [post ->]]. exists pre, (post +:+ b).
  now rewrite !StrFacts.append_assoc.
Qed.

Lemma occurs_app_l sub a b : occurs sub b -> occurs sub (a +:+ b).
Proof.
  intros [pre [post ->]]. exists (a +:+ pre), post.
  now rewrite !StrFacts.append_assoc.
Qed.

Lemma occurs_here sub b : occurs sub (sub +:+ b).
Proof. now exists EmptyString, b. Qed.

Lemma occurs_cons sub c b : occurs sub b -> occurs sub (String c b).
Proof. intros [pre [post ->]]. now exists (String c pre), post. Qed.

Lemma add_directive_extends hit language py js prompt sub :
  occurs sub prompt -> occurs sub (add_directive hit language py js prompt).
Proof.
  intros H. unfold add_directive.
  destruct hit; [|exact H].
  destruct (String.eqb language "python"); [now apply occurs_app_r|].
  destruct (String.eqb language "javascript"); [now apply occurs_app_r | exact H].
Qed.

(** The directives are only added: what occurs in the prompt occurs in
    the augmented prompt, for every language. *)
Lemma augment_extends language prompt sub :
  occurs sub prompt -> occurs sub (augment language prompt).
Proof.
  intros H. unfold augment, add_table, add_chart, add_graph.
  now repeat apply add_directive_extends.
Qed.

Lemma handle_mode_embeds task os s p :
  out_res (handle_mode task os s) = Ok (Some p) ->
  occurs task p /\ occurs os p.
Proof.
  unfold handle_mode, handle_code_mode, handle_script_mode, handle_command_mode,
    bind, get_self, modify_self, ret.
  cbn [out_res out_state out_events app].
  destruct (CODE_MODE (st_self s));
    [|destruct (SCRIPT_MODE (st_self s));
      [|destruct (COMMAND_MODE (st_self s))]];
    cbn [out_res out_state out_events app]; intros H; [..|discriminate];
    injection H as <-; split;
    repeat first [ apply occurs_here | apply occurs_app_l | apply occurs_cons ].
Qed.

Lemma count_zero_In P evs e : count P evs = 0 -> In e evs -> P e = false.
Proof.
  induction evs as [|x evs IH]; [intros _ []|].
  rewrite count_cons. intros H [-> | Hin].
  - destruct (P e); [discriminate | reflexivity].
  - apply IH; [destruct (P x); [discriminate | exact H] | exact Hin].
Qed.

Lemma Forall_of_never (Q : event -> Prop) evs :
  count is_completion evs = 0 ->
  (forall e, is_completion e = false -> Q e) ->
  Forall Q evs.
Proof.
  intros H HQ. apply Forall_forall. intros e Hin%list_elem_of_In.
  apply HQ, (count_zero_In _ evs); assumption.
Qed.

Lemma request_embeds_other task os e :
  is_completion e = false -> request_embeds task os e.
Proof. destruct e; try discriminate; intros _; exact I. Qed.

Lemma Forall_request_of_never task os {A} (m : M A) :
  Never is_completion m -> EvP (Forall (request_embeds task os)) m.
Proof.
  intros H s. apply Forall_of_never; [apply H | apply request_embeds_other].
Qed.

Lemma Forall_request_bind task os {A B} (m : M A) (k : A -> M B) :
  EvP (Forall (request_embeds task os)) m ->
  (forall a, EvP (Forall (request_embeds task os)) (k a)) ->
  EvP (Forall (request_embeds task os)) (bind m k).
Proof.
  apply EvP_bind; [|constructor]. intros x y Hx Hy. apply Forall_app. now split.
Qed.

Lemma generate_text_request env task os message hist t0 n0 cfg :
  occurs task message -> occurs os message ->
  EvP (Forall (request_embeds task os))
      (generate_text env message hist t0 n0 cfg).
Proof.
  intros Ht Ho s.
  destruct (generate_text_params env t0 n0 cfg s) as [[p Hp] | [e [Hp He]]];
    cbv zeta in Hp; unfold generate_text;
    set (params := match cfg with Some c => _ | None => _ end) in *;
    unfold bind at 1; rewrite Hp; cbn [out_res out_state out_events app].
  2: constructor.
  unfold bind at 1; unfold get_self at 1;
    cbn [out_res out_state out_events app];
    destruct (negb (Str.str_in "huggingface/" (INTERPRRETER_MODEL (st_self s)))
              && negb (Str.str_in "gpt" (INTERPRRETER_MODEL (st_self s))));
    unfold bind, modify_self, get_self, call_completion, ask, ret;
    cbn [out_res out_state out_events app st_self INTERPRRETER_MODEL with_model];
    (destruct (Str.str_in "gpt-3.5-turbo" _);
     cbn [out_res out_state out_events app];
     (destruct (completion env _ _ _ _ _);
      cbn [out_res out_state out_events app];
      constructor;
      try (unfold get_prompt; eexists _, message; split; [reflexivity | now split]);
      try constructor;
      try (apply Forall_of_never;
           [apply extract_content_no_completion | apply request_embeds_other]))).
Qed.

Lemma EvP_ret_bind (Q : list event -> Prop) {A B} (a : A) (k : A -> M B) :
  EvP Q (k a) -> EvP Q (bind (ret a) k).
Proof. intros H s. exact (H s). Qed.

Lemma Never_completion_clean env : Never is_completion (_clean_responses env).
Proof. unfold _clean_responses. never. Qed.

Lemma Never_completion_handle_mode task os :
  Never is_completion (handle_mode task os).
Proof.
  unfold handle_mode, handle_code_mode, handle_script_mode, handle_command_mode.
  never.
Qed.

Lemma Never_completion_run_extracted env time code os :
  Never is_completion (run_extracted env time code os).
Proof.
  unfold run_extracted, save_generated, execute_code, show_result,
    install_on_error, open_resources, _open_resource_file, subprocess,
    display_code, display_markdown_message.
  never.
Qed.

(** Every request a turn sends to the model carries three messages: the
    system message, the fixed instruction of the assistant, and a user
    message in which the task and the name of the operating system occur
    as typed, in every mode and for every language, with or without
    keyword directives. *)
Theorem turn_request_embeds_task
    (env : Env) (task os_name command_mode start_sep end_sep : string)
    (skip_first_line : bool) (current_time : string) (s : State) :
  Forall (request_embeds task os_name)
         (out_events (turn env task os_name command_mode start_sep end_sep
                           skip_first_line current_time s)).
Proof.
  unfold turn, display_code. rewrite events_bind. apply Forall_app. split.
  { apply (Forall_request_of_never task os_name), Never_completion_handle_mode. }
  destruct (out_res (handle_mode task os_name s)) as [handled|] eqn:Hh;
    [|constructor].
  revert Hh. generalize (out_state (handle_mode task os_name s)). intros s1 Hh.
  cbv beta.
  match goal with
  | |- Forall _ (out_events (?k ?st)) =>
      cut (EvP (Forall (request_embeds task os_name)) k); [intros Hk; apply Hk|]
  end.
  apply Forall_request_bind;
    [apply Forall_request_of_never, Never_completion_clean | intros _].
  destruct handled as [p|].
  2: { intros s2. unfold bind at 1. unfold raise at 1.
       cbn [out_res out_state out_events]. constructor. }
  destruct (handle_mode_embeds task os_name s p Hh) as [Ht Ho].
  apply EvP_ret_bind.
  apply Forall_request_bind; [apply Forall_request_of_never; never | intros self].
  apply Forall_request_bind.
  { apply generate_text_request; apply augment_extends; assumption. }
  intros generated.
  apply Forall_request_bind; [apply Forall_request_of_never; never | intros code].
  apply Forall_request_bind; [apply Forall_request_of_never; never | intros self'].
  apply Forall_request_bind; [apply Forall_request_of_never; never | intros _].
  apply Forall_request_bind.
  { apply Forall_request_of_never.
    destruct (Str.nonempty code); [apply Never_completion_run_extracted | never]. }
  intros _. apply Forall_request_of_never. never.
Qed.

(** ** The keyword directives of a turn *)

Lemma augment_closed language p :
  augment language p
  = if String.eqb language "python" then
      p +:+ opt (Str.str_in "graph" (Str.lower p)) graph_python
        +:+ opt (Str.str_in "graph" (Str.lower p) || Str.str_in "chart" (Str.lower p)
                 || Str.str_in "plot" (Str.lower p)) chart_python
        +:+ opt (Str.str_in "table" (Str.lower p)) table_python
    else if String.eqb language "javascript" then
      p +:+ opt (Str.str_in "graph" (Str.lower p)) graph_javascript
        +:+ opt (Str.str_in "graph" (Str.lower p) || Str.str_in "chart" (Str.lower p)
                 || Str.str_in "plot" (Str.lower p)) chart_javascript
        +:+ opt (Str.str_in "table" (Str.lower p)) table_javascript
    else p.
Proof.
  destruct (String.eqb_spec language "python") as [->|Hp];
    [apply augment_python|].
  destruct (String.eqb_spec language "javascript") as [->|Hj];
    [apply augment_javascript|].
  apply augment_other; now apply String.eqb_neq.
Qed.

Lemma ret_bind_events {A B} (a : A) (k : A -> M B) s :
  out_events (bind (ret a) k s) = out_events (k a s).
Proof. reflexivity. Qed.

Lemma count_bind P {A B} (m : M A) (k : A -> M B) s :
  count P (out_events (bind m k s))
  = count P (out_events (m s))
    + match out_res (m s) with
      | Ok a => count P (out_events (k a (out_state (m s))))
      | Raise _ => 0
      end.
Proof. rewrite events_bind, count_app. now destruct (out_res (m s)). Qed.

Lemma carries_other sent e :
  is_completion e = false -> is_persist e = false -> carries sent e.
Proof. destruct e; try discriminate; intros _ _; exact I. Qed.

Lemma Forall_carries_of_never sent {A} (m : M A) :
  Never is_completion m -> Never is_persist m -> EvP (Forall (carries sent)) m.
Proof.
  intros Hc Hp s. apply Forall_forall. intros e Hin%list_elem_of_In.
  apply carries_other.
  - apply (count_zero_In _ (out_events (m s))); [apply Hc | exact Hin].
  - apply (count_zero_In _ (out_events (m s))); [apply Hp | exact Hin].
Qed.

Lemma Forall_carries_bind sent {A B} (m : M A) (k : A -> M B) :
  EvP (Forall (carries sent)) m ->
  (forall a, EvP (Forall (carries sent)) (k a)) ->
  EvP (Forall (carries sent)) (bind m k).
Proof.
  apply EvP_bind; [|constructor]. intros x y Hx Hy. apply Forall_app. now split.
Qed.

Lemma Never_persist_extract_content v : Never is_persist (_extract_content v).
Proof. unfold _extract_content. never. Qed.

(** The request [generate_text] sends has [message] as its user message. *)
Lemma generate_text_carries env message hist t0 n0 cfg :
  EvP (Forall (carries message)) (generate_text env message hist t0 n0 cfg).
Proof.
  intros s.
  destruct (generate_text_params env t0 n0 cfg s) as [[p Hp] | [e [Hp He]]];
    cbv zeta in Hp; unfold generate_text;
    set (params := match cfg with Some c => _ | None => _ end) in *;
    unfold bind at 1; rewrite Hp; cbn [out_res out_state out_events app].
  2: constructor.
  unfold bind at 1; unfold get_self at 1;
    cbn [out_res out_state out_events app];
    destruct (negb (Str.str_in "huggingface/" (INTERPRRETER_MODEL (st_self s)))
              && negb (Str.str_in "gpt" (INTERPRRETER_MODEL (st_self s))));
    unfold bind, modify_self, get_self, call_completion, ask, ret;
    cbn [out_res out_state out_events app st_self INTERPRRETER_MODEL with_model];
    (destruct (Str.str_in "gpt-3.5-turbo" _);
     cbn [out_res out_state out_events app];
     (destruct (completion env _ _ _ _ _);
      cbn [out_res out_state out_events app];
      constructor;
      try (unfold get_prompt; eexists; reflexivity);
      try constructor;
      try (apply (Forall_carries_of_never message (_extract_content _));
           [intros s'; apply extract_content_no_completion
           | apply Never_persist_extract_content]))).
Qed.

(** C6: in every turn the prompt that [handle_mode] renders goes to the
    model, and into the record of the turn, with the keyword directives
    for the language the session is in at that point.  The three tests
    are substring tests on the lower-cased prompt, so "telegraph" counts
    as "graph".  For python a "graph" match appends the Matplotlib
    directive for 'graph.png', a "chart" or "plot" match the directive for
    'chart.png', a "table" match the one for 'table.md'; for javascript
    the files are 'graph.png', 'chart.png' and 'table.html'; for any other
    language nothing is appended.  Because the tests run in sequence on
    the growing prompt and the graph directives themselves contain "plot"
    (python) and "chart" (javascript), a "graph" match brings the chart
    directive with it.  When the Config holds numbers the turn sends
    exactly one request. *)
Theorem C6_keyword_directives
    (env : Env) (task os_name command_mode start_sep end_sep : string)
    (skip_first_line : bool) (current_time : string) (s : State) (p : string) :
  out_res (handle_mode task os_name s) = Ok (Some p) ->
  let self := st_self (out_state (handle_mode task os_name s)) in
  let graph := Str.str_in "graph" (Str.lower p) in
  let chart := Str.str_in "chart" (Str.lower p) in
  let plot := Str.str_in "plot" (Str.lower p) in
  let table := Str.str_in "table" (Str.lower p) in
  let sent :=
    if String.eqb (INTERPRETER_LANGUAGE self) "python" then
      p +:+ opt graph
              "using Python use Matplotlib save the graph in file called 'graph.png'"
        +:+ opt (graph || chart || plot)
              "using Python use Plotly save the chart in file called 'chart.png'"
        +:+ opt table
              "using Python use Pandas save the table in file called 'table.md'"
    else if String.eqb (INTERPRETER_LANGUAGE self) "javascript" then
      p +:+ opt graph
              "using JavaScript use Chart.js save the graph in file called 'graph.png'"
        +:+ opt (graph || chart || plot)
              "using JavaScript use Chart.js save the chart in file called 'chart.png'"
        +:+ opt table
              "using JavaScript use DataTables save the table in file called 'table.html'"
    else p in
  let evs := out_events (turn env task os_name command_mode start_sep end_sep
                              skip_first_line current_time s) in
  Forall (carries sent) evs
  /\ (config_temperature env (config_values self) <> None ->
      config_max_tokens env (config_values self) <> None ->
      count is_completion evs = 1)
  /\ Str.str_in "graph" (Str.lower "Send a TELEGRAPH to Bob") = true
  /\ (graph = true <-> occurs "graph" (Str.lower p)).
Proof.
  intros Hh self graph chart plot table sent evs.
  assert (sent = augment (INTERPRETER_LANGUAGE self) p) as Hsent.
  { rewrite augment_closed. reflexivity. }
  clearbody sent. subst sent.
  split; [|split; [|split; [reflexivity | apply StrFacts.str_in_spec]]].
  - subst evs. unfold turn, display_code. rewrite events_bind. apply Forall_app. split.
    { apply (Forall_carries_of_never _ (handle_mode task os_name));
        [apply Never_completion_handle_mode | apply Never_handle_mode; auto]. }
    rewrite Hh. cbv beta. rewrite events_bind. apply Forall_app. split.
    { apply (Forall_carries_of_never _ (_clean_responses env));
        [apply Never_completion_clean | apply Never_clean_responses; auto]. }
    destruct (clean_responses_fs env (out_state (handle_mode task os_name s)))
      as [Hr Hs]. cbv zeta in Hr, Hs. rewrite Hr. cbv beta.
    assert (st_self (out_state (_clean_responses env
                                  (out_state (handle_mode task os_name s))))
            = self) as Hself by (rewrite Hs; reflexivity).
    clear Hr Hs. revert Hself.
    generalize (out_state (_clean_responses env
                             (out_state (handle_mode task os_name s)))).
    intros s2 Hself.
    rewrite ret_bind_events, get_self_bind_events. cbv beta zeta. rewrite Hself.
    match goal with
    | |- Forall _ (out_events (?k ?st)) =>
        cut (EvP (Forall (carries (augment (INTERPRETER_LANGUAGE self) p))) k);
        [intros Hk; apply Hk|]
    end.
    apply Forall_carries_bind; [apply generate_text_carries | intros generated].
    apply Forall_carries_bind; [apply Forall_carries_of_never; never | intros code].
    apply Forall_carries_bind; [apply Forall_carries_of_never; never | intros self'].
    apply Forall_carries_bind; [apply Forall_carries_of_never; never | intros _].
    apply Forall_carries_bind.
    { apply Forall_carries_of_never;
        (destruct (Str.nonempty code);
         [first [apply Never_completion_run_extracted
                | apply Never_run_extracted; auto]
         | never]). }
    intros _.
    apply Forall_carries_bind; [apply Forall_carries_of_never; never | intros self''].
    intros s3. unfold on_fs. cbn [out_events].
    constructor; [reflexivity | constructor].
  - intros Ht Hn. subst evs. unfold turn, display_code.
    rewrite count_bind, (Never_completion_handle_mode task os_name s), Hh.
    cbv beta. rewrite count_bind, (Never_completion_clean env _).
    destruct (clean_responses_fs env (out_state (handle_mode task os_name s)))
      as [Hr Hs]. cbv zeta in Hr, Hs. rewrite Hr. cbv beta.
    assert (st_self (out_state (_clean_responses env
                                  (out_state (handle_mode task os_name s))))
            = self) as Hself by (rewrite Hs; reflexivity).
    clear Hr Hs. revert Hself.
    generalize (out_state (_clean_responses env
                             (out_state (handle_mode task os_name s)))).
    intros s2 Hself.
    rewrite ret_bind_events, get_self_bind_events. cbv beta zeta.
    rewrite count_bind.
    destruct (config_temperature env (config_values self)) as [t|] eqn:Et;
      [|congruence].
    destruct (config_max_tokens env (config_values self)) as [n|] eqn:En;
      [|congruence].
    rewrite <- Hself in Et, En.
    destruct (generate_text_events env
                (augment (INTERPRETER_LANGUAGE (st_self s2)) p)
                (history (st_self s2)) default_temperature default_max_tokens
                (Some (config_values (st_self s2))) s2 t n) as [rest [E Hrest]].
    { apply config_params; assumption. }
    rewrite E.
    assert (count is_completion
              ((if Str.str_in "gpt-3.5-turbo" (INTERPRRETER_MODEL (st_self s2))
                then EvCompletion (INTERPRRETER_MODEL (st_self s2))
                       (get_prompt (st_self s2)
                          (augment (INTERPRETER_LANGUAGE (st_self s2)) p)
                          (history (st_self s2)))
                       0.1%float 2048%Z (Some (heaven_api_base, "openai"))
                else EvCompletion (prefixed (INTERPRRETER_MODEL (st_self s2)))
                       (get_prompt (st_self s2)
                          (augment (INTERPRETER_LANGUAGE (st_self s2)) p)
                          (history (st_self s2))) t n None) :: rest) = 1) as ->.
    { rewrite count_cons, Hrest.
      destruct (Str.str_in "gpt-3.5-turbo" _); reflexivity. }
    match goal with
    | |- 0 + (0 + (1 + match ?r with Ok _ => _ | Raise _ => _ end)) = 1 =>
        destruct r as [generated|]; [|reflexivity]
    end.
    match goal with
    | |- 0 + (0 + (1 + count is_completion (out_events (?m ?st)))) = 1 =>
        cut (Never is_completion m);
        [intros Hk; pose proof (Hk st) as Hk'; cbv beta in Hk'; now rewrite Hk'|]
    end.
    repeat first
      [ apply Never_completion_run_extracted
      | never_step ].
Qed.

Lemma C6_keyword_directives_witness :
  let env := sample_env ["send a telegraph"] "ls" (Ok (Some "a.txt", None)) in
  let s := started (sample_args "code" false) "code-llama" "" ∅ in
  let p := "Generate the code in python language for this task 'send a telegraph for Operating System: Linux'." in
  let self := st_self (out_state (handle_mode "send a telegraph" "Linux" s)) in
  let graph := Str.str_in "graph" (Str.lower p) in
  let chart := Str.str_in "chart" (Str.lower p) in
  let plot := Str.str_in "plot" (Str.lower p) in
  let table := Str.str_in "table" (Str.lower p) in
  let sent :=
    if String.eqb (INTERPRETER_LANGUAGE self) "python" then
      p +:+ opt graph
              "using Python use Matplotlib save the graph in file called 'graph.png'"
        +:+ opt (graph || chart || plot)
              "using Python use Plotly save the chart in file called 'chart.png'"
        +:+ opt table
              "using Python use Pandas save the table in file called 'table.md'"
    else if String.eqb (INTERPRETER_LANGUAGE self) "javascript" then
      p +:+ opt graph
              "using JavaScript use Chart.js save the graph in file called 'graph.png'"
        +:+ opt (graph || chart || plot)
              "using JavaScript use Chart.js save the chart in file called 'chart.png'"
        +:+ opt table
              "using JavaScript use DataTables save the table in file called 'table.html'"
    else p in
  let evs := out_events (turn env "send a telegraph" "Linux" "Code" "```" "```"
                              false "12:00:00" s) in
  (INTERPRETER_LANGUAGE self = "python" /\ graph = true /\ table = false)
  /\ Forall (carries sent) evs
  /\ (config_temperature env (config_values self) <> None ->
      config_max_tokens env (config_values self) <> None ->
      count is_completion evs = 1)
  /\ Str.str_in "graph" (Str.lower "Send a TELEGRAPH to Bob") = true
  /\ (graph = true <-> occurs "graph" (Str.lower p)).
Proof.
  split; [repeat split|].
  exact (C6_keyword_directives
           (sample_env ["send a telegraph"] "ls" (Ok (Some "a.txt", None)))
           "send a telegraph" "Linux" "Code" "```" "```" false "12:00:00"
           (started (sample_args "code" false) "code-llama" "" ∅)
           "Generate the code in python language for this task 'send a telegraph for Operating System: Linux'."
           eq_refl).
Defined.

(** ** Starting a session *)

(** *** Running a sequence step by step *)

Lemma bind_ret {A B} (a : A) (k : A -> M B) s : bind (ret a) k s = k a s.
Proof. unfold bind, ret. cbn [out_res out_state out_events app]. now destruct (k a s). Qed.

Lemma bind_raise {A B} (e : exn) (k : A -> M B) s : bind (raise e) k s = raise e s.
Proof. reflexivity. Qed.

Lemma bind_lift_ok {A B} (a : A) (k : A -> M B) s : bind (lift (Ok a)) k s = k a s.
Proof. unfold bind, lift. cbn [out_res out_state out_events app]. now destruct (k a s). Qed.

Lemma bind_lift_raise {A B} (e : exn) (k : A -> M B) s :
  bind (lift (Raise e)) k s = raise e s.
Proof. reflexivity. Qed.

Lemma bind_get_self {B} (k : Interpreter -> M B) s :
  bind get_self k s = k (st_self s) s.
Proof.
  unfold bind, get_self. cbn [out_res out_state out_events app].
  now destruct (k (st_self s) s).
Qed.

Lemma bind_modify_self {B} f (k : unit -> M B) s :
  bind (modify_self f) k s = k tt (update_self f s).
Proof.
  unfold bind, modify_self, update_self. cbn [out_res out_state out_events app].
  now destruct (k tt _).
Qed.

Lemma bind_emit {B} e (k : unit -> M B) s :
  bind (emit e) k s = prepend [e] (k tt s).
Proof. reflexivity. Qed.

Lemma bind_input {B} env p (k : string -> M B) s :
  input_error env (st_cursor s) = None ->
  bind (input env p) k s
  = prepend [EvInput p (stdin env (st_cursor s))]
            (k (stdin env (st_cursor s)) (after_input s)).
Proof. intros H. unfold bind, input. rewrite H. reflexivity. Qed.

Lemma bind_input_raises {B} env p (k : string -> M B) s e :
  input_error env (st_cursor s) = Some e ->
  bind (input env p) k s
  = {| out_res := Raise e; out_state := s; out_events := [EvInputRaised p] |}.
Proof. intros H. unfold bind, input. rewrite H. reflexivity. Qed.

(** Splits on whether the next read raises, and takes the step. *)
Ltac read_line H :=
  match goal with
  | |- context [bind (input ?env ?p) ?k ?s0] =>
      destruct (input_error env (st_cursor s0)) eqn:H;
      [ rewrite (bind_input_raises env p k s0 _ H)
      | rewrite (bind_input env p k s0 H) ]
  end.

Lemma bind_assoc {A B C} (m : M A) (f : A -> M B) (g : B -> M C) s :
  bind (bind m f) g s = bind m (fun a => bind (f a) g) s.
Proof.
  unfold bind. destruct (out_res (m s)) as [a|e];
    cbn [out_res out_state out_events]; [|reflexivity].
  destruct (out_res (f a (out_state (m s)))) as [b|e];
    cbn [out_res out_state out_events]; now rewrite ?app_assoc.
Qed.

Ltac client_start Hcfg :=
  unfold initialize_client;
  match goal with
  | |- context [String.eqb ?m ""] => destruct (String.eqb m "")
  end;
  rewrite !bind_ret, Hcfg, bind_lift_ok, !bind_modify_self, bind_get_self;
  cbn [update_self st_self st_fs st_cursor INTERPRRETER_MODEL config_values
       with_model with_config];
  match goal with
  | |- context [default "" (Some ?m)] => change (default "" (Some m)) with m
  end.

(** For a model whose final name has no "gpt" in it, [initialize_client]
    asks nothing.  It stores the Config and the model name (the HF_MODEL
    key of the Config if there is one, else the name given) and then
    succeeds exactly when the HuggingFace token is set, not empty and
    starts with "hf_"; otherwise it raises the matching message. *)
Theorem client_checks_token
    (env : Env) (st : Startup) (m : string) (cfg : gmap string string) (s : State) :
  read_config_file st (if String.eqb m "" then "configs/gpt-3.5-turbo.config"
                       else "configs/" +:+ m +:+ ".config") = Ok cfg ->
  Str.str_in "gpt" (default m (cfg !! "HF_MODEL")) = false ->
  let o := initialize_client env st (Some m) s in
  out_events o = []
  /\ st_cursor (out_state o) = st_cursor s
  /\ INTERPRRETER_MODEL (st_self (out_state o)) = default m (cfg !! "HF_MODEL")
  /\ config_values (st_self (out_state o)) = cfg
  /\ out_res o
     = match getenv_HUGGINGFACE_API_KEY st with
       | None => Raise (Exception "HuggingFace token not found in .env file.")
       | Some hf_token =>
           if negb (Str.nonempty hf_token) then
             Raise (Exception "HuggingFace token not found in .env file.")
           else if negb (Str.startswith "hf_" hf_token) then
             Raise (Exception "HuggingFace token should start with 'hf_'. Please check your .env file.")
           else Ok tt
       end.
Proof.
  intros Hcfg Hgpt. cbv zeta.
  client_start Hcfg; rewrite Hgpt;
    (destruct (getenv_HUGGINGFACE_API_KEY st) as [tok|];
     [destruct (negb (Str.nonempty tok));
      [|destruct (negb (Str.startswith "hf_" tok))]|]);
    unfold raise, ret;
    cbn [out_res out_state out_events app st_self st_fs st_cursor
         INTERPRRETER_MODEL config_values with_model with_config];
    repeat split.
Qed.

Lemma client_checks_token_witness :
  let env := sample_env [] "ls" (Ok (None, None)) in
  let st := sample_startup "Be brief." ∅ in
  let s := {| st_self := blank (sample_args "code" false); st_fs := ∅;
              st_cursor := 0 |} in
  let o := initialize_client env st (Some "code-llama") s in
  out_events o = []
  /\ st_cursor (out_state o) = st_cursor s
  /\ INTERPRRETER_MODEL (st_self (out_state o))
     = default "code-llama" ((∅ : gmap string string) !! "HF_MODEL")
  /\ config_values (st_self (out_state o)) = ∅
  /\ out_res o
     = match getenv_HUGGINGFACE_API_KEY st with
       | None => Raise (Exception "HuggingFace token not found in .env file.")
       | Some hf_token =>
           if negb (Str.nonempty hf_token) then
             Raise (Exception "HuggingFace token not found in .env file.")
           else if negb (Str.startswith "hf_" hf_token) then
             Raise (Exception "HuggingFace token should start with 'hf_'. Please check your .env file.")
           else Ok tt
       end.
Proof.
  apply (client_checks_token
           (sample_env [] "ls" (Ok (None, None)))
           (sample_startup "Be brief." ∅) "code-llama" ∅
           {| st_self := blank (sample_args "code" false); st_fs := ∅;
              st_cursor := 0 |});
    reflexivity.
Defined.

(** For a model whose final name contains "gpt", [initialize_client] asks
    its two questions, whatever the first answer, and never looks at the
    HuggingFace token: when both are answered and unless the browser call
    raises, it succeeds exactly when the second answer is 'y' or 'Y' and
    leaves with [exit(1)] otherwise. *)
Theorem client_gpt_needs_agreement
    (env : Env) (st : Startup) (m : string) (cfg : gmap string string) (s : State) :
  read_config_file st (if String.eqb m "" then "configs/gpt-3.5-turbo.config"
                       else "configs/" +:+ m +:+ ".config") = Ok cfg ->
  Str.str_in "gpt" (default m (cfg !! "HF_MODEL")) = true ->
  webbrowser_open st heaven_terms_url = None ->
  input_error env (st_cursor s) = None ->
  input_error env (S (st_cursor s)) = None ->
  let o := initialize_client env st (Some m) s in
  let agree := stdin env (S (st_cursor s)) in
  st_cursor (out_state o) = S (S (st_cursor s))
  /\ out_res o = (if String.eqb (Str.lower agree) "y" then Ok tt
                  else Raise (SystemExit "1"))
  /\ (out_res o = Ok tt <-> agree = "y" \/ agree = "Y").
Proof.
  intros Hcfg Hgpt Hweb Hin1 Hin2. cbv zeta.
  assert (st_cursor (out_state (initialize_client env st (Some m) s))
          = S (S (st_cursor s))
          /\ out_res (initialize_client env st (Some m) s)
             = (if String.eqb (Str.lower (stdin env (S (st_cursor s)))) "y"
                then Ok tt else Raise (SystemExit "1"))) as [H1 H2].
  { client_start Hcfg; rewrite Hgpt;
      unfold display_markdown_message;
      rewrite bind_emit, bind_input by exact Hin1; cbv beta;
      cbn [after_input update_self st_cursor st_self st_fs];
      (destruct (String.eqb (Str.lower (stdin env (st_cursor s))) "y");
       [rewrite bind_assoc, bind_emit, Hweb, bind_lift_ok | rewrite bind_ret];
       rewrite bind_input by exact Hin2; cbv beta;
       cbn [after_input update_self st_cursor];
       destruct (String.eqb (Str.lower (stdin env (S (st_cursor s)))) "y");
       unfold raise, ret;
       cbn [negb prepend out_res out_state out_events app st_self st_fs st_cursor
            after_input update_self];
       split; reflexivity). }
  split; [exact H1|]. split; [exact H2|]. rewrite H2, <- lower_is_y.
  destruct (String.eqb_spec (Str.lower (stdin env (S (st_cursor s)))) "y");
    split; intros; try reflexivity; try congruence; try discriminate.
Qed.

Lemma client_gpt_needs_agreement_witness :
  let env := sample_env ["n"; "n"] "ls" (Ok (None, None)) in
  let st := sample_startup "Be brief." ∅ in
  let s := {| st_self := blank (sample_args "code" false); st_fs := ∅;
              st_cursor := 0 |} in
  let o := initialize_client env st (Some "gpt-3.5-turbo") s in
  let agree := stdin env (S (st_cursor s)) in
  st_cursor (out_state o) = S (S (st_cursor s))
  /\ out_res o = (if String.eqb (Str.lower agree) "y" then Ok tt
                  else Raise (SystemExit "1"))
  /\ (out_res o = Ok tt <-> agree = "y" \/ agree = "Y").
Proof.
  apply (client_gpt_needs_agreement
           (sample_env ["n"; "n"] "ls" (Ok (None, None)))
           (sample_startup "Be brief." ∅) "gpt-3.5-turbo" ∅
           {| st_self := blank (sample_args "code" false); st_fs := ∅;
              st_cursor := 0 |});
    reflexivity.
Defined.


(** *** The whole start *)

Lemma bind_of_ok {A B} (m : M A) (k : A -> M B) s a s' evs :
  m s = {| out_res := Ok a; out_state := s'; out_events := evs |} ->
  bind m k s = prepend evs (k a s').
Proof. intros H. unfold bind. rewrite H. reflexivity. Qed.

Lemma bind_of_raise {A B} (m : M A) (k : A -> M B) s e s' evs :
  m s = {| out_res := Raise e; out_state := s'; out_events := evs |} ->
  bind m k s = {| out_res := Raise e; out_state := s'; out_events := evs |}.
Proof. intros H. unfold bind. rewrite H. reflexivity. Qed.

Lemma prepend_nil {A} (o : Out A) : prepend [] o = o.
Proof. now destruct o. Qed.

Lemma initialize_mode_eq (s : State) :
  initialize_mode s
  = {| out_res := Ok tt; out_state := update_self with_mode_of_args s;
       out_events := [] |}.
Proof.
  unfold initialize_mode.
  rewrite bind_get_self, !bind_modify_self, bind_get_self.
  cbn [update_self st_self st_fs st_cursor SCRIPT_MODE COMMAND_MODE CODE_MODE
       with_modes args].
  pose proof (mode_is_script_command (args_mode (args (st_self s)))) as Hx.
  unfold with_mode_of_args, update_self, modify_self, ret.
  destruct (args_mode (args (st_self s))) as [x|];
    cbn [mode_is] in *; [|reflexivity].
  destruct (String.eqb x "script") eqn:Hs, (String.eqb x "command") eqn:Hk;
    cbn [negb andb orb] in *; try discriminate Hx.
  - apply String.eqb_eq in Hs as ->. reflexivity.
  - apply String.eqb_eq in Hk as ->. reflexivity.
  - destruct (String.eqb x "code"); reflexivity.
Qed.

(** Reading the system message: the text is stored, or the error is
    raised again, logged if it is an [Exception]. *)
Lemma system_message_block st s :
  try_except_Exception
    (bind (lift (read_system_message st)) (fun text =>
       modify_self (with_system_message text)))
    (fun exception =>
       bind (emit (EvLogError ("Error occurred while reading system_message.txt: "
                               +:+ exn_text exception)))
            (fun _ => raise exception)) s
  = match read_system_message st with
    | Ok text =>
        {| out_res := Ok tt; out_state := update_self (with_system_message text) s;
           out_events := [] |}
    | Raise e =>
        {| out_res := Raise e; out_state := s;
           out_events :=
             if is_Exception e
             then [EvLogError ("Error occurred while reading system_message.txt: "
                               +:+ exn_text e)]
             else [] |}
    end.
Proof.
  unfold try_except_Exception, try_except, bind, lift, modify_self, emit, raise,
    update_self.
  destruct (read_system_message st) as [text|e]; [reflexivity|].
  cbn [out_res out_state out_events app].
  destruct (is_Exception e); reflexivity.
Qed.

(** A client that is ready holds the Config of its model and the final
    model name; nothing else of the object has changed, nor has the
    directory. *)
Lemma initialize_client_ok env st m s :
  out_res (initialize_client env st (Some m) s) = Ok tt ->
  exists cfg,
    read_config_file st (if String.eqb m "" then "configs/gpt-3.5-turbo.config"
                         else "configs/" +:+ m +:+ ".config") = Ok cfg
    /\ st_self (out_state (initialize_client env st (Some m) s))
       = with_model (default m (cfg !! "HF_MODEL")) (with_config cfg (st_self s))
    /\ st_fs (out_state (initialize_client env st (Some m) s)) = st_fs s.
Proof.
  unfold initialize_client.
  destruct (String.eqb m ""); rewrite bind_ret;
    (destruct (read_config_file st _) as [cfg|e] eqn:Hcfg;
     [rewrite bind_lift_ok | rewrite bind_lift_raise; discriminate]);
    rewrite !bind_modify_self, bind_get_self;
    cbn [update_self st_self st_fs st_cursor INTERPRRETER_MODEL config_values
         with_model with_config];
    change (default "" (Some m)) with m;
    (intros H; exists cfg; split; [reflexivity|]; revert H);
    (destruct (Str.str_in "gpt" (default m (cfg !! "HF_MODEL")));
     [ unfold display_markdown_message;
       rewrite bind_emit; read_line Hin1; cbv beta;
       cbn [after_input update_self st_cursor st_self st_fs];
       [|(destruct (String.eqb (Str.lower (stdin env (st_cursor s))) "y");
          [ rewrite bind_assoc, bind_emit;
            destruct (webbrowser_open st heaven_terms_url);
            [rewrite bind_lift_raise | rewrite bind_lift_ok]
          | rewrite bind_ret ]);
         try (read_line Hin2; cbv beta;
              cbn [after_input update_self st_cursor st_self st_fs]);
         try destruct (String.eqb (Str.lower (stdin env (S (st_cursor s)))) "y")]
     | destruct (getenv_HUGGINGFACE_API_KEY st) as [tok|];
       [destruct (negb (Str.nonempty tok));
        [|destruct (negb (Str.startswith "hf_" tok))]|] ]);
    unfold raise, ret;
    cbn [negb prepend out_res out_state out_events app st_self st_fs st_cursor
         after_input update_self];
    intros H; try discriminate H; split; reflexivity.
Qed.

Lemma initialize_client_none env st s :
  initialize_client env st None s
  = {| out_res := Raise (AttributeError "'NoneType' object has no attribute 'strip'");
       out_state := s; out_events := [] |}.
Proof. unfold initialize_client. rewrite bind_raise. reflexivity. Qed.

(** [__init__], step by step, down to the call of [initialize_client]. *)
Lemma init_run env st a fs cursor :
  __init__ env st a fs cursor
  = match read_system_message st with
    | Raise e =>
        {| out_res := Raise e; out_state := before_client a "" fs cursor;
           out_events :=
             if is_Exception e
             then [EvLogError ("Error occurred while reading system_message.txt: "
                               +:+ exn_text e)]
             else [] |}
    | Ok text =>
        let c := initialize_client env st
                   (if truthy (args_model a) then args_model a else None)
                   (before_client a text fs cursor) in
        match out_res c with
        | Raise _ => c
        | Ok _ =>
            {| out_res := Ok tt;
               out_state := update_self with_mode_of_args (out_state c);
               out_events := out_events c ++ readline_log st |}
        end
    end.
Proof.
  unfold __init__, initialize.
  rewrite bind_get_self. cbv zeta. rewrite !bind_modify_self.
  match goal with
  | |- bind (try_except_Exception _ _) _ ?s = _ =>
      pose proof (system_message_block st s) as Hb
  end.
  destruct (read_system_message st) as [text|e].
  - rewrite (bind_of_ok _ _ _ _ _ _ Hb), prepend_nil. clear Hb.
    match goal with
    | |- bind (initialize_client _ _ ?mo) _ ?s = _ =>
        change s with (before_client a text fs cursor);
        change mo with (if truthy (args_model a) then args_model a else None)
    end.
    destruct (initialize_client env st _ (before_client a text fs cursor))
      as [[[]|e] s5 ev5] eqn:Hc.
    + rewrite (bind_of_ok _ _ _ _ _ _ Hc).
      rewrite (bind_of_ok _ _ _ _ _ _ (initialize_mode_eq s5)), prepend_nil.
      unfold try_except, lift, emit, readline_log, prepend.
      destruct (initialize_readline_history st);
        cbn [out_res out_state out_events app]; reflexivity.
    + rewrite (bind_of_raise _ _ _ _ _ _ Hc). reflexivity.
  - rewrite (bind_of_raise _ _ _ _ _ _ Hb). reflexivity.
Qed.

Lemma truthy_some (v : option string) :
  truthy v = true -> exists m, v = Some m /\ String.eqb m "" = false.
Proof.
  destruct v as [[|c m]|]; cbn [truthy Str.nonempty]; try discriminate.
  intros _. exists (String c m). split; reflexivity.
Qed.

(** Without a model name the start fails: the model is [None] when
    [initialize_client] strips it, so the object is never built, whatever
    the files hold; nothing is asked on the terminal and the directory is
    as it was. *)
Theorem init_needs_a_model env st a fs cursor :
  truthy (args_model a) = false ->
  out_res (__init__ env st a fs cursor)
  = Raise match read_system_message st with
          | Ok _ => AttributeError "'NoneType' object has no attribute 'strip'"
          | Raise e => e
          end
  /\ st_cursor (out_state (__init__ env st a fs cursor)) = cursor
  /\ st_fs (out_state (__init__ env st a fs cursor)) = fs
  /\ Forall (fun e => is_confirm e = false) (out_events (__init__ env st a fs cursor)).
Proof.
  intros Hm. rewrite init_run, Hm.
  destruct (read_system_message st) as [text|e]; cbv zeta.
  - rewrite initialize_client_none. cbn [out_res out_state out_events].
    split; [reflexivity|]. split; [reflexivity|]. split; [reflexivity|].
    constructor.
  - cbn [out_res out_state out_events].
    split; [reflexivity|]. split; [reflexivity|]. split; [reflexivity|].
    destruct (is_Exception e); repeat constructor.
Qed.

Lemma init_needs_a_model_witness :
  let o := __init__ (sample_env [] "ls" (Ok (None, None)))
                    (sample_startup "Be brief." ∅) no_model_args ∅ 0 in
  out_res o = Raise (AttributeError "'NoneType' object has no attribute 'strip'")
  /\ st_cursor (out_state o) = 0
  /\ st_fs (out_state o) = ∅
  /\ Forall (fun e => is_confirm e = false) (out_events o).
Proof.
  apply (init_needs_a_model (sample_env [] "ls" (Ok (None, None)))
           (sample_startup "Be brief." ∅) no_model_args ∅ 0).
  reflexivity.
Defined.

(** A system message that cannot be read is fatal: the error is raised
    again, before the Config is looked for and before anything is asked.
    An [Exception] is logged once on the way; what is not an [Exception]
    passes the handler without a log line.  The language, the switches
    and the model name are set by then, the system message is empty. *)
Theorem init_system_message_unreadable env st a fs cursor e :
  read_system_message st = Raise e ->
  __init__ env st a fs cursor
  = {| out_res := Raise e; out_state := before_client a "" fs cursor;
       out_events :=
         if is_Exception e
         then [EvLogError ("Error occurred while reading system_message.txt: "
                           +:+ exn_text e)]
         else [] |}.
Proof. intros H. rewrite init_run, H. reflexivity. Qed.

Lemma init_system_message_unreadable_witness :
  __init__ (sample_env [] "ls" (Ok (None, None))) no_system_message
           (sample_args "code" false) ∅ 0
  = {| out_res := Raise {| exn_type := "FileNotFoundError";
                           exn_text := "[Errno 2] No such file or directory: 'system/system_message.txt'" |};
       out_state := before_client (sample_args "code" false) "" ∅ 0;
       out_events := [EvLogError ("Error occurred while reading system_message.txt: "
                                  +:+ "[Errno 2] No such file or directory: 'system/system_message.txt'")] |}.
Proof.
  apply (init_system_message_unreadable (sample_env [] "ls" (Ok (None, None)))
           no_system_message (sample_args "code" false) ∅ 0).
  reflexivity.
Defined.

(** An object that [__init__] returns was given a model name, found its
    system message and the Config of that model, and is the object the
    session starts from: its switches are the arguments, its model is the
    Config's [HF_MODEL] or else the name given, its history is empty and
    one mode is set. *)
Theorem init_ok_object env st a fs cursor :
  out_res (__init__ env st a fs cursor) = Ok tt ->
  exists m text cfg,
    args_model a = Some m /\ m <> ""
    /\ read_system_message st = Ok text
    /\ read_config_file st ("configs/" +:+ m +:+ ".config") = Ok cfg
    /\ st_self (out_state (__init__ env st a fs cursor))
       = st_self (started a (default m (cfg !! "HF_MODEL")) text cfg)
    /\ st_fs (out_state (__init__ env st a fs cursor)) = fs.
Proof.
  rewrite init_run.
  destruct (read_system_message st) as [text|e]; [|discriminate]. cbv zeta.
  destruct (truthy (args_model a)) eqn:Hm;
    [|rewrite initialize_client_none; discriminate].
  apply truthy_some in Hm as (m & Hm & Hne). rewrite Hm.
  destruct (out_res (initialize_client env st (Some m) (before_client a text fs cursor)))
    as [[]|e] eqn:Hc.
  - intros _. apply initialize_client_ok in Hc as (cfg & Hcfg & Hself & Hfs).
    rewrite Hne in Hcfg.
    exists m, text, cfg.
    split; [reflexivity|]. split; [intros ->; discriminate Hne|].
    split; [reflexivity|]. split; [exact Hcfg|].
    unfold started. rewrite initialize_mode_eq.
    cbn [out_state update_self st_self st_fs]. rewrite Hself, Hfs.
    split; reflexivity.
  - intros H. rewrite Hc in H. discriminate H.
Qed.

Lemma init_ok_object_witness :
  let env := sample_env [] "ls" (Ok (None, None)) in
  let st := sample_startup "Be brief." ∅ in
  let a := sample_args "script" true in
  exists m text cfg,
    args_model a = Some m /\ m <> ""
    /\ read_system_message st = Ok text
    /\ read_config_file st ("configs/" +:+ m +:+ ".config") = Ok cfg
    /\ st_self (out_state (__init__ env st a ∅ 0))
       = st_self (started a (default m (cfg !! "HF_MODEL")) text cfg)
    /\ st_fs (out_state (__init__ env st a ∅ 0)) = ∅.
Proof.
  apply (init_ok_object (sample_env [] "ls" (Ok (None, None)))
           (sample_startup "Be brief." ∅) (sample_args "script" true) ∅ 0).
  vm_compute. reflexivity.
Defined.

(** The readline history is optional: whether it can be set up changes
    neither the outcome of [__init__] nor the object and the directory it
    leaves, only whether one error line is logged at the end. *)
Theorem init_readline_history_optional env st r a fs cursor :
  let o := __init__ env st a fs cursor in
  let o' := __init__ env (with_readline_history r st) a fs cursor in
  out_res o' = out_res o
  /\ out_state o' = out_state o
  /\ exists evs,
      out_events o
      = evs ++ match out_res o with Ok _ => readline_log st | Raise _ => [] end
      /\ out_events o'
         = evs ++ match out_res o with
                  | Ok _ => readline_log (with_readline_history r st)
                  | Raise _ => []
                  end.
Proof.
  cbv zeta. rewrite !init_run.
  change (read_system_message (with_readline_history r st))
    with (read_system_message st).
  destruct (read_system_message st) as [text|e]; cbv zeta.
  - change (initialize_client env (with_readline_history r st))
      with (initialize_client env st).
    destruct (initialize_client env st _ (before_client a text fs cursor))
      as [[[]|e] s5 ev5]; cbn [out_res out_state out_events].
    + split; [reflexivity|]. split; [reflexivity|].
      exists ev5. split; reflexivity.
    + split; [reflexivity|]. split; [reflexivity|].
      exists ev5. rewrite app_nil_r. split; reflexivity.
  - cbn [out_res out_state out_events].
    split; [reflexivity|]. split; [reflexivity|].
    eexists. rewrite app_nil_r. split; reflexivity.
Qed.
